(** * The itinerary optimizer of [netlify/functions/optimizer.py]

    A shallow embedding of class [ItineraryOptimizer] and the properties
    its specification states about it; then of the code around it, the
    statements with which [app.py], [netlify/functions/optimize.py],
    [main.py] and [example_usage.py] prepare its inputs and the mock
    scrapers of [scraper.py], with further properties that the code shows.

    Numbers.  The optimizer computes on Python floats and NumPy float64
    arrays.  They are embedded as [pyfloat]: a finite value is an exact
    rational ([Qc], canonical fractions, so Python's [==] on finite values
    is Leibniz equality), and the three special values +inf, -inf and NaN
    are kept with their IEEE-754 rules, because the optimizer produces them
    itself ([float('inf')] is the default of a missing price or duration).
    Rounding, overflow to infinity, signed zeros and the int/float
    distinction of Python are not modelled.

    Dates.  A naive [datetime] at midnight is represented by its proleptic
    Gregorian ordinal (what [toordinal()] returns), with CPython's
    [_ymd2ord] / [_ord2ymd] behind [strptime] and [strftime].  Texts are
    strings of 8-bit characters, so the only digits are ASCII.

    Errors.  Python exceptions are values of [exn]; fallible code returns
    a [result]. *)

From Stdlib Require Import ZArith QArith Qcanon Lqa List String Ascii Bool Lia.
From Stdlib Require Import Permutation Sorted.
From Equations Require Import Equations.
Import ListNotations.

Close Scope Qc_scope.
Close Scope Q_scope.

Set Implicit Arguments.

(** ** Exceptions *)

Inductive exn : Type :=
| ValueError
| IndexError
| OverflowError
| ZeroDivisionError.

Inductive result (A : Type) : Type :=
| Ok (a : A)
| Raise (e : exn).

Arguments Ok {A} a.
Arguments Raise {A} e.

Definition bind {A B : Type} (r : result A) (k : A -> result B) : result B :=
  match r with
  | Ok a => k a
  | Raise e => Raise e
  end.

Notation "x <- r ;; k" := (bind r (fun x => k))
  (at level 61, r at next level, right associativity).

(** ** Python floats *)

Module Float.

Inductive pyfloat : Type :=
| Fin (q : Qc)
| PInf
| NInf
| NaN.

(** Literals: [n # d] is the decimal literal with that exact value. *)
Definition lit (n : Z) (d : positive) : pyfloat := Fin (Q2Qc (n # d)).
Definition of_Z (n : Z) : pyfloat := lit n 1.

Definition zero : pyfloat := of_Z 0.
Definition one : pyfloat := of_Z 1.

Definition is_nan (x : pyfloat) : bool :=
  match x with NaN => true | _ => false end.

Definition is_finite (x : pyfloat) : bool :=
  match x with Fin _ => true | _ => false end.

Definition neg (x : pyfloat) : pyfloat :=
  match x with
  | Fin q => Fin (- q)%Qc
  | PInf => NInf
  | NInf => PInf
  | NaN => NaN
  end.

Definition add (x y : pyfloat) : pyfloat :=
  match x, y with
  | NaN, _ | _, NaN => NaN
  | PInf, NInf | NInf, PInf => NaN
  | PInf, _ | _, PInf => PInf
  | NInf, _ | _, NInf => NInf
  | Fin a, Fin b => Fin (a + b)%Qc
  end.

Definition sub (x y : pyfloat) : pyfloat := add x (neg y).

(** The sign of an infinite product or quotient. *)
Definition signed_inf (c : comparison) (pos : bool) : pyfloat :=
  match c with
  | Eq => NaN
  | Gt => if pos then PInf else NInf
  | Lt => if pos then NInf else PInf
  end.

Definition mul (x y : pyfloat) : pyfloat :=
  match x, y with
  | NaN, _ | _, NaN => NaN
  | Fin a, Fin b => Fin (a * b)%Qc
  | Fin a, PInf | PInf, Fin a => signed_inf (a ?= 0)%Qc true
  | Fin a, NInf | NInf, Fin a => signed_inf (a ?= 0)%Qc false
  | PInf, PInf | NInf, NInf => PInf
  | PInf, NInf | NInf, PInf => NInf
  end.

(** NumPy's [/] on float64: IEEE division, which never raises (a zero
    divisor gives an infinity or NaN and a warning). *)
Definition np_div (x y : pyfloat) : pyfloat :=
  match x, y with
  | NaN, _ | _, NaN => NaN
  | Fin a, Fin b =>
      match (b ?= 0)%Qc with
      | Eq => signed_inf (a ?= 0)%Qc true
      | _ => Fin (a / b)%Qc
      end
  | Fin _, (PInf | NInf) => zero
  | PInf, Fin b =>
      match (b ?= 0)%Qc with Lt => NInf | _ => PInf end
  | NInf, Fin b =>
      match (b ?= 0)%Qc with Lt => PInf | _ => NInf end
  | (PInf | NInf), (PInf | NInf) => NaN
  end.

(** Python's [/] on floats: as IEEE, but a zero divisor raises. *)
Definition truediv (x y : pyfloat) : result pyfloat :=
  match y with
  | Fin b =>
      match (b ?= 0)%Qc with
      | Eq => Raise ZeroDivisionError
      | _ => Ok (np_div x y)
      end
  | _ => Ok (np_div x y)
  end.

Definition abs (x : pyfloat) : pyfloat :=
  match x with
  | Fin q => match (q ?= 0)%Qc with Lt => Fin (- q)%Qc | _ => Fin q end
  | PInf | NInf => PInf
  | NaN => NaN
  end.

(** Comparisons: every comparison with NaN is false. *)
Definition ltb (x y : pyfloat) : bool :=
  match x, y with
  | NaN, _ | _, NaN => false
  | Fin a, Fin b => match (a ?= b)%Qc with Lt => true | _ => false end
  | NInf, NInf | PInf, _ => false
  | NInf, _ => true
  | Fin _, PInf => true
  | Fin _, NInf => false
  end.

Definition leb (x y : pyfloat) : bool :=
  match x, y with
  | NaN, _ | _, NaN => false
  | Fin a, Fin b => match (a ?= b)%Qc with Gt => false | _ => true end
  | NInf, _ | _, PInf => true
  | PInf, _ => false
  | Fin _, NInf => false
  end.

Definition gtb (x y : pyfloat) : bool := ltb y x.

(** Python's [==] on floats. *)
Definition eqb (x y : pyfloat) : bool :=
  match x, y with
  | Fin a, Fin b => match (a ?= b)%Qc with Eq => true | _ => false end
  | PInf, PInf | NInf, NInf => true
  | _, _ => false
  end.

(** What [list.index] compares with: identity or [==].  A value is
    identical to itself, so here NaN matches NaN. *)
Definition same (x y : pyfloat) : bool :=
  match x, y with
  | NaN, NaN => true
  | _, _ => eqb x y
  end.

End Float.

Import Float.

Declare Scope pyfloat_scope.
Delimit Scope pyfloat_scope with F.
Bind Scope pyfloat_scope with pyfloat.
Infix "+" := add : pyfloat_scope.
Infix "-" := sub : pyfloat_scope.
Infix "*" := mul : pyfloat_scope.
Infix "/" := np_div : pyfloat_scope.
Infix "<?" := ltb : pyfloat_scope.
Infix "<=?" := leb : pyfloat_scope.
Infix ">?" := gtb : pyfloat_scope.
Infix "==?" := eqb (at level 70) : pyfloat_scope.

(** ** Candidates

    A candidate is a Python dict.  Only the keys the optimizer reads are
    kept, each one optional ([None]: the key is absent); [name] stands for
    the keys it never reads (airline, hotel name, ...). *)

Record candidate : Type := mkCandidate {
  name : option string;
  total_price : option pyfloat;
  duration_hours : option pyfloat;
  rating : option pyfloat;
  price_per_person : option pyfloat;
  date : option string
}.

(** [d.get(key, default)] for a numeric key. *)
Definition get (field : candidate -> option pyfloat) (c : candidate)
    (default : pyfloat) : pyfloat :=
  match field c with
  | Some v => v
  | None => default
  end.

(** Truth value of a dict: [False] only for the empty dict. *)
Definition truthy (c : candidate) : bool :=
  match name c, total_price c, duration_hours c,
        rating c, price_per_person c, date c with
  | None, None, None, None, None, None => false
  | _, _, _, _, _, _ => true
  end.

(** ** Sequences *)

(** [l[i]] for a non-negative index; out of range raises. *)
Definition getitem {A : Type} (l : list A) (i : nat) : result A :=
  match nth_error l i with
  | Some a => Ok a
  | None => Raise IndexError
  end.

(** [l.index(x)]: the first position holding [x]; [ValueError] if none. *)
Fixpoint index_from (x : pyfloat) (l : list pyfloat) (i : nat) : result nat :=
  match l with
  | [] => Raise ValueError
  | y :: l' => if same y x then Ok i else index_from x l' (S i)
  end.

Definition index (l : list pyfloat) (x : pyfloat) : result nat :=
  index_from x l 0.

(** [enumerate(l)]. *)
Definition enumerate {A : Type} (l : list A) : list (nat * A) :=
  combine (seq 0 (List.length l)) l.

(** ** NumPy reductions *)

(** One step of [np.max]: NaN propagates. *)
Definition max_step (acc x : pyfloat) : pyfloat :=
  if is_nan acc then acc
  else if is_nan x then x
  else if (acc <? x)%F then x else acc.

Definition min_step (acc x : pyfloat) : pyfloat :=
  if is_nan acc then acc
  else if is_nan x then x
  else if (x <? acc)%F then x else acc.

(** [np.max] and [np.min] of the non-empty array [x0 :: l]. *)
Definition np_max (x0 : pyfloat) (l : list pyfloat) : pyfloat :=
  fold_left max_step l x0.

Definition np_min (x0 : pyfloat) (l : list pyfloat) : pyfloat :=
  fold_left min_step l x0.

(** [np.argmax]: the scan of NumPy's float argmax.  The first NaN wins;
    otherwise the first occurrence of the maximum. *)
Fixpoint argmax_scan (mp : pyfloat) (max_ind i : nat) (l : list pyfloat) : nat :=
  match l with
  | [] => max_ind
  | x :: l' =>
      if is_nan mp then max_ind
      else if negb (x <=? mp)%F then argmax_scan x i (S i) l'
      else argmax_scan mp max_ind (S i) l'
  end.

Definition np_argmax (l : list pyfloat) : result nat :=
  match l with
  | [] => Raise ValueError
  | x :: l' => Ok (argmax_scan x 0 1 l')
  end.

(** [np.ones_like]. *)
Definition ones_like (l : list pyfloat) : list pyfloat :=
  map (fun _ => one) l.

(** ** The optimizer *)

Record ItineraryOptimizer : Type := mkOptimizer {
  cost_weight : pyfloat;
  time_weight : pyfloat
}.

(** [__init__]. *)
Definition init (cost_weight time_weight : pyfloat) : result ItineraryOptimizer :=
  if (abs (cost_weight + time_weight - one) >? lit 1 100)%F
  then Raise ValueError
  else Ok (mkOptimizer cost_weight time_weight).

Section Methods.

Variable self : ItineraryOptimizer.

Definition normalize_cost (costs : list pyfloat) : list pyfloat :=
  match costs with
  | [] => []
  | c0 :: rest =>
      let max_cost := np_max c0 rest in
      let min_cost := np_min c0 rest in
      if (max_cost ==? min_cost)%F then ones_like costs
      else map (fun c => one - (c - min_cost) / (max_cost - min_cost))%F costs
  end.

Definition normalize_time (times : list pyfloat) : list pyfloat :=
  match times with
  | [] => []
  | t0 :: rest =>
      let max_time := np_max t0 rest in
      let min_time := np_min t0 rest in
      if (max_time ==? min_time)%F then ones_like times
      else map (fun t => one - (t - min_time) / (max_time - min_time))%F times
  end.

Definition calculate_score (cost time : pyfloat)
    (all_costs all_times : list pyfloat) : result pyfloat :=
  let cost_normalized := normalize_cost all_costs in
  let time_normalized := normalize_time all_times in
  cost_idx <- index all_costs cost ;;
  time_idx <- index all_times time ;;
  cost_score <- getitem cost_normalized cost_idx ;;
  time_score <- getitem time_normalized time_idx ;;
  Ok (cost_weight self * cost_score + time_weight self * time_score)%F.

(** The loop of [select_best_flight] that fills [scores]. *)
Fixpoint flight_scores_loop (todo : list (nat * candidate))
    (costs times : list pyfloat) : result (list pyfloat) :=
  match todo with
  | [] => Ok []
  | (i, _) :: todo' =>
      c <- getitem costs i ;;
      t <- getitem times i ;;
      score <- calculate_score c t costs times ;;
      scores <- flight_scores_loop todo' costs times ;;
      Ok (score :: scores)
  end.

Definition flight_scores (flights : list candidate) : result (list pyfloat) :=
  let costs := map (fun f => get total_price f PInf) flights in
  let times := map (fun f => get duration_hours f PInf) flights in
  flight_scores_loop (enumerate flights) costs times.

Definition select_best_flight (flights : list candidate)
    : result (option candidate) :=
  match flights with
  | [] => Ok None
  | _ =>
      scores <- flight_scores flights ;;
      best_idx <- np_argmax scores ;;
      best <- getitem flights best_idx ;;
      Ok (Some best)
  end.

(** The rating normalisation inlined in [select_best_hotel]
    (higher is better). *)
Definition rating_scores (ratings : list pyfloat) : list pyfloat :=
  match ratings with
  | [] => []
  | r0 :: rest =>
      let max_rating := np_max r0 rest in
      let min_rating := np_min r0 rest in
      if (max_rating ==? min_rating)%F then ones_like ratings
      else map (fun r => (r - min_rating) / (max_rating - min_rating))%F ratings
  end.

Definition hotel_scores (hotels : list candidate) : list pyfloat :=
  let costs := map (fun h => get total_price h PInf) hotels in
  let ratings := map (fun h => get rating h zero) hotels in
  let cost_scores := normalize_cost costs in
  map (fun cr => cost_weight self * fst cr + time_weight self * snd cr)%F
      (combine cost_scores (rating_scores ratings)).

Definition select_best_hotel (hotels : list candidate)
    : result (option candidate) :=
  match hotels with
  | [] => Ok None
  | _ =>
      best_idx <- np_argmax (hotel_scores hotels) ;;
      best <- getitem hotels best_idx ;;
      Ok (Some best)
  end.

End Methods.

(** ** Sorting

    [list.sort(key=..., reverse=True)] as CPython runs it: the list is
    reversed, sorted ascending by a stable sort that only asks [key x < key
    y], and reversed again.  The stable sort is an insertion sort that puts
    each element after the ones already placed whose key is not greater.
    On keys without NaN, where [<] is a strict weak order, every stable
    sort returns this list, CPython's included.  With a NaN among the keys
    the answers to [<] are inconsistent and what CPython returns depends on
    how its sort detects runs, which is not modelled: the properties that
    depend on the order are stated for keys without NaN. *)

Section Sort.

Variable A : Type.

Fixpoint insort (x : pyfloat * A) (placed : list (pyfloat * A))
    : list (pyfloat * A) :=
  match placed with
  | [] => [x]
  | y :: rest =>
      if (fst x <? fst y)%F then x :: y :: rest else y :: insort x rest
  end.

Definition stable_sort (l : list (pyfloat * A)) : list (pyfloat * A) :=
  fold_left (fun placed x => insort x placed) l [].

Definition sort_reverse (l : list (pyfloat * A)) : list (pyfloat * A) :=
  rev (stable_sort (rev l)).

End Sort.

(** ** Activities of one day *)

(** The first loop of [select_activities]: keep the activities with a
    positive price and duration, each with its value score. *)
Fixpoint activities_with_value (activities : list candidate)
    : result (list (pyfloat * candidate)) :=
  match activities with
  | [] => Ok []
  | activity :: rest =>
      let price := get price_per_person activity PInf in
      let rating := get rating activity zero in
      let duration := get duration_hours activity zero in
      if (price >? zero)%F && (duration >? zero)%F then
        reference <- truediv price (of_Z 50) ;;
        value_score <- truediv (rating * of_Z 2) reference ;;
        others <- activities_with_value rest ;;
        Ok ((value_score, activity) :: others)
      else activities_with_value rest
  end.

(** The second loop: one greedy pass over the sorted activities. *)
Fixpoint greedy_pass (todo : list (pyfloat * candidate))
    (max_activities_per_day : Z) (max_total_hours : pyfloat)
    (selected : list candidate) (total_hours : pyfloat) : list candidate :=
  match todo with
  | [] => selected
  | (_, activity) :: rest =>
      let duration := get duration_hours activity zero in
      if (Z.of_nat (List.length selected) <? max_activities_per_day)%Z
         && (total_hours + duration <=? max_total_hours)%F
      then greedy_pass rest max_activities_per_day max_total_hours
             (selected ++ [activity]) (total_hours + duration)
      else greedy_pass rest max_activities_per_day max_total_hours
             selected total_hours
  end.

Definition select_activities (activities : list candidate)
    (max_activities_per_day : Z) (max_total_hours : pyfloat)
    : result (list candidate) :=
  match activities with
  | [] => Ok []
  | _ =>
      with_value <- activities_with_value activities ;;
      let sorted := sort_reverse with_value in
      Ok (greedy_pass sorted max_activities_per_day max_total_hours [] zero)
  end.

(** The defaults of [select_activities]. *)
Definition default_max_activities_per_day : Z := 3.
Definition default_max_total_hours : pyfloat := of_Z 8.

(** ** Dates

    CPython's [datetime]: the calendar arithmetic of [_ymd2ord] and
    [_ord2ymd], [strptime] and [strftime] for the format ["%Y-%m-%d"].
    A datetime is its ordinal: day 1 is 0001-01-01. *)

Module Datetime.

Local Open Scope Z_scope.

Definition MINYEAR : Z := 1.
Definition MAXYEAR : Z := 9999.

Definition DAYS_IN_MONTH (month : Z) : Z :=
  nth (Z.to_nat month) [-1; 31; 28; 31; 30; 31; 30; 31; 31; 30; 31; 30; 31] 0.

Definition DAYS_BEFORE_MONTH (month : Z) : Z :=
  nth (Z.to_nat month)
      [-1; 0; 31; 59; 90; 120; 151; 181; 212; 243; 273; 304; 334] 0.

Definition is_leap (year : Z) : bool :=
  (year mod 4 =? 0) && (negb (year mod 100 =? 0) || (year mod 400 =? 0)).

Definition days_before_year (year : Z) : Z :=
  let y := year - 1 in
  y * 365 + y / 4 - y / 100 + y / 400.

Definition days_in_month (year month : Z) : Z :=
  if (month =? 2) && is_leap year then 29 else DAYS_IN_MONTH month.

Definition days_before_month (year month : Z) : Z :=
  DAYS_BEFORE_MONTH month + (if (month >? 2) && is_leap year then 1 else 0).

Definition ymd2ord (year month day : Z) : Z :=
  days_before_year year + days_before_month year month + day.

Definition DI400Y : Z := days_before_year 401.
Definition DI100Y : Z := days_before_year 101.
Definition DI4Y : Z := days_before_year 5.

Definition MAXORDINAL : Z := ymd2ord MAXYEAR 12 31.

Definition ord2ymd (ordinal : Z) : Z * Z * Z :=
  let n := ordinal - 1 in
  let n400 := n / DI400Y in
  let n := n mod DI400Y in
  let year := n400 * 400 + 1 in
  let n100 := n / DI100Y in
  let n := n mod DI100Y in
  let n4 := n / DI4Y in
  let n := n mod DI4Y in
  let n1 := n / 365 in
  let n := n mod 365 in
  let year := year + n100 * 100 + n4 * 4 + n1 in
  if (n1 =? 4) || (n100 =? 4) then (year - 1, 12, 31)
  else
    let leapyear := (n1 =? 3) && (negb (n4 =? 24) || (n100 =? 3)) in
    let month := Z.shiftr (n + 50) 5 in
    let preceding :=
      DAYS_BEFORE_MONTH month + (if (month >? 2) && leapyear then 1 else 0) in
    if preceding >? n then
      let month := month - 1 in
      let preceding :=
        preceding
        - (DAYS_IN_MONTH month + (if (month =? 2) && leapyear then 1 else 0)) in
      (year, month, n - preceding + 1)
    else (year, month, n - preceding + 1).

(** [datetime + timedelta(days=n)]. *)
Definition add_days (d n : Z) : result Z :=
  if (1 <=? d + n) && (d + n <=? MAXORDINAL)
  then Ok (d + n)
  else Raise OverflowError.

(** *** Parsing ["%Y-%m-%d"]

    The pattern [_strptime] builds is
    [(\d\d\d\d)-(1[0-2]|0[1-9]|[1-9])-(3[0-1]|[1-2]\d|0[1-9]|[1-9]| [1-9])];
    it must match a prefix of the text and leave nothing unconverted. *)

Definition digit (c : ascii) : option Z :=
  let n := Z.of_nat (nat_of_ascii c) in
  if (48 <=? n) && (n <=? 57) then Some (n - 48) else None.

Definition digit_in (lo hi : Z) (c : ascii) : option Z :=
  match digit c with
  | Some v => if (lo <=? v) && (v <=? hi) then Some v else None
  | None => None
  end.

Definition dash : ascii := "-"%char.
Definition space : ascii := " "%char.

Definition match_year (s : string) : option (Z * string) :=
  match s with
  | String a (String b (String c (String d rest))) =>
      match digit a, digit b, digit c, digit d with
      | Some a, Some b, Some c, Some d =>
          Some (a * 1000 + b * 100 + c * 10 + d, rest)
      | _, _, _, _ => None
      end
  | _ => None
  end.

Definition match_dash (s : string) : option string :=
  match s with
  | String c rest => if Ascii.eqb c dash then Some rest else None
  | EmptyString => None
  end.

(** Two characters [a] in [[alo, ahi]] then [b] in [[blo, bhi]]. *)
Definition two_digits (alo ahi blo bhi : Z) (s : string) : option (Z * string) :=
  match s with
  | String a (String b rest) =>
      match digit_in alo ahi a, digit_in blo bhi b with
      | Some a, Some b => Some (a * 10 + b, rest)
      | _, _ => None
      end
  | _ => None
  end.

Definition one_digit (lo hi : Z) (s : string) : option (Z * string) :=
  match s with
  | String a rest =>
      match digit_in lo hi a with
      | Some a => Some (a, rest)
      | None => None
      end
  | EmptyString => None
  end.

Definition space_digit (s : string) : option (Z * string) :=
  match s with
  | String c rest => if Ascii.eqb c space then one_digit 1 9 rest else None
  | EmptyString => None
  end.

(** The first alternative that matches. *)
Fixpoint alternatives (alts : list (string -> option (Z * string)))
    (s : string) : option (Z * string) :=
  match alts with
  | [] => None
  | alt :: alts' =>
      match alt s with
      | Some r => Some r
      | None => alternatives alts' s
      end
  end.

Definition match_month : string -> option (Z * string) :=
  alternatives [two_digits 1 1 0 2; two_digits 0 0 1 9; one_digit 1 9].

Definition match_day : string -> option (Z * string) :=
  alternatives [two_digits 3 3 0 1; two_digits 1 2 0 9; two_digits 0 0 1 9;
                one_digit 1 9; space_digit].

(** [datetime(year, month, day)]: the range check of the constructor. *)
Definition make (year month day : Z) : result Z :=
  if (MINYEAR <=? year) && (year <=? MAXYEAR)
     && (1 <=? month) && (month <=? 12)
     && (1 <=? day) && (day <=? days_in_month year month)
  then Ok (ymd2ord year month day)
  else Raise ValueError.

(** [datetime.strptime(s, "%Y-%m-%d")]. *)
Definition strptime (s : string) : result Z :=
  match match_year s with
  | None => Raise ValueError
  | Some (year, s) =>
      match match_dash s with
      | None => Raise ValueError
      | Some s =>
          match match_month s with
          | None => Raise ValueError
          | Some (month, s) =>
              match match_dash s with
              | None => Raise ValueError
              | Some s =>
                  match match_day s with
                  | Some (day, EmptyString) => make year month day
                  | _ => Raise ValueError
                  end
              end
          end
      end
  end.

(** *** Formatting ["%Y-%m-%d"]: zero-padded year, month and day (below
    year 1000 the padding of [%Y] is the C library's; here four digits). *)

Definition digit_char (v : Z) : ascii :=
  ascii_of_nat (Z.to_nat (48 + v mod 10)).

Definition pad2 (v : Z) (tail : string) : string :=
  String (digit_char (v / 10)) (String (digit_char v) tail).

Definition pad4 (v : Z) (tail : string) : string :=
  String (digit_char (v / 1000)) (String (digit_char (v / 100)) (pad2 v tail)).

Definition strftime (d : Z) : string :=
  let '(year, month, day) := ord2ymd d in
  pad4 year (String dash (pad2 month (String dash (pad2 day EmptyString)))).

End Datetime.

(** ** The itinerary *)

Module DayPlan.
Record t : Type := mk {
  date : string;
  activities : list candidate;
  total_cost : pyfloat;
  total_time_hours : pyfloat
}.
End DayPlan.

Module Summary.
Record t : Type := mk {
  total_cost : pyfloat;
  total_time_hours : pyfloat;
  duration_days : Z;
  departure_date : string;
  return_date : string
}.
End Summary.

Record itinerary : Type := mkItinerary {
  flight : option candidate;
  hotel : option candidate;
  days : list DayPlan.t;
  summary : Summary.t
}.

(** [sum(...)]: from 0, left to right. *)
Definition py_sum (l : list pyfloat) : pyfloat := fold_left add l zero.

(** [a.get("date") == date_str]. *)
Definition dated (date_str : string) (a : candidate) : bool :=
  match date a with
  | Some d => String.eqb d date_str
  | None => false
  end.

(** The variables the [while] loop of [create_itinerary] updates. *)
Module State.
Record t : Type := mk {
  current_date : Z;
  total_cost : pyfloat;
  total_time : pyfloat;
  itinerary_days : list DayPlan.t
}.
End State.

(** One run of the loop body. *)
Definition loop_body (activities : list candidate) (st : State.t)
    : result State.t :=
  let date_str := Datetime.strftime (State.current_date st) in
  let day_activities := filter (dated date_str) activities in
  selected_activities <-
    select_activities day_activities
      default_max_activities_per_day default_max_total_hours ;;
  let day_cost :=
    py_sum (map (fun a => get total_price a zero) selected_activities) in
  let day_time :=
    py_sum (map (fun a => get duration_hours a zero) selected_activities) in
  let day_plan := DayPlan.mk date_str selected_activities day_cost day_time in
  next <- Datetime.add_days (State.current_date st) 1 ;;
  Ok (State.mk next (State.total_cost st + day_cost) (State.total_time st + day_time)
              (State.itinerary_days st ++ [day_plan])).

(** A value together with the equation that it is the value of [x]. *)
Definition inspect {A : Type} (x : A) : {y : A | x = y} := exist _ x eq_refl.

(** [while current_date < return_dt: ...]; every run of the body moves
    [current_date] one day closer to [return_dt]. *)
Equations? while_loop (activities : list candidate) (return_dt : Z)
    (st : State.t) : result State.t
    by wf (Z.to_nat (return_dt - State.current_date st)) lt :=
  while_loop activities return_dt st
    with inspect (State.current_date st <? return_dt)%Z := {
    | exist _ false _ => Ok st
    | exist _ true guard with inspect (loop_body activities st) := {
      | exist _ (Raise e) _ => Raise e
      | exist _ (Ok st') body => while_loop activities return_dt st' } }.
Proof.
  apply Z.ltb_lt in guard.
  unfold loop_body, bind, Datetime.add_days in body.
  destruct (select_activities _ _ _); [| discriminate].
  destruct (_ && _); [| discriminate].
  injection body as <-. simpl. lia.
Qed.

Section Itinerary.

Variable self : ItineraryOptimizer.

Definition create_itinerary (flights hotels activities : list candidate)
    (departure_date return_date : string) : result itinerary :=
  best_flight <- select_best_flight self flights ;;
  best_hotel <- select_best_hotel self hotels ;;
  departure <- Datetime.strptime departure_date ;;
  return_dt <- Datetime.strptime return_date ;;
  current_date <- Datetime.add_days departure 1 ;;
  let total_cost := zero in
  let total_time := zero in
  let '(total_cost, total_time) :=
    match best_flight with
    | Some f =>
        if truthy f
        then ((total_cost + get total_price f zero)%F,
              (total_time + get duration_hours f zero)%F)
        else (total_cost, total_time)
    | None => (total_cost, total_time)
    end in
  let total_cost :=
    match best_hotel with
    | Some h =>
        if truthy h then (total_cost + get total_price h zero)%F
        else total_cost
    | None => total_cost
    end in
  final <- while_loop activities return_dt
             (State.mk current_date total_cost total_time []) ;;
  Ok (mkItinerary best_flight best_hotel (State.itinerary_days final)
        (Summary.mk (State.total_cost final) (State.total_time final)
           (return_dt - departure)%Z departure_date return_date)).

End Itinerary.

(** ** The day selection as the specification words it

    Section 4.3 of the specification, step by step.  A field that is
    absent is read with the default the optimizer gives it. *)

Module Reference.

Definition price (a : candidate) : pyfloat := get price_per_person a PInf.
Definition duration (a : candidate) : pyfloat := get duration_hours a zero.
Definition stars (a : candidate) : pyfloat := get rating a zero.

(** Step 1: only candidates with a strictly positive price and duration. *)
Definition scorable (a : candidate) : bool :=
  (zero <? price a)%F && (zero <? duration a)%F.

(** Step 2: [value = (rating * 2) / (price_per_person / 50)]. *)
Definition value (a : candidate) : pyfloat :=
  (stars a * of_Z 2 / (price a / of_Z 50))%F.

(** Step 3: descending by value, equal values in their original order.
    [a] stood before every element of [sorted]: it goes in front of the
    first one whose value is not strictly greater. *)
Fixpoint insert_desc (a : candidate) (sorted : list candidate)
    : list candidate :=
  match sorted with
  | [] => [a]
  | b :: rest =>
      if (value a <? value b)%F then b :: insert_desc a rest
      else a :: b :: rest
  end.

Fixpoint sort_desc (l : list candidate) : list candidate :=
  match l with
  | [] => []
  | a :: rest => insert_desc a (sort_desc rest)
  end.

(** Steps 4 and 5: one pass; a candidate is accepted iff the count stays
    within [K] and the summed duration within [H]. *)
Fixpoint accept (todo : list candidate) (K : Z) (H : pyfloat)
    (count : Z) (hours : pyfloat) : list candidate :=
  match todo with
  | [] => []
  | a :: rest =>
      if (count + 1 <=? K)%Z && (hours + duration a <=? H)%F
      then a :: accept rest K H (count + 1)%Z (hours + duration a)%F
      else accept rest K H count hours
  end.

Definition select_activities (l : list candidate) (K : Z) (H : pyfloat)
    : list candidate :=
  accept (sort_desc (filter scorable l)) K H 0%Z zero.

End Reference.

(** ** Executions of [create_itinerary]

    The [while] loop as a transition system on [State.t], and the runs of
    the whole method around it. *)

(** The statements before the loop: what they leave for the rest. *)
Record frame : Type := mkFrame {
  best_flight : option candidate;
  best_hotel : option candidate;
  departure : Z;
  return_dt : Z;
  entry : State.t
}.

Definition before_loop (self : ItineraryOptimizer)
    (flights hotels : list candidate)
    (departure_date return_date : string) : result frame :=
  best_flight <- select_best_flight self flights ;;
  best_hotel <- select_best_hotel self hotels ;;
  departure <- Datetime.strptime departure_date ;;
  return_dt <- Datetime.strptime return_date ;;
  current_date <- Datetime.add_days departure 1 ;;
  let total_cost := zero in
  let total_time := zero in
  let '(total_cost, total_time) :=
    match best_flight with
    | Some f =>
        if truthy f
        then ((total_cost + get total_price f zero)%F,
              (total_time + get duration_hours f zero)%F)
        else (total_cost, total_time)
    | None => (total_cost, total_time)
    end in
  let total_cost :=
    match best_hotel with
    | Some h =>
        if truthy h then (total_cost + get total_price h zero)%F
        else total_cost
    | None => total_cost
    end in
  Ok (mkFrame best_flight best_hotel departure return_dt
        (State.mk current_date total_cost total_time [])).

(** The dict built after the loop. *)
Definition after_loop (fr : frame) (final : State.t)
    (departure_date return_date : string) : itinerary :=
  mkItinerary (best_flight fr) (best_hotel fr) (State.itinerary_days final)
    (Summary.mk (State.total_cost final) (State.total_time final)
       (return_dt fr - departure fr)%Z departure_date return_date).

(** One iteration: the guard holds and the body completes. *)
Inductive loop_step (activities : list candidate) (return_dt : Z)
    : State.t -> State.t -> Prop :=
| step_body st st' :
    (State.current_date st < return_dt)%Z ->
    loop_body activities st = Ok st' ->
    loop_step activities return_dt st st'.

(** The loop from a state to its outcome. *)
Inductive loop_run (activities : list candidate) (return_dt : Z)
    : State.t -> result State.t -> Prop :=
| run_exit st :
    (return_dt <= State.current_date st)%Z ->
    loop_run activities return_dt st (Ok st)
| run_raise st e :
    (State.current_date st < return_dt)%Z ->
    loop_body activities st = Raise e ->
    loop_run activities return_dt st (Raise e)
| run_step st st' outcome :
    loop_step activities return_dt st st' ->
    loop_run activities return_dt st' outcome ->
    loop_run activities return_dt st outcome.

(** A run of [create_itinerary] and what it returns or raises. *)
Inductive execution (self : ItineraryOptimizer)
    (flights hotels activities : list candidate)
    (departure_date return_date : string) : result itinerary -> Prop :=
| exec_raise_before e :
    before_loop self flights hotels departure_date return_date = Raise e ->
    execution self flights hotels activities departure_date return_date
      (Raise e)
| exec_raise_in_loop fr e :
    before_loop self flights hotels departure_date return_date = Ok fr ->
    loop_run activities (return_dt fr) (entry fr) (Raise e) ->
    execution self flights hotels activities departure_date return_date
      (Raise e)
| exec_return fr final :
    before_loop self flights hotels departure_date return_date = Ok fr ->
    loop_run activities (return_dt fr) (entry fr) (Ok final) ->
    execution self flights hotels activities departure_date return_date
      (Ok (after_loop fr final departure_date return_date)).

(** ** The callers of the optimizer

    [optimize] of [app.py], [handler] of [netlify/functions/optimize.py],
    [main] of [main.py] and [example_basic_usage] of [example_usage.py]
    prepare the arguments of [create_itinerary] with the same statements:
    the default dates, the three calls of the scraper and the loop that
    collects the activities of every full day.  The scraper and the clock
    are parameters: [scrape_all_*] are the three methods of
    [MultiSiteScraper], which catch the exceptions of their scrapers and
    always return a list, and [now] is the ordinal of [datetime.now()]. *)

(** The variables the collecting loop updates. *)
Module Gather.
Record t : Type := mk {
  current_date : Z;
  all_activities : list candidate
}.
End Gather.

(** [if not s: s = default] for a date read from the request: [None]
    and the empty string are replaced. *)
Definition or_default (s : option string) (default : result string)
    : result string :=
  match s with
  | Some s => if String.eqb s EmptyString then default else Ok s
  | None => default
  end.

Section Callers.

Variable now : Z.
Variable scrape_all_flights :
  string -> string -> string -> string -> Z -> list candidate.
Variable scrape_all_hotels : string -> string -> string -> Z -> list candidate.
Variable scrape_all_activities : string -> string -> list candidate.

(** [(datetime.now() + timedelta(days=30)).strftime("%Y-%m-%d")]. *)
Definition default_departure_date : result string :=
  in_a_month <- Datetime.add_days now 30 ;;
  Ok (Datetime.strftime in_a_month).

(** [(datetime.strptime(departure_date, "%Y-%m-%d")
      + timedelta(days=7)).strftime("%Y-%m-%d")]. *)
Definition default_return_date (departure_date : string) : result string :=
  departure <- Datetime.strptime departure_date ;;
  a_week_later <- Datetime.add_days departure 7 ;;
  Ok (Datetime.strftime a_week_later).

(** One run of the body of the collecting loop. *)
Definition gather_body (destination : string) (st : Gather.t)
    : result Gather.t :=
  let date_str := Datetime.strftime (Gather.current_date st) in
  let activities := scrape_all_activities destination date_str in
  let all_activities := Gather.all_activities st ++ activities in
  next <- Datetime.add_days (Gather.current_date st) 1 ;;
  Ok (Gather.mk next all_activities).

Equations? gather_loop (destination : string) (return_dt : Z)
    (st : Gather.t) : result Gather.t
    by wf (Z.to_nat (return_dt - Gather.current_date st)) lt :=
  gather_loop destination return_dt st
    with inspect (Gather.current_date st <? return_dt)%Z := {
    | exist _ false _ => Ok st
    | exist _ true guard with inspect (gather_body destination st) := {
      | exist _ (Raise e) _ => Raise e
      | exist _ (Ok st') body => gather_loop destination return_dt st' } }.
Proof.
  apply Z.ltb_lt in guard.
  unfold gather_body, bind, Datetime.add_days in body.
  destruct (_ && _); [| discriminate].
  injection body as <-. simpl. lia.
Qed.

(** "Generate activities for each day". *)
Definition gather_activities (destination departure_date return_date : string)
    : result (list candidate) :=
  departure <- Datetime.strptime departure_date ;;
  current_date <- Datetime.add_days departure 1 ;;
  return_dt <- Datetime.strptime return_date ;;
  final <- gather_loop destination return_dt (Gather.mk current_date []) ;;
  Ok (Gather.all_activities final).

(** The statements of [optimize] between reading the request and
    answering it.  [Raise e] is where the caller answers with the error
    instead of an itinerary. *)
Definition optimize (origin destination : string)
    (departure_date return_date : option string) (travelers : Z)
    (cost_weight time_weight : pyfloat) : result itinerary :=
  departure_date <- or_default departure_date default_departure_date ;;
  return_date <- or_default return_date (default_return_date departure_date) ;;
  let flights :=
    scrape_all_flights origin destination departure_date return_date
      travelers in
  let hotels :=
    scrape_all_hotels destination departure_date return_date travelers in
  all_activities <- gather_activities destination departure_date return_date ;;
  optimizer <- init cost_weight time_weight ;;
  create_itinerary optimizer flights hotels all_activities
    departure_date return_date.

End Callers.

(** ** The scrapers of [scraper.py]

    [MockTravelScraper] generates the candidates and [MultiSiteScraper]
    asks one scraper per website.  A candidate keeps the keys the
    optimizer reads, so the other keys of the generated dicts and the tag
    ["source_website"] that [MultiSiteScraper] adds are not represented;
    [name] holds the airline, the hotel name or the activity name.
    Python's [hash] of a string is salted per process: it is a parameter.
    Logging and [time.sleep] are left out. *)

(** [min(a, b)]: [b] if it is smaller, else [a]. *)
Definition py_min (a b : pyfloat) : pyfloat :=
  if (b <? a)%F then b else a.

Module MockTravelScraper.

Local Open Scope string_scope.

Section Hash.

Variable hash : string -> Z.

Definition airlines : list string :=
  ["Delta"; "United"; "American"; "Lufthansa"; "Air France";
   "British Airways"; "KLM"; "Emirates"; "Qatar"; "Turkish"].

(** The dict built for the [i]-th airline.  The divisor 60 is not zero,
    so Python's [/] is the IEEE division. *)
Definition flight (origin destination : string) (travelers : Z)
    (i : nat) (airline : string) : candidate :=
  let base_price := 800%Z in
  let price_variation :=
    (Z.of_nat i * 50 + hash (origin ++ destination) mod 200)%Z in
  let duration_variation := (30 + Z.of_nat i * 15)%Z in
  mkCandidate (Some airline)
    (Some (of_Z ((base_price + price_variation) * travelers)))
    (Some (lit 75 10 + of_Z duration_variation / of_Z 60)%F)
    None
    (Some (of_Z (base_price + price_variation)))
    None.

Definition scrape_flights
    (origin destination departure_date return_date : string)
    (travelers : Z) : list candidate :=
  map (fun p => flight origin destination travelers (fst p) (snd p))
      (enumerate (firstn 10 airlines)).

Definition hotel_names : list string :=
  ["Grand Plaza Hotel"; "Oceanview Resort"; "City Center Inn";
   "Luxury Suites"; "Budget Stay"; "Boutique Hotel"; "Beachfront Villa";
   "Mountain View Lodge"; "Historic Manor"; "Modern Apartment"].

Definition hotel (destination : string) (nights : Z)
    (i : nat) (name : string) : candidate :=
  let base_price := 120%Z in
  let price_variation := (Z.of_nat i * 30 + hash destination mod 100)%Z in
  let rating := (lit 35 10 + of_Z (Z.of_nat i) * lit 3 10)%F in
  mkCandidate (Some name)
    (Some (of_Z ((base_price + price_variation) * nights)))
    None
    (Some (py_min (lit 50 10) rating))
    None
    None.

Definition scrape_hotels (destination check_in check_out : string)
    (travelers : Z) : result (list candidate) :=
  check_in_date <- Datetime.strptime check_in ;;
  check_out_date <- Datetime.strptime check_out ;;
  let nights := (check_out_date - check_in_date)%Z in
  Ok (map (fun p => hotel destination nights (fst p) (snd p))
          (enumerate hotel_names)).

Definition activity_names : list string :=
  ["City Tour"; "Museum Visit"; "Cooking Class"; "Wine Tasting";
   "Boat Cruise"; "Hiking Tour"; "Food Tour"; "Photography Walk";
   "Sunset Viewing"; "Local Market"].

Definition activity (destination date : string)
    (i : nat) (name : string) : candidate :=
  let base_price := 50%Z in
  let price_variation :=
    (Z.of_nat i * 15 + hash (destination ++ name) mod 50)%Z in
  let duration_variation := (of_Z 2 + of_Z (Z.of_nat i) * lit 5 10)%F in
  mkCandidate (Some name)
    (Some (of_Z ((base_price + price_variation) * 2)))
    (Some duration_variation)
    (Some (lit 40 10 + of_Z (Z.of_nat i) * lit 1 10)%F)
    (Some (of_Z (base_price + price_variation)))
    (Some date).

Definition scrape_activities (destination date : string) : list candidate :=
  map (fun p => activity destination date (fst p) (snd p))
      (enumerate activity_names).

End Hash.

End MockTravelScraper.

Module MultiSiteScraper.

Section Sites.

Variable hash : string -> Z.
Variable websites : list string.

(** The keys of the dict [self.scrapers] that [__init__] fills: every
    website once, where it first occurs.  Every value is a
    [MockTravelScraper]. *)
Fixpoint keys (seen todo : list string) : list string :=
  match todo with
  | [] => []
  | site :: rest =>
      if existsb (String.eqb site) seen then keys seen rest
      else site :: keys (site :: seen) rest
  end.

Definition scrapers : list string := keys [] websites.

Definition scrape_all_flights
    (origin destination departure_date return_date : string)
    (travelers : Z) : list candidate :=
  fold_left
    (fun all_flights site_name =>
       all_flights
       ++ MockTravelScraper.scrape_flights hash origin destination
            departure_date return_date travelers)
    scrapers [].

(** An exception of a scraper is logged and its website skipped. *)
Definition scrape_all_hotels (destination check_in check_out : string)
    (travelers : Z) : list candidate :=
  fold_left
    (fun all_hotels site_name =>
       match MockTravelScraper.scrape_hotels hash destination
               check_in check_out travelers with
       | Ok hotels => all_hotels ++ hotels
       | Raise _ => all_hotels
       end)
    scrapers [].

Definition scrape_all_activities (destination date : string)
    : list candidate :=
  fold_left
    (fun all_activities site_name =>
       all_activities
       ++ MockTravelScraper.scrape_activities hash destination date)
    scrapers [].

End Sites.

End MultiSiteScraper.

(** The values of [netlify/functions/config.py] that the callers use. *)
Module Config.
Local Open Scope string_scope.
Definition TRAVEL_WEBSITES : list string :=
  ["expedia"; "booking"; "kayak"; "skyscanner"; "tripadvisor"; "agoda";
   "hotels"; "priceline"; "orbitz"; "travelocity"].
Definition COST_WEIGHT : pyfloat := lit 6 10.
Definition TIME_WEIGHT : pyfloat := lit 4 10.
Definition DEFAULT_TRAVELERS : Z := 2.
End Config.

(** [example_basic_usage] of [example_usage.py], which is also what
    [main] of [main.py] runs when it is given no argument: the itinerary
    it computes and prints. *)
Definition example_basic_usage (now : Z) (hash : string -> Z)
    : result itinerary :=
  optimize now
    (MultiSiteScraper.scrape_all_flights hash Config.TRAVEL_WEBSITES)
    (MultiSiteScraper.scrape_all_hotels hash Config.TRAVEL_WEBSITES)
    (MultiSiteScraper.scrape_all_activities hash Config.TRAVEL_WEBSITES)
    "New York" "Paris" None None 2 Config.COST_WEIGHT Config.TIME_WEIGHT.

(** ** Vocabulary of the statements *)

(** Every value is an ordinary number: no infinity, no NaN. *)
Definition finite (l : list pyfloat) : Prop :=
  Forall (fun x => is_finite x = true) l.

(** [0 <= x <= 1]. *)
Definition unit_interval (x : pyfloat) : bool :=
  (zero <=? x)%F && (x <=? one)%F.

(** The two normalised dimensions combined with the two weights, position
    by position. *)
Definition weighted (self : ItineraryOptimizer)
    (firsts seconds : list pyfloat) : list pyfloat :=
  map (fun p => cost_weight self * fst p + time_weight self * snd p)%F
      (combine firsts seconds).

(** No value is NaN. *)
Definition no_nan (l : list pyfloat) : Prop :=
  Forall (fun x => is_nan x = false) l.

(** Position [i] holds a greatest score, and no earlier position holds
    one as great. *)
Definition first_argmax (scores : list pyfloat) (i : nat) : Prop :=
  exists v,
    nth_error scores i = Some v
    /\ (forall j y, nth_error scores j = Some y -> (y <=? v)%F = true)
    /\ (forall j y, (j < i)%nat -> nth_error scores j = Some y ->
                    (y <? v)%F = true).

(** The values that the day selection sorts by can be compared: none of
    the candidates it keeps has a NaN value (finite ratings suffice). *)
Definition comparable_values (activities : list candidate) : Prop :=
  Forall (fun a => is_nan (Reference.value a) = false)
         (filter Reference.scorable activities).

(** An activity with its value score, as [activities_with_value] pairs
    them. *)
Definition with_value (a : candidate) : pyfloat * candidate :=
  (Reference.value a, a).

(** Descending by value. *)
Definition descending (l : list candidate) : Prop :=
  StronglySorted
    (fun a b => (Reference.value a <? Reference.value b)%F = false) l.

(** The accumulators of the greedy pass on a day of three-hour
    activities with an eight-hour budget: at most two were accepted. *)
Definition three_hour_day (selected : list candidate)
    (total_hours : pyfloat) : Prop :=
  (List.length selected = 0%nat /\ total_hours = zero)
  \/ (List.length selected = 1%nat /\ total_hours = of_Z 3)
  \/ (List.length selected = 2%nat /\ total_hours = of_Z 6).

(** [n] consecutive days from [first]. *)
Definition days_from (first : Z) (n : nat) : list Z :=
  map (fun k => first + Z.of_nat k)%Z (seq 0 n).

(** The full days of a trip: from the day after departure to the day
    before return. *)
Definition full_days (departure return_dt : Z) : list Z :=
  days_from (departure + 1) (Z.to_nat (return_dt - departure - 1)).

(** [plan] is the day plan that the loop body builds for [day]. *)
Definition plan_of_day (activities : list candidate) (plan : DayPlan.t)
    (day : Z) : Prop :=
  DayPlan.date plan = Datetime.strftime day
  /\ select_activities
       (filter (dated (Datetime.strftime day)) activities)
       default_max_activities_per_day default_max_total_hours
     = Ok (DayPlan.activities plan)
  /\ DayPlan.total_cost plan
     = py_sum (map (fun a => get total_price a zero)
                   (DayPlan.activities plan))
  /\ DayPlan.total_time_hours plan
     = py_sum (map (fun a => get duration_hours a zero)
                   (DayPlan.activities plan)).

(** The price and the duration of an optional selection, with the
    default 0 of [create_itinerary]. *)
Definition price_or_zero (selection : option candidate) : pyfloat :=
  match selection with
  | Some c => get total_price c zero
  | None => zero
  end.

Definition hours_or_zero (selection : option candidate) : pyfloat :=
  match selection with
  | Some c => get duration_hours c zero
  | None => zero
  end.

(** The plan of a day without activities. *)
Definition empty_plan (day : Z) : DayPlan.t :=
  DayPlan.mk (Datetime.strftime day) [] zero zero.

(** A score function that falls (rises) with the value, on the values
    of a list. *)
Definition antitone_on (l : list pyfloat) (g : Qc -> Qc) : Prop :=
  forall a b, In (Fin a) l -> In (Fin b) l ->
    ((a <= b)%Qc -> (g b <= g a)%Qc) /\ ((a < b)%Qc -> (g b < g a)%Qc).

Definition monotone_on (l : list pyfloat) (g : Qc -> Qc) : Prop :=
  forall a b, In (Fin a) l -> In (Fin b) l ->
    ((a <= b)%Qc -> (g a <= g b)%Qc) /\ ((a < b)%Qc -> (g a < g b)%Qc).

(** What the two selections read of a candidate: the entries of their
    lists [costs], [times] and [ratings]. *)
Definition cost_of (c : candidate) : pyfloat := get total_price c PInf.
Definition time_of (c : candidate) : pyfloat := get duration_hours c PInf.
Definition rating_of (c : candidate) : pyfloat := get rating c zero.

(** What a scraper returns for the days of a list, one after the other. *)
Definition scraped (scrape_all_activities : string -> string -> list candidate)
    (destination : string) (days : list Z) : list candidate :=
  flat_map
    (fun day => scrape_all_activities destination (Datetime.strftime day))
    days.

(** ** Concrete inputs *)

Module Example.

Local Open Scope string_scope.

(** The default weights of the repository's [config.py]. *)
Definition weights : ItineraryOptimizer := mkOptimizer (lit 6 10) (lit 4 10).

Definition flight (name : string) (price hours : Z) : candidate :=
  mkCandidate (Some name) (Some (of_Z price)) (Some (of_Z hours))
              None None None.

(** A flight dict without the key ["total_price"]. *)
Definition flight_without_price (name : string) (hours : Z) : candidate :=
  mkCandidate (Some name) None (Some (of_Z hours)) None None None.

Definition hotel (name : string) (price stars : Z) : candidate :=
  mkCandidate (Some name) (Some (of_Z price)) None (Some (of_Z stars))
              None None.

(** A hotel dict without the key ["total_price"]. *)
Definition hotel_without_price (name : string) (stars : Z) : candidate :=
  mkCandidate (Some name) None None (Some (of_Z stars)) None None.

Definition activity (name : string) (price hours stars : Z) (day : string)
    : candidate :=
  mkCandidate (Some name) (Some (of_Z (2 * price))) (Some (of_Z hours))
              (Some (of_Z stars)) (Some (of_Z price)) (Some day).

(** A hotel dict without the key ["rating"]. *)
Definition hotel_without_rating (name : string) (price : Z) : candidate :=
  mkCandidate (Some name) (Some (of_Z price)) None None None None.

(** The three flights of the specification's example. *)
Definition three_flights : list candidate :=
  [flight "F500" 500 10; flight "F800" 800 7; flight "F1200" 1200 5].

(** One flight with a price and one without. *)
Definition priced_and_unpriced_flights : list candidate :=
  [flight "A" 100 5; flight_without_price "B" 5].

Definition priced_and_unpriced_hotels : list candidate :=
  [hotel "H1" 400 4; hotel_without_price "H2" 4].

(** Five activities of three hours each. *)
Definition five_activities : list candidate :=
  [activity "a" 50 3 4 "2025-06-02"; activity "b" 25 3 4 "2025-06-02";
   activity "c" 50 3 5 "2025-06-02"; activity "d" 100 3 5 "2025-06-02";
   activity "e" 25 3 4 "2025-06-02"].

End Example.

(** Inputs of the callers. *)
Module Sample.

Local Open Scope string_scope.

(** Weights that look only at the first key. *)
Definition cost_only : ItineraryOptimizer := mkOptimizer one zero.

Definition two_hotels : list candidate :=
  [Example.hotel "H1" 400 4; Example.hotel "H2" 300 3].

(** Scrapers that answer every request alike: three flights, two
    hotels, and two activities labelled with the date asked for. *)
Definition flights_of (origin destination departure_date return_date : string)
    (travelers : Z) : list candidate :=
  Example.three_flights.

Definition hotels_of (destination check_in check_out : string)
    (travelers : Z) : list candidate :=
  two_hotels.

Definition activities_on (destination date : string) : list candidate :=
  [Example.activity "City Tour" 50 2 4 date;
   Example.activity "Museum Visit" 65 3 4 date].

(** 2025-05-02. *)
Definition today : Z := 739373.

(** A stand-in for Python's [hash]. *)
Definition length_hash (s : string) : Z := Z.of_nat (String.length s).

End Sample.

(** * Properties *)

Unset Implicit Arguments.

(** ** Facts about floats *)

(** Canonical rationals seen as rationals, for [lra]. *)

Lemma Qc_plus_Q (a b : Qc) : (((a + b)%Qc : Q) == (a : Q) + b)%Q.
Proof. apply Qred_correct. Qed.

Lemma Qc_opp_Q (a : Qc) : (((- a)%Qc : Q) == - (a : Q))%Q.
Proof. apply Qred_correct. Qed.

Lemma Qc_minus_Q (a b : Qc) : (((a - b)%Qc : Q) == (a : Q) - b)%Q.
Proof. unfold Qcminus. rewrite Qc_plus_Q, Qc_opp_Q. reflexivity. Qed.

Lemma Qc_mult_Q (a b : Qc) : (((a * b)%Qc : Q) == (a : Q) * b)%Q.
Proof. apply Qred_correct. Qed.

Lemma Qc_inv_Q (a : Qc) : (((/ a)%Qc : Q) == / (a : Q))%Q.
Proof. apply Qred_correct. Qed.

Lemma Qc_div_Q (a b : Qc) : (((a / b)%Qc : Q) == (a : Q) / b)%Q.
Proof. unfold Qcdiv. rewrite Qc_mult_Q, Qc_inv_Q. reflexivity. Qed.

Lemma Qc_Q2Qc (q : Q) : ((Q2Qc q : Q) == q)%Q.
Proof. apply Qred_correct. Qed.

Ltac to_Q :=
  unfold Qclt, Qcle in *;
  repeat match goal with
  | |- @eq Qc _ _ => apply Qc_is_canon
  end;
  repeat (rewrite ?Qc_minus_Q, ?Qc_plus_Q, ?Qc_opp_Q, ?Qc_mult_Q,
                  ?Qc_div_Q, ?Qc_inv_Q, ?Qc_Q2Qc in * ).

Lemma Fin_eq (a b : Qc) : (a == b)%Q -> Fin a = Fin b.
Proof. intros H. f_equal. now apply Qc_is_canon. Qed.

Lemma ltb_Fin (a b : Qc) : (Fin a <? Fin b)%F = true <-> (a < b)%Qc.
Proof.
  simpl. rewrite Qclt_alt. destruct (a ?= b)%Qc; split; congruence.
Qed.

Lemma leb_Fin (a b : Qc) : (Fin a <=? Fin b)%F = true <-> (a <= b)%Qc.
Proof.
  simpl. rewrite Qcle_alt. destruct (a ?= b)%Qc; split; congruence.
Qed.

Lemma eqb_Fin (a b : Qc) : (Fin a ==? Fin b)%F = true <-> a = b.
Proof.
  simpl. rewrite Qceq_alt. destruct (a ?= b)%Qc; split; congruence.
Qed.

Lemma same_eq (x y : pyfloat) : same x y = true <-> x = y.
Proof.
  destruct x as [a | | |], y as [b | | |];
    try (simpl; split; congruence).
  change (same (Fin a) (Fin b)) with (Fin a ==? Fin b)%F.
  rewrite eqb_Fin. split; congruence.
Qed.

Lemma eqb_eq (x y : pyfloat) : (x ==? y)%F = true -> x = y.
Proof.
  destruct x, y; simpl; try congruence.
  destruct (q ?= q0)%Qc eqn:E; try congruence.
  intros _. f_equal. now apply Qceq_alt.
Qed.

Lemma eqb_refl (x : pyfloat) : is_nan x = false -> (x ==? x)%F = true.
Proof.
  destruct x; simpl; try congruence. intros _.
  assert ((q ?= q)%Qc = Eq) as -> by now apply Qceq_alt. reflexivity.
Qed.

Lemma abs_gt_Fin (d c : Qc) :
  (0 <= c)%Qc ->
  (abs (Fin d) >? Fin c)%F = true <-> (c < d \/ d < - c)%Qc.
Proof.
  intros Hc. unfold gtb, abs.
  destruct (d ?= 0)%Qc eqn:E;
    [apply Qceq_alt in E | apply Qclt_alt in E | apply Qcgt_alt in E];
    rewrite ltb_Fin; subst; to_Q; split;
    try (intros [H | H]); intros; lra.
Qed.


(** ** Construction *)


(** ** Reductions over finite values *)

Lemma max_step_Fin (a b : Qc) :
  exists m, max_step (Fin a) (Fin b) = Fin m
            /\ (a <= m)%Qc /\ (b <= m)%Qc /\ (m = a \/ m = b).
Proof.
  unfold max_step. simpl is_nan. cbv iota.
  destruct (Fin a <? Fin b)%F eqn:E.
  - exists b. apply ltb_Fin in E. repeat split; auto.
    + now apply Qclt_le_weak.
    + apply Qcle_refl.
  - exists a. repeat split; auto.
    + apply Qcle_refl.
    + apply Qcnot_lt_le. intros H. apply ltb_Fin in H. congruence.
Qed.

Lemma min_step_Fin (a b : Qc) :
  exists m, min_step (Fin a) (Fin b) = Fin m
            /\ (m <= a)%Qc /\ (m <= b)%Qc /\ (m = a \/ m = b).
Proof.
  unfold min_step. simpl is_nan. cbv iota.
  destruct (Fin b <? Fin a)%F eqn:E.
  - exists b. apply ltb_Fin in E. repeat split; auto.
    + now apply Qclt_le_weak.
    + apply Qcle_refl.
  - exists a. repeat split; auto.
    + apply Qcle_refl.
    + apply Qcnot_lt_le. intros H. apply ltb_Fin in H. congruence.
Qed.

(** On finite values [np.max] is the greatest element. *)
Lemma np_max_finite (l : list pyfloat) :
  finite l -> forall a : Qc,
  exists m, np_max (Fin a) l = Fin m
            /\ In (Fin m) (Fin a :: l)
            /\ forall q, In (Fin q) (Fin a :: l) -> (q <= m)%Qc.
Proof.
  unfold np_max. induction 1 as [| x l Hx Hl IH]; intros a.
  - exists a. simpl. repeat split; auto.
    intros q [[= ->] | []]. apply Qcle_refl.
  - destruct x as [b | | |]; try discriminate.
    destruct (max_step_Fin a b) as (m & Em & Ha & Hb & Hm).
    simpl fold_left. rewrite Em.
    destruct (IH m) as (m' & E' & Hin & Hub).
    exists m'. split; [exact E' |]. split.
    + destruct Hin as [Hin | Hin].
      * injection Hin as <-. destruct Hm as [-> | ->]; simpl; auto.
      * simpl; auto.
    + assert (m <= m')%Qc as Hmm by (apply Hub; now left).
      intros q [[= ->] | [[= ->] | Hq]].
      * eapply Qcle_trans; eassumption.
      * eapply Qcle_trans; eassumption.
      * apply Hub. now right.
Qed.

(** On finite values [np.min] is the least element. *)
Lemma np_min_finite (l : list pyfloat) :
  finite l -> forall a : Qc,
  exists m, np_min (Fin a) l = Fin m
            /\ In (Fin m) (Fin a :: l)
            /\ forall q, In (Fin q) (Fin a :: l) -> (m <= q)%Qc.
Proof.
  unfold np_min. induction 1 as [| x l Hx Hl IH]; intros a.
  - exists a. simpl. repeat split; auto.
    intros q [[= ->] | []]. apply Qcle_refl.
  - destruct x as [b | | |]; try discriminate.
    destruct (min_step_Fin a b) as (m & Em & Ha & Hb & Hm).
    simpl fold_left. rewrite Em.
    destruct (IH m) as (m' & E' & Hin & Hlb).
    exists m'. split; [exact E' |]. split.
    + destruct Hin as [Hin | Hin].
      * injection Hin as <-. destruct Hm as [-> | ->]; simpl; auto.
      * simpl; auto.
    + assert (m' <= m)%Qc as Hmm by (apply Hlb; now left).
      intros q [[= ->] | [[= ->] | Hq]].
      * eapply Qcle_trans; eassumption.
      * eapply Qcle_trans; eassumption.
      * apply Hlb. now right.
Qed.

(** ** Normalisation *)

(** The two ways a value is scaled between [lo < hi]. *)
Lemma scale_minimize_Fin (lo hi q : Qc) :
  (lo < hi)%Qc ->
  (one - (Fin q - Fin lo) / (Fin hi - Fin lo))%F
  = Fin (1 - (q - lo) / (hi - lo))%Qc.
Proof.
  intros H. unfold sub, one, of_Z, lit. simpl neg. simpl add.
  unfold np_div.
  assert ((hi + - lo ?= 0)%Qc = Gt) as ->.
  { apply Qcgt_alt. to_Q. lra. }
  reflexivity.
Qed.

Lemma scale_maximize_Fin (lo hi q : Qc) :
  (lo < hi)%Qc ->
  ((Fin q - Fin lo) / (Fin hi - Fin lo))%F = Fin ((q - lo) / (hi - lo))%Qc.
Proof.
  intros H. unfold sub. simpl neg. simpl add. unfold np_div.
  assert ((hi + - lo ?= 0)%Qc = Gt) as ->.
  { apply Qcgt_alt. to_Q. lra. }
  reflexivity.
Qed.

Lemma ratio_bounds (lo hi q : Qc) :
  (lo < hi)%Qc -> (lo <= q)%Qc -> (q <= hi)%Qc ->
  (0 <= (q - lo) / (hi - lo))%Qc /\ ((q - lo) / (hi - lo) <= 1)%Qc.
Proof.
  intros. to_Q. split.
  - apply Qle_shift_div_l; lra.
  - apply Qle_shift_div_r; lra.
Qed.

Lemma unit_interval_Fin (q : Qc) :
  unit_interval (Fin q) = true <-> (0 <= q)%Qc /\ (q <= 1)%Qc.
Proof.
  unfold unit_interval. rewrite andb_true_iff.
  unfold zero, one, of_Z, lit. now rewrite !leb_Fin.
Qed.

Lemma normalize_time_is_normalize_cost (l : list pyfloat) :
  normalize_time l = normalize_cost l.
Proof. reflexivity. Qed.

Lemma finite_In (l : list pyfloat) (x : pyfloat) :
  finite l -> In x l -> exists q, x = Fin q.
Proof.
  intros H Hin. unfold finite in H. rewrite Forall_forall in H.
  specialize (H x Hin). destruct x; try discriminate. eauto.
Qed.

(** The extremes of a non-empty finite list, as the normalisers see them. *)
Lemma extremes_finite (x0 : pyfloat) (rest : list pyfloat) :
  finite (x0 :: rest) ->
  exists lo hi,
    np_min x0 rest = Fin lo /\ np_max x0 rest = Fin hi
    /\ In (Fin lo) (x0 :: rest) /\ In (Fin hi) (x0 :: rest)
    /\ forall q, In (Fin q) (x0 :: rest) -> (lo <= q)%Qc /\ (q <= hi)%Qc.
Proof.
  intros H. inversion H as [| x l Hx Hl]; subst.
  destruct x0 as [a | | |]; try discriminate.
  destruct (np_min_finite _ Hl a) as (lo & Elo & Ilo & Hlo).
  destruct (np_max_finite _ Hl a) as (hi & Ehi & Ihi & Hhi).
  exists lo, hi. repeat split; auto.
Qed.

Lemma normalize_cost_cases (l : list pyfloat) :
  finite l -> l <> [] ->
  exists lo hi,
    In (Fin lo) l /\ In (Fin hi) l
    /\ (forall q, In (Fin q) l -> (lo <= q)%Qc /\ (q <= hi)%Qc)
    /\ ((lo = hi /\ normalize_cost l = ones_like l)
        \/ ((lo < hi)%Qc
            /\ normalize_cost l
               = map (fun c => one - (c - Fin lo) / (Fin hi - Fin lo))%F l)).
Proof.
  intros H Hne. destruct l as [| x0 rest]; [congruence |].
  destruct (extremes_finite _ _ H) as (lo & hi & Elo & Ehi & Ilo & Ihi & Hb).
  exists lo, hi. repeat split; auto; try apply Hb; auto.
  unfold normalize_cost. rewrite Elo, Ehi.
  destruct (Fin hi ==? Fin lo)%F eqn:E.
  - left. apply eqb_Fin in E. auto.
  - right. split; [| reflexivity].
    destruct (Qcle_lt_or_eq lo hi) as [Hlt | Heq]; auto.
    + eapply Qcle_trans; apply Hb; eauto.
    + subst. rewrite eqb_refl in E by reflexivity. discriminate.
Qed.

Lemma rating_scores_cases (l : list pyfloat) :
  finite l -> l <> [] ->
  exists lo hi,
    In (Fin lo) l /\ In (Fin hi) l
    /\ (forall q, In (Fin q) l -> (lo <= q)%Qc /\ (q <= hi)%Qc)
    /\ ((lo = hi /\ rating_scores l = ones_like l)
        \/ ((lo < hi)%Qc
            /\ rating_scores l
               = map (fun r => (r - Fin lo) / (Fin hi - Fin lo))%F l)).
Proof.
  intros H Hne. destruct l as [| x0 rest]; [congruence |].
  destruct (extremes_finite _ _ H) as (lo & hi & Elo & Ehi & Ilo & Ihi & Hb).
  exists lo, hi. repeat split; auto; try apply Hb; auto.
  unfold rating_scores. rewrite Elo, Ehi.
  destruct (Fin hi ==? Fin lo)%F eqn:E.
  - left. apply eqb_Fin in E. auto.
  - right. split; [| reflexivity].
    destruct (Qcle_lt_or_eq lo hi) as [Hlt | Heq]; auto.
    + eapply Qcle_trans; apply Hb; eauto.
    + subst. rewrite eqb_refl in E by reflexivity. discriminate.
Qed.

Lemma unit_interval_one : unit_interval one = true.
Proof. reflexivity. Qed.

Lemma Forall_ones_like (l : list pyfloat) :
  Forall (fun x => unit_interval x = true) (ones_like l).
Proof.
  unfold ones_like. apply Forall_forall. intros x Hx.
  apply in_map_iff in Hx. destruct Hx as (_ & <- & _). reflexivity.
Qed.

Lemma nth_error_ones_like (l : list pyfloat) i v :
  nth_error l i = Some v -> nth_error (ones_like l) i = Some one.
Proof.
  intros H. unfold ones_like. rewrite nth_error_map, H. reflexivity.
Qed.

Lemma normalize_cost_length (l : list pyfloat) :
  List.length (normalize_cost l) = List.length l.
Proof.
  destruct l as [| x0 rest]; [reflexivity |].
  unfold normalize_cost, ones_like.
  destruct (_ ==? _)%F; apply length_map.
Qed.

Lemma rating_scores_length (l : list pyfloat) :
  List.length (rating_scores l) = List.length l.
Proof.
  destruct l as [| x0 rest]; [reflexivity |].
  unfold rating_scores, ones_like.
  destruct (_ ==? _)%F; apply length_map.
Qed.

Lemma normalize_cost_range (l : list pyfloat) :
  finite l -> Forall (fun x => unit_interval x = true) (normalize_cost l).
Proof.
  intros H. destruct l as [| x0 rest] eqn:El; [constructor |].
  rewrite <- El in *.
  destruct (normalize_cost_cases _ H) as (lo & hi & _ & _ & Hb & [[_ E] | [Hlt E]]);
    [subst; discriminate | | ]; rewrite E.
  - apply Forall_ones_like.
  - apply Forall_forall. intros y Hy. apply in_map_iff in Hy.
    destruct Hy as (c & <- & Hc).
    destruct (finite_In _ c H Hc) as (q & ->).
    rewrite scale_minimize_Fin by assumption.
    destruct (Hb q Hc) as [H1 H2].
    destruct (ratio_bounds _ _ _ Hlt H1 H2) as [R1 R2].
    apply unit_interval_Fin. to_Q. lra.
Qed.

Lemma rating_scores_range (l : list pyfloat) :
  finite l -> Forall (fun x => unit_interval x = true) (rating_scores l).
Proof.
  intros H. destruct l as [| x0 rest] eqn:El; [constructor |].
  rewrite <- El in *.
  destruct (rating_scores_cases _ H) as (lo & hi & _ & _ & Hb & [[_ E] | [Hlt E]]);
    [subst; discriminate | | ]; rewrite E.
  - apply Forall_ones_like.
  - apply Forall_forall. intros y Hy. apply in_map_iff in Hy.
    destruct Hy as (c & <- & Hc).
    destruct (finite_In _ c H Hc) as (q & ->).
    rewrite scale_maximize_Fin by assumption.
    destruct (Hb q Hc) as [H1 H2].
    destruct (ratio_bounds _ _ _ Hlt H1 H2) as [R1 R2].
    now apply unit_interval_Fin.
Qed.

Lemma Qc_minus_nonzero (lo hi : Qc) : (lo < hi)%Qc -> (hi - lo)%Qc <> 0%Qc.
Proof.
  intros H E. apply (f_equal this) in E.
  assert ((hi - lo)%Qc == 0)%Q as E' by (rewrite E; reflexivity).
  to_Q. lra.
Qed.

Lemma scale_minimize_lowest (lo hi : Qc) :
  (lo < hi)%Qc -> Fin (1 - (lo - lo) / (hi - lo))%Qc = one.
Proof.
  intros H. unfold one, of_Z, lit. f_equal.
  change (Q2Qc (1 # 1)) with 1%Qc. field. now apply Qc_minus_nonzero.
Qed.

Lemma scale_maximize_highest (lo hi : Qc) :
  (lo < hi)%Qc -> Fin ((hi - lo) / (hi - lo))%Qc = one.
Proof.
  intros H. unfold one, of_Z, lit. f_equal.
  change (Q2Qc (1 # 1)) with 1%Qc. field. now apply Qc_minus_nonzero.
Qed.

Lemma normalize_cost_lowest (l : list pyfloat) i v :
  finite l -> nth_error l i = Some v ->
  (forall u, In u l -> (v <=? u)%F = true) ->
  nth_error (normalize_cost l) i = Some one.
Proof.
  intros H Hi Hmin.
  assert (l <> []) as Hne by (intros ->; destruct i; discriminate).
  destruct (normalize_cost_cases _ H Hne)
    as (lo & hi & Ilo & _ & Hb & [[_ E] | [Hlt E]]); rewrite E.
  - eapply nth_error_ones_like; eauto.
  - rewrite nth_error_map, Hi. cbv [option_map]. f_equal.
    destruct (finite_In _ v H (nth_error_In _ _ Hi)) as (q & ->).
    rewrite scale_minimize_Fin by assumption.
    assert (q = lo) as ->.
    { apply Qcle_antisym.
      - apply leb_Fin. now apply Hmin.
      - apply Hb. eapply nth_error_In; eauto. }
    now apply scale_minimize_lowest.
Qed.

Lemma rating_scores_highest (l : list pyfloat) i v :
  finite l -> nth_error l i = Some v ->
  (forall u, In u l -> (u <=? v)%F = true) ->
  nth_error (rating_scores l) i = Some one.
Proof.
  intros H Hi Hmax.
  assert (l <> []) as Hne by (intros ->; destruct i; discriminate).
  destruct (rating_scores_cases _ H Hne)
    as (lo & hi & _ & Ihi & Hb & [[_ E] | [Hlt E]]); rewrite E.
  - eapply nth_error_ones_like; eauto.
  - rewrite nth_error_map, Hi. cbv [option_map]. f_equal.
    destruct (finite_In _ v H (nth_error_In _ _ Hi)) as (q & ->).
    rewrite scale_maximize_Fin by assumption.
    assert (q = hi) as ->.
    { apply Qcle_antisym.
      - apply Hb. eapply nth_error_In; eauto.
      - apply leb_Fin. now apply Hmax. }
    now apply scale_maximize_highest.
Qed.

Lemma normalize_cost_constant (l : list pyfloat) :
  finite l -> (forall u v, In u l -> In v l -> u = v) ->
  normalize_cost l = ones_like l.
Proof.
  intros H Heq. destruct l as [| x0 rest] eqn:El; [reflexivity |].
  rewrite <- El in *.
  destruct (normalize_cost_cases _ H)
    as (lo & hi & Ilo & Ihi & _ & [[_ E] | [Hlt E]]);
    [subst; discriminate | assumption |].
  specialize (Heq _ _ Ilo Ihi). injection Heq as ->.
  exfalso. to_Q. lra.
Qed.

Lemma rating_scores_constant (l : list pyfloat) :
  finite l -> (forall u v, In u l -> In v l -> u = v) ->
  rating_scores l = ones_like l.
Proof.
  intros H Heq. destruct l as [| x0 rest] eqn:El; [reflexivity |].
  rewrite <- El in *.
  destruct (rating_scores_cases _ H)
    as (lo & hi & Ilo & Ihi & _ & [[_ E] | [Hlt E]]);
    [subst; discriminate | assumption |].
  specialize (Heq _ _ Ilo Ihi). injection Heq as ->.
  exfalso. to_Q. lra.
Qed.




(** ** Scores *)

Lemma index_from_finds (x : pyfloat) (l : list pyfloat) :
  forall k i, nth_error l i = Some x ->
  exists j, index_from x l k = Ok (k + j)%nat /\ nth_error l j = Some x.
Proof.
  induction l as [| y l IH]; intros k i Hi.
  - destruct i; discriminate.
  - simpl. destruct (same y x) eqn:E.
    + exists 0%nat. apply same_eq in E. subst.
      rewrite Nat.add_0_r. auto.
    + destruct i as [| i].
      * injection Hi as ->.
        assert (same x x = true) by now apply same_eq. congruence.
      * destruct (IH (S k) i Hi) as (j & Ej & Hj).
        exists (S j). rewrite Nat.add_succ_r. auto.
Qed.

Lemma index_finds (x : pyfloat) (l : list pyfloat) i :
  nth_error l i = Some x ->
  exists j, index l x = Ok j /\ nth_error l j = Some x.
Proof.
  intros H. destruct (index_from_finds x l 0 i H) as (j & E & Hj). eauto.
Qed.

(** A normalised list is the input mapped value by value. *)
Lemma normalize_cost_pointwise (l : list pyfloat) :
  exists g, normalize_cost l = map g l.
Proof.
  destruct l as [| x0 rest].
  - exists (fun x => x). reflexivity.
  - unfold normalize_cost, ones_like. destruct (_ ==? _)%F; eauto.
Qed.

Lemma rating_scores_pointwise (l : list pyfloat) :
  exists g, rating_scores l = map g l.
Proof.
  destruct l as [| x0 rest].
  - exists (fun x => x). reflexivity.
  - unfold rating_scores, ones_like. destruct (_ ==? _)%F; eauto.
Qed.

(** Looking a value up by its first occurrence finds the normalised value
    of every position that holds it. *)
Lemma normalized_at_index (l : list pyfloat) i x :
  nth_error l i = Some x ->
  exists j n,
    index l x = Ok j
    /\ getitem (normalize_cost l) j = Ok n
    /\ nth_error (normalize_cost l) i = Some n.
Proof.
  intros Hi. destruct (index_finds _ _ i Hi) as (j & Ej & Hj).
  destruct (normalize_cost_pointwise l) as (g & Eg).
  exists j, (g x). unfold getitem.
  rewrite Eg, !nth_error_map, Hi, Hj. auto.
Qed.

Lemma calculate_score_at_position
    (self : ItineraryOptimizer) (costs times : list pyfloat)
    (i : nat) (c t : pyfloat) :
  nth_error costs i = Some c ->
  nth_error times i = Some t ->
  exists cn tn,
    nth_error (normalize_cost costs) i = Some cn
    /\ nth_error (normalize_time times) i = Some tn
    /\ calculate_score self c t costs times
       = Ok (cost_weight self * cn + time_weight self * tn)%F.
Proof.
  intros Hc Ht.
  destruct (normalized_at_index _ _ _ Hc) as (jc & cn & Ec & Gc & Nc).
  destruct (normalized_at_index _ _ _ Ht) as (jt & tn & Et & Gt & Nt).
  exists cn, tn. repeat split; auto.
  unfold calculate_score, bind.
  rewrite Ec, Et, Gc.
  change (normalize_time times) with (normalize_cost times).
  rewrite Gt. reflexivity.
Qed.

(** C10.  For every position [i] of the two lists, [calculate_score]
    called with [costs[i]] and [times[i]] returns [cost_weight *
    normalize_cost(costs)[i] + time_weight * normalize_time(times)[i]]:
    the lookup by first occurrence ([list.index]) changes nothing, also
    when a value occurs more than once. *)
Theorem calculate_score_is_positionwise
    (self : ItineraryOptimizer) (costs times : list pyfloat)
    (i : nat) (c t : pyfloat) :
  nth_error costs i = Some c ->
  nth_error times i = Some t ->
  exists cn tn,
    nth_error (normalize_cost costs) i = Some cn
    /\ nth_error (normalize_time times) i = Some tn
    /\ calculate_score self c t costs times
       = Ok (cost_weight self * cn + time_weight self * tn)%F.
Proof. exact (calculate_score_at_position self costs times i c t). Qed.

Lemma calculate_score_is_positionwise_witness :
  let self := mkOptimizer (lit 6 10) (lit 4 10) in
  let costs := [of_Z 100; of_Z 100; of_Z 200] in
  let times := [of_Z 7; of_Z 5; of_Z 5] in
  nth_error costs 1 = Some (of_Z 100)
  /\ nth_error times 1 = Some (of_Z 5)
  /\ exists cn tn,
       nth_error (normalize_cost costs) 1 = Some cn
       /\ nth_error (normalize_time times) 1 = Some tn
       /\ calculate_score self (of_Z 100) (of_Z 5) costs times
          = Ok (cost_weight self * cn + time_weight self * tn)%F.
Proof.
  intros self costs times.
  split; [reflexivity |]. split; [reflexivity |].
  apply (calculate_score_is_positionwise self costs times 1);
    reflexivity.
Defined.

(** ** The order on floats that are not NaN *)

Lemma ltb_Fin_false (a b : Qc) : (Fin a <? Fin b)%F = false <-> (b <= a)%Qc.
Proof.
  split; intros H.
  - apply Qcnot_lt_le. intros L. apply ltb_Fin in L. congruence.
  - destruct (Fin a <? Fin b)%F eqn:E; [| reflexivity].
    apply ltb_Fin in E. exfalso. to_Q. lra.
Qed.

Lemma leb_Fin_false (a b : Qc) : (Fin a <=? Fin b)%F = false <-> (b < a)%Qc.
Proof.
  split; intros H.
  - apply Qcnot_le_lt. intros L. apply leb_Fin in L. congruence.
  - destruct (Fin a <=? Fin b)%F eqn:E; [| reflexivity].
    apply leb_Fin in E. exfalso. to_Q. lra.
Qed.

(** Settles a goal about [<?] and [<=?] on floats by cases on the special
    values and linear arithmetic on the finite ones. *)
Ltac float_order :=
  intros;
  repeat match goal with x : pyfloat |- _ => destruct x end;
  try discriminate; try reflexivity;
  rewrite ?ltb_Fin, ?leb_Fin, ?ltb_Fin_false, ?leb_Fin_false in *;
  to_Q; lra.

Lemma leb_refl (x : pyfloat) : is_nan x = false -> (x <=? x)%F = true.
Proof. float_order. Qed.

Lemma leb_false_ltb (x y : pyfloat) :
  is_nan x = false -> is_nan y = false ->
  (x <=? y)%F = false -> (y <? x)%F = true.
Proof. float_order. Qed.

Lemma ltb_leb (x y : pyfloat) : (x <? y)%F = true -> (x <=? y)%F = true.
Proof. float_order. Qed.

Lemma leb_ltb_trans (x y z : pyfloat) :
  (x <=? y)%F = true -> (y <? z)%F = true -> (x <? z)%F = true.
Proof. float_order. Qed.

Lemma leb_trans (x y z : pyfloat) :
  (x <=? y)%F = true -> (y <=? z)%F = true -> (x <=? z)%F = true.
Proof. float_order. Qed.

Lemma ltb_false_trans (x y z : pyfloat) :
  is_nan y = false ->
  (x <? y)%F = false -> (y <? z)%F = false -> (x <? z)%F = false.
Proof. float_order. Qed.

Lemma ltb_asym (x y : pyfloat) : (x <? y)%F = true -> (y <? x)%F = false.
Proof. float_order. Qed.

Lemma ltb_irrefl (x : pyfloat) : (x <? x)%F = false.
Proof. float_order. Qed.

(** ** [np.argmax] *)

Lemma no_nan_nth (s : list pyfloat) j y :
  no_nan s -> nth_error s j = Some y -> is_nan y = false.
Proof.
  intros H E. unfold no_nan in H. rewrite Forall_forall in H.
  apply H. eapply nth_error_In; eauto.
Qed.

(** The scan keeps the best position of the part it has seen. *)
Lemma argmax_scan_first_argmax (s : list pyfloat) :
  no_nan s ->
  forall l p mp max_ind,
    s = p ++ l ->
    nth_error s max_ind = Some mp ->
    (max_ind < List.length p)%nat ->
    (forall j y, (j < List.length p)%nat -> nth_error s j = Some y ->
                 (y <=? mp)%F = true) ->
    (forall j y, (j < max_ind)%nat -> nth_error s j = Some y ->
                 (y <? mp)%F = true) ->
    first_argmax s (argmax_scan mp max_ind (List.length p) l).
Proof.
  intros Hs. induction l as [| x l IH]; intros p mp max_ind Es Hmp Hlt Hle Hst.
  - simpl. exists mp. repeat split; auto.
    intros j y Hy. apply (Hle j y); auto.
    rewrite app_nil_r in Es. subst p.
    apply nth_error_Some. congruence.
  - assert (nth_error s (List.length p) = Some x) as Hx.
    { subst s. rewrite nth_error_app2 by lia.
      now rewrite Nat.sub_diag. }
    assert (is_nan mp = false) as Nmp by (eapply no_nan_nth; eauto).
    assert (is_nan x = false) as Nx by (eapply no_nan_nth; eauto).
    assert (s = (p ++ [x]) ++ l) as Es'
      by (now rewrite <- app_assoc).
    assert (List.length (p ++ [x]) = S (List.length p)) as Elen
      by (rewrite length_app; simpl; lia).
    simpl. rewrite Nmp.
    destruct (x <=? mp)%F eqn:E; simpl; rewrite <- Elen.
    + apply IH; auto; try lia.
      intros j y Hj Hy.
      destruct (Nat.eq_dec j (List.length p)) as [-> | Hne].
      * congruence.
      * apply (Hle j y); auto. lia.
    + apply leb_false_ltb in E; auto.
      apply IH; auto; try lia.
      * intros j y Hj Hy.
        destruct (Nat.eq_dec j (List.length p)) as [-> | Hne].
        -- assert (y = x) as -> by congruence. now apply leb_refl.
        -- apply ltb_leb. apply leb_ltb_trans with mp; auto.
           apply (Hle j y); auto. lia.
      * intros j y Hj Hy. apply leb_ltb_trans with mp; auto.
        apply (Hle j y); auto.
Qed.

Lemma np_argmax_first_argmax (s : list pyfloat) :
  s <> [] -> no_nan s ->
  exists i, np_argmax s = Ok i /\ first_argmax s i.
Proof.
  intros Hne Hs. destruct s as [| x l]; [congruence |].
  exists (argmax_scan x 0 1 l). split; [reflexivity |].
  apply (argmax_scan_first_argmax (x :: l) Hs l [x] x 0%nat);
    auto; simpl; try lia.
  intros j y Hj Hy. assert (j = 0)%nat as -> by lia.
    injection Hy as <-. apply leb_refl.
    eapply no_nan_nth with (j := 0%nat); eauto.
Qed.

(** The scan never leaves the list. *)
Lemma argmax_scan_in_range (l : list pyfloat) :
  forall mp max_ind i,
    (max_ind < i)%nat ->
    (argmax_scan mp max_ind i l < i + List.length l)%nat.
Proof.
  induction l as [| x l IH]; intros mp max_ind i H; simpl.
  - lia.
  - destruct (is_nan mp); [lia |].
    destruct (negb _).
    + specialize (IH x i (S i)). lia.
    + specialize (IH mp max_ind (S i)). lia.
Qed.

Lemma np_argmax_in_range (s : list pyfloat) :
  s <> [] -> exists i, np_argmax s = Ok i /\ (i < List.length s)%nat.
Proof.
  intros Hne. destruct s as [| x l]; [congruence |].
  exists (argmax_scan x 0 1 l). split; [reflexivity |].
  pose proof (argmax_scan_in_range l x 0 1)%nat. simpl. lia.
Qed.

(** ** Selecting a flight or a hotel *)

Lemma getitem_nth_error {A : Type} (l : list A) i a :
  nth_error l i = Some a -> getitem l i = Ok a.
Proof. intros H. unfold getitem. now rewrite H. Qed.

Lemma getitem_in_range {A : Type} (l : list A) i :
  (i < List.length l)%nat ->
  exists a, getitem l i = Ok a /\ nth_error l i = Some a.
Proof.
  intros H. unfold getitem.
  destruct (nth_error l i) eqn:E; eauto.
  apply nth_error_None in E. lia.
Qed.

Lemma nth_error_combine {A B : Type} (l1 : list A) (l2 : list B) :
  forall k,
    nth_error (combine l1 l2) k
    = match nth_error l1 k, nth_error l2 k with
      | Some a, Some b => Some (a, b)
      | _, _ => None
      end.
Proof.
  revert l2. induction l1 as [| a l1 IH]; intros [| b l2] [| k];
    simpl; auto.
  - now destruct (nth_error l1 k).
Qed.

Lemma nth_error_enumerate {A : Type} (l : list A) k i a :
  nth_error (enumerate l) k = Some (i, a) ->
  i = k /\ nth_error l k = Some a.
Proof.
  unfold enumerate. intros H.
  assert (k < List.length l)%nat as Hk.
  { assert (k < List.length (combine (seq 0 (List.length l)) l))%nat as Hk
      by (apply nth_error_Some; congruence).
    rewrite length_combine, length_seq in Hk. lia. }
  destruct (nth_error l k) as [b |] eqn:Eb;
    [| apply nth_error_None in Eb; lia].
  assert (nth_error (seq 0 (List.length l)) k = Some k) as Es
    by (rewrite nth_error_seq; destruct (Nat.ltb_spec k (List.length l));
        [reflexivity | lia]).
  pose proof (nth_error_combine (seq 0 (List.length l)) l k) as Hc.
  rewrite Hc, Es, Eb in H. injection H as <- <-. auto.
Qed.

(** The loop of [select_best_flight] never raises, and fills [scores]
    position by position. *)
Lemma flight_scores_loop_total
    (self : ItineraryOptimizer) (costs times : list pyfloat) :
  forall todo : list (nat * candidate),
    (forall i a, In (i, a) todo ->
       (i < List.length costs)%nat /\ (i < List.length times)%nat) ->
    exists scores,
      flight_scores_loop self todo costs times = Ok scores
      /\ List.length scores = List.length todo
      /\ forall k i a, nth_error todo k = Some (i, a) ->
           exists cn tn,
             nth_error (normalize_cost costs) i = Some cn
             /\ nth_error (normalize_time times) i = Some tn
             /\ nth_error scores k
                = Some (cost_weight self * cn + time_weight self * tn)%F.
Proof.
  induction todo as [| [i a] todo IH]; intros Hin.
  - exists []. repeat split; auto. intros [| k]; discriminate.
  - destruct (Hin i a (or_introl eq_refl)) as [Hc Ht].
    destruct (getitem_in_range costs i Hc) as (c & Gc & Nc).
    destruct (getitem_in_range times i Ht) as (t & Gt & Nt).
    destruct (calculate_score_at_position self costs times i c t Nc Nt)
      as (cn & tn & En & Et & Es).
    destruct IH as (scores & El & Hlen & Hpos).
    { intros j b Hj. apply (Hin j b). now right. }
    exists ((cost_weight self * cn + time_weight self * tn)%F :: scores).
    simpl. rewrite Gc, Gt. simpl. rewrite Es. simpl. rewrite El. simpl.
    repeat split; auto.
    intros [| k] j b Hk; simpl in Hk.
    + injection Hk as <- <-. exists cn, tn. auto.
    + simpl. eapply Hpos; eauto.
Qed.

Lemma flight_scores_total (self : ItineraryOptimizer)
    (flights : list candidate) :
  exists scores,
    flight_scores self flights = Ok scores
    /\ List.length scores = List.length flights.
Proof.
  unfold flight_scores.
  set (costs := map (fun f => get total_price f PInf) flights).
  set (times := map (fun f => get duration_hours f PInf) flights).
  destruct (flight_scores_loop_total self costs times (enumerate flights))
    as (scores & E & Hlen & _).
  - intros i a Hin. apply In_nth_error in Hin. destruct Hin as (k & Hk).
    apply nth_error_enumerate in Hk. destruct Hk as [-> Hk].
    assert (k < List.length flights)%nat
      by (apply nth_error_Some; congruence).
    unfold costs, times. rewrite !length_map. auto.
  - exists scores. split; auto. rewrite Hlen.
    unfold enumerate. rewrite length_combine, length_seq. lia.
Qed.

Lemma enumerate_nth_error {A : Type} (l : list A) k a :
  nth_error l k = Some a -> nth_error (enumerate l) k = Some (k, a).
Proof.
  intros H. unfold enumerate. rewrite nth_error_combine, nth_error_seq, H.
  assert (k < List.length l)%nat as Hk by (apply nth_error_Some; congruence).
  destruct (Nat.ltb_spec k (List.length l)); [reflexivity | lia].
Qed.

(** The scores of the flights are the weighted normalised prices and
    durations. *)
Lemma flight_scores_weighted (self : ItineraryOptimizer)
    (flights : list candidate) :
  flight_scores self flights
  = Ok (weighted self
          (normalize_cost (map (fun f => get total_price f PInf) flights))
          (normalize_time (map (fun f => get duration_hours f PInf) flights))).
Proof.
  unfold flight_scores.
  set (costs := map (fun f => get total_price f PInf) flights).
  set (times := map (fun f => get duration_hours f PInf) flights).
  destruct (flight_scores_loop_total self costs times (enumerate flights))
    as (scores & E & Hlen & Hpos).
  { intros i a Hin. apply In_nth_error in Hin. destruct Hin as (k & Hk).
    apply nth_error_enumerate in Hk. destruct Hk as [-> Hk].
    assert (k < List.length flights)%nat
      by (apply nth_error_Some; congruence).
    unfold costs, times. rewrite !length_map. auto. }
  rewrite E. f_equal. apply nth_error_ext. intros k.
  assert (List.length scores = List.length flights) as Hlen'.
  { rewrite Hlen. unfold enumerate. rewrite length_combine, length_seq. lia. }
  unfold weighted. rewrite nth_error_map, nth_error_combine.
  destruct (nth_error flights k) as [f |] eqn:Ef.
  - destruct (Hpos k k f (enumerate_nth_error _ _ _ Ef))
      as (cn & tn & -> & -> & ->). reflexivity.
  - apply nth_error_None in Ef.
    assert (nth_error scores k = None) as -> by (apply nth_error_None; lia).
    assert (nth_error (normalize_cost costs) k = None) as ->.
    { apply nth_error_None. rewrite normalize_cost_length.
      unfold costs. rewrite length_map. lia. }
    reflexivity.
Qed.

Lemma hotel_scores_weighted (self : ItineraryOptimizer)
    (hotels : list candidate) :
  hotel_scores self hotels
  = weighted self
      (normalize_cost (map (fun h => get total_price h PInf) hotels))
      (rating_scores (map (fun h => get rating h zero) hotels)).
Proof. reflexivity. Qed.

Lemma hotel_scores_length (self : ItineraryOptimizer)
    (hotels : list candidate) :
  List.length (hotel_scores self hotels) = List.length hotels.
Proof.
  unfold hotel_scores.
  rewrite length_map, length_combine, normalize_cost_length,
    rating_scores_length, !length_map. lia.
Qed.

Lemma select_best_flight_nonempty (self : ItineraryOptimizer)
    (flights : list candidate) :
  flights <> [] ->
  select_best_flight self flights
  = (scores <- flight_scores self flights ;;
     best_idx <- np_argmax scores ;;
     best <- getitem flights best_idx ;;
     Ok (Some best)).
Proof. destruct flights; [congruence | reflexivity]. Qed.

Lemma select_best_hotel_nonempty (self : ItineraryOptimizer)
    (hotels : list candidate) :
  hotels <> [] ->
  select_best_hotel self hotels
  = (best_idx <- np_argmax (hotel_scores self hotels) ;;
     best <- getitem hotels best_idx ;;
     Ok (Some best)).
Proof. destruct hotels; [congruence | reflexivity]. Qed.

Lemma list_eq_dec_nil {A : Type} (l : list A) : {l = []} + {l <> []}.
Proof. destruct l; [left | right]; congruence. Qed.

Lemma nonempty_length {A : Type} (l : list A) :
  l <> [] <-> (0 < List.length l)%nat.
Proof. destruct l; simpl; split; try congruence; lia. Qed.

(** Neither selection raises. *)
Lemma select_best_flight_total (self : ItineraryOptimizer)
    (flights : list candidate) :
  exists best, select_best_flight self flights = Ok best
               /\ (flights = [] -> best = None)
               /\ forall f, best = Some f -> In f flights.
Proof.
  destruct (list_eq_dec_nil flights) as [-> | Hne].
  - exists None. repeat split; auto. discriminate.
  - destruct (flight_scores_total self flights) as (scores & Es & Hlen).
    destruct (np_argmax_in_range scores) as (i & Ei & Hi).
    { apply nonempty_length. rewrite Hlen. now apply nonempty_length. }
    destruct (getitem_in_range flights i) as (b & Gb & Nb); [lia |].
    exists (Some b). rewrite select_best_flight_nonempty by assumption.
    unfold bind. rewrite Es, Ei, Gb.
    repeat split; auto.
    + congruence.
    + intros f [= <-]. eapply nth_error_In; eauto.
Qed.

Lemma select_best_hotel_total (self : ItineraryOptimizer)
    (hotels : list candidate) :
  exists best, select_best_hotel self hotels = Ok best
               /\ (hotels = [] -> best = None)
               /\ forall h, best = Some h -> In h hotels.
Proof.
  destruct (list_eq_dec_nil hotels) as [-> | Hne].
  - exists None. repeat split; auto. discriminate.
  - destruct (np_argmax_in_range (hotel_scores self hotels)) as (i & Ei & Hi).
    { apply nonempty_length. rewrite hotel_scores_length.
      now apply nonempty_length. }
    rewrite hotel_scores_length in Hi.
    destruct (getitem_in_range hotels i Hi) as (b & Gb & Nb).
    exists (Some b). rewrite select_best_hotel_nonempty by assumption.
    unfold bind. rewrite Ei, Gb.
    repeat split; auto.
    + congruence.
    + intros h [= <-]. eapply nth_error_In; eauto.
Qed.

Lemma first_argmax_in_range (scores : list pyfloat) i :
  first_argmax scores i -> (i < List.length scores)%nat.
Proof.
  intros (v & Hv & _). apply nth_error_Some. congruence.
Qed.

Lemma select_best_flight_first_argmax (self : ItineraryOptimizer)
    (flights : list candidate) :
  flights <> [] ->
  exists scores,
    flight_scores self flights = Ok scores
    /\ scores
       = weighted self
           (normalize_cost (map (fun f => get total_price f PInf) flights))
           (normalize_time
              (map (fun f => get duration_hours f PInf) flights))
    /\ List.length scores = List.length flights
    /\ (no_nan scores ->
        exists i best,
          select_best_flight self flights = Ok (Some best)
          /\ nth_error flights i = Some best
          /\ first_argmax scores i).
Proof.
  intros Hne.
  destruct (flight_scores_total self flights) as (scores & Es & Hlen).
  exists scores. split; [exact Es |].
  split; [rewrite flight_scores_weighted in Es; congruence |].
  split; [exact Hlen |]. intros Hnan.
  destruct (np_argmax_first_argmax scores) as (i & Ei & Hi); auto.
  { apply nonempty_length. rewrite Hlen. now apply nonempty_length. }
  pose proof (first_argmax_in_range _ _ Hi) as Hr.
  destruct (getitem_in_range flights i) as (b & Gb & Nb); [lia |].
  exists i, b. rewrite select_best_flight_nonempty by assumption.
  unfold bind. rewrite Es, Ei, Gb. auto.
Qed.

Lemma select_best_hotel_first_argmax (self : ItineraryOptimizer)
    (hotels : list candidate) :
  hotels <> [] ->
  hotel_scores self hotels
  = weighted self
      (normalize_cost (map (fun h => get total_price h PInf) hotels))
      (rating_scores (map (fun h => get rating h zero) hotels))
  /\ List.length (hotel_scores self hotels) = List.length hotels
  /\ (no_nan (hotel_scores self hotels) ->
      exists i best,
        select_best_hotel self hotels = Ok (Some best)
        /\ nth_error hotels i = Some best
        /\ first_argmax (hotel_scores self hotels) i).
Proof.
  intros Hne. split; [reflexivity |].
  split; [apply hotel_scores_length |]. intros Hnan.
  destruct (np_argmax_first_argmax (hotel_scores self hotels))
    as (i & Ei & Hi); auto.
  { apply nonempty_length. rewrite hotel_scores_length.
    now apply nonempty_length. }
  pose proof (first_argmax_in_range _ _ Hi) as Hr.
  rewrite hotel_scores_length in Hr.
  destruct (getitem_in_range hotels i Hr) as (b & Gb & Nb).
  exists i, b. rewrite select_best_hotel_nonempty by assumption.
  unfold bind. rewrite Ei, Gb. auto.
Qed.

(** Two equal scores: the first position wins, NaN or not. *)
Lemma np_argmax_tie (s : pyfloat) : np_argmax [s; s] = Ok 0%nat.
Proof.
  unfold np_argmax, argmax_scan.
  destruct (is_nan s) eqn:E; [reflexivity |].
  now rewrite leb_refl.
Qed.

Lemma select_best_hotel_tie (self : ItineraryOptimizer) (h1 h2 : candidate) :
  total_price h1 = total_price h2 ->
  rating h1 = rating h2 ->
  select_best_hotel self [h1; h2] = Ok (Some h1).
Proof.
  intros Hp Hr. unfold select_best_hotel, hotel_scores, get.
  simpl map at 2 3. rewrite <- Hp, <- Hr.
  set (c := match total_price h1 with Some v => v | None => PInf end).
  set (r := match rating h1 with Some v => v | None => zero end).
  destruct (normalize_cost_pointwise [c; c]) as (g & ->).
  destruct (rating_scores_pointwise [r; r]) as (g' & ->).
  simpl map. simpl combine. simpl map.
  rewrite np_argmax_tie. reflexivity.
Qed.

(** Finite weights and finite fields give scores without NaN. *)
Lemma unit_interval_finite (x : pyfloat) :
  unit_interval x = true -> exists q, x = Fin q.
Proof.
  destruct x as [q | | |]; try discriminate. eauto.
Qed.

Lemma weighted_sum_no_nan (cw tw : pyfloat) (a b : pyfloat) :
  is_finite cw = true -> is_finite tw = true ->
  unit_interval a = true -> unit_interval b = true ->
  is_nan (cw * a + tw * b)%F = false.
Proof.
  intros Hc Ht Ha Hb.
  destruct (unit_interval_finite a Ha) as (qa & ->).
  destruct (unit_interval_finite b Hb) as (qb & ->).
  destruct cw, tw; try discriminate. reflexivity.
Qed.

Lemma finite_flights_no_nan (self : ItineraryOptimizer)
    (flights : list candidate) (scores : list pyfloat) :
  is_finite (cost_weight self) = true ->
  is_finite (time_weight self) = true ->
  finite (map (fun f => get total_price f PInf) flights) ->
  finite (map (fun f => get duration_hours f PInf) flights) ->
  flight_scores self flights = Ok scores ->
  no_nan scores.
Proof.
  intros Hc Ht Fc Ft E. unfold flight_scores in E.
  set (costs := map (fun f => get total_price f PInf) flights) in *.
  set (times := map (fun f => get duration_hours f PInf) flights) in *.
  destruct (flight_scores_loop_total self costs times (enumerate flights))
    as (scores' & E' & Hlen & Hpos).
  { intros i a Hin. apply In_nth_error in Hin. destruct Hin as (k & Hk).
    apply nth_error_enumerate in Hk. destruct Hk as [-> Hk].
    assert (k < List.length flights)%nat
      by (apply nth_error_Some; congruence).
    unfold costs, times. rewrite !length_map. auto. }
  rewrite E' in E. injection E as <-.
  apply Forall_forall. intros s Hs.
  apply In_nth_error in Hs. destruct Hs as (k & Hk).
  assert (k < List.length (enumerate flights))%nat as Hr
    by (rewrite <- Hlen; apply nth_error_Some; congruence).
  destruct (nth_error (enumerate flights) k) as [[i a] |] eqn:Ek;
    [| apply nth_error_None in Ek; lia].
  destruct (Hpos k i a Ek) as (cn & tn & Ncn & Ntn & Ns).
  rewrite Ns in Hk. injection Hk as <-.
  pose proof (normalize_cost_range costs Fc) as Rc.
  pose proof (normalize_cost_range times Ft) as Rt.
  rewrite Forall_forall in Rc, Rt.
  apply weighted_sum_no_nan; auto.
  - apply Rc. eapply nth_error_In; eauto.
  - apply Rt. eapply nth_error_In; eauto.
Qed.

Lemma finite_hotels_no_nan (self : ItineraryOptimizer)
    (hotels : list candidate) :
  is_finite (cost_weight self) = true ->
  is_finite (time_weight self) = true ->
  finite (map (fun h => get total_price h PInf) hotels) ->
  finite (map (fun h => get rating h zero) hotels) ->
  no_nan (hotel_scores self hotels).
Proof.
  intros Hc Ht Fc Fr. unfold hotel_scores.
  pose proof (normalize_cost_range _ Fc) as Rc.
  pose proof (rating_scores_range _ Fr) as Rr.
  rewrite Forall_forall in Rc, Rr.
  apply Forall_forall. intros s Hs. apply in_map_iff in Hs.
  destruct Hs as ([c r] & <- & Hin). simpl.
  apply weighted_sum_no_nan; auto.
  - apply Rc. eapply in_combine_l; eauto.
  - apply Rr. eapply in_combine_r; eauto.
Qed.




(** ** Candidates with a missing field *)

(** C1 fails on the code.  Whatever the finite weights, of a flight with
    a price and a flight without one (same duration), the one without is
    returned; of a hotel with a price and a hotel without one (same
    rating), the one without is returned.  The default of the other
    field does what the claim says: with the default weights, a hotel
    without a rating (it counts 0) is not returned when a hotel of the same
    price has one. *)
Theorem unpriced_candidate_is_selected (cw tw : Qc) :
  let self := mkOptimizer (Fin cw) (Fin tw) in
  select_best_flight self Example.priced_and_unpriced_flights
  = Ok (Some (Example.flight_without_price "B" 5))
  /\ total_price (Example.flight_without_price "B" 5) = None
  /\ select_best_hotel self Example.priced_and_unpriced_hotels
     = Ok (Some (Example.hotel_without_price "H2" 4))
  /\ total_price (Example.hotel_without_price "H2" 4) = None
  /\ select_best_hotel Example.weights
       [Example.hotel_without_rating "H3" 400; Example.hotel "H1" 400 4]
     = Ok (Some (Example.hotel "H1" 400 4)).
Proof.
  intros self. repeat split; vm_compute; reflexivity.
Qed.

(** ** Sorting by value *)

Section SortFacts.

Variable A : Type.

Lemma stable_sort_snoc (l : list (pyfloat * A)) (x : pyfloat * A) :
  stable_sort (l ++ [x]) = insort x (stable_sort l).
Proof. unfold stable_sort. now rewrite fold_left_app. Qed.

Lemma insort_before_greater (x y : pyfloat * A) (m : list (pyfloat * A)) :
  (fst x <? fst y)%F = true -> insort x (m ++ [y]) = insort x m ++ [y].
Proof.
  intros H. induction m as [| z m IH]; simpl.
  - now rewrite H.
  - destruct (fst x <? fst z)%F; [reflexivity |]. now rewrite IH.
Qed.

Lemma insort_after_all (x : pyfloat * A) (m : list (pyfloat * A)) :
  (forall y, In y m -> (fst x <? fst y)%F = false) ->
  insort x m = m ++ [x].
Proof.
  induction m as [| z m IH]; intros H; simpl; [reflexivity |].
  rewrite (H z) by now left.
  rewrite IH; [reflexivity |]. intros y Hy. apply H. now right.
Qed.

Lemma insort_In (x y : pyfloat * A) (m : list (pyfloat * A)) :
  In y (insort x m) <-> y = x \/ In y m.
Proof.
  induction m as [| z m IH]; simpl.
  - intuition.
  - destruct (fst x <? fst z)%F; simpl; rewrite ?IH; intuition.
Qed.

Lemma stable_sort_In (y : pyfloat * A) (l : list (pyfloat * A)) :
  In y (stable_sort l) <-> In y l.
Proof.
  induction l as [| x l IH] using rev_ind.
  - reflexivity.
  - rewrite stable_sort_snoc, insort_In, in_app_iff, IH. simpl. intuition.
Qed.

Lemma sort_reverse_In (y : pyfloat * A) (l : list (pyfloat * A)) :
  In y (sort_reverse l) <-> In y l.
Proof.
  unfold sort_reverse. now rewrite <- in_rev, stable_sort_In, <- in_rev.
Qed.

Lemma sort_reverse_cons (x : pyfloat * A) (l : list (pyfloat * A)) :
  sort_reverse (x :: l) = rev (insort x (rev (sort_reverse l))).
Proof.
  unfold sort_reverse. simpl rev at 2.
  now rewrite stable_sort_snoc, rev_involutive.
Qed.

End SortFacts.

Lemma insert_desc_In (a y : candidate) (s : list candidate) :
  In y (Reference.insert_desc a s) <-> y = a \/ In y s.
Proof.
  induction s as [| b s IH]; simpl.
  - intuition.
  - destruct (_ <? _)%F; simpl; rewrite ?IH; intuition.
Qed.

Lemma sort_desc_In (y : candidate) (l : list candidate) :
  In y (Reference.sort_desc l) <-> In y l.
Proof.
  induction l as [| a l IH]; simpl; [reflexivity |].
  rewrite insert_desc_In, IH. intuition.
Qed.

Lemma insert_desc_descending (a : candidate) (s : list candidate) :
  Forall (fun b => is_nan (Reference.value b) = false) s ->
  descending s -> descending (Reference.insert_desc a s).
Proof.
  unfold descending.
  induction s as [| b s IH]; intros Hn Hs; simpl.
  - repeat constructor.
  - inversion Hn as [| ? ? Nb Ns]; subst.
    inversion Hs as [| ? ? Ss Fb]; subst.
    destruct (_ <? _)%F eqn:E.
    + constructor; [now apply IH |].
      apply Forall_forall. intros y Hy.
      rewrite insert_desc_In in Hy. destruct Hy as [-> | Hy].
      * now apply ltb_asym.
      * rewrite Forall_forall in Fb. now apply Fb.
    + constructor; [now constructor |].
      constructor; [assumption |].
      apply Forall_forall. intros y Hy. rewrite Forall_forall in Fb.
      apply ltb_false_trans with (Reference.value b); auto.
Qed.

Lemma sort_desc_descending (l : list candidate) :
  Forall (fun b => is_nan (Reference.value b) = false) l ->
  descending (Reference.sort_desc l).
Proof.
  induction 1 as [| a l Na Nl IH]; simpl.
  - constructor.
  - apply insert_desc_descending; auto.
    apply Forall_forall. intros y Hy. rewrite sort_desc_In in Hy.
    rewrite Forall_forall in Nl. now apply Nl.
Qed.

(** Inserting from the right into the reversed list is inserting from
    the left into the list. *)
Lemma insort_rev_insert_desc (a : candidate) (s : list candidate) :
  Forall (fun b => is_nan (Reference.value b) = false) s ->
  descending s ->
  rev (insort (with_value a) (rev (map with_value s)))
  = map with_value (Reference.insert_desc a s).
Proof.
  unfold descending.
  induction s as [| b s IH]; intros Hn Hs; [reflexivity |].
  inversion Hn as [| ? ? Nb Ns]; subst.
  inversion Hs as [| ? ? Ss Fb]; subst.
  simpl map. simpl rev. simpl Reference.insert_desc.
  destruct (Reference.value a <? Reference.value b)%F eqn:E.
  - rewrite insort_before_greater by exact E.
    rewrite rev_app_distr. simpl. now rewrite IH.
  - rewrite insort_after_all.
    + rewrite !rev_app_distr. simpl. now rewrite rev_involutive.
    + intros y Hy. apply in_app_iff in Hy. destruct Hy as [Hy | [<- | []]].
      * apply in_rev, in_map_iff in Hy. destruct Hy as (c & <- & Hc).
        rewrite Forall_forall in Fb. simpl.
        apply ltb_false_trans with (Reference.value b); auto.
      * exact E.
Qed.

(** [sort(key=..., reverse=True)] is the stable descending sort. *)
Lemma sort_reverse_is_sort_desc (l : list candidate) :
  Forall (fun b => is_nan (Reference.value b) = false) l ->
  sort_reverse (map with_value l) = map with_value (Reference.sort_desc l).
Proof.
  induction 1 as [| a l Na Nl IH]; [reflexivity |].
  simpl map. rewrite sort_reverse_cons, IH. simpl.
  apply insort_rev_insert_desc.
  - apply Forall_forall. intros y Hy. rewrite sort_desc_In in Hy.
    rewrite Forall_forall in Nl. now apply Nl.
  - now apply sort_desc_descending.
Qed.

(** ** The activities of one day *)

Lemma fiftieth_positive (q : Qc) :
  (Q2Qc 0 < q)%Qc -> (q / Q2Qc (50 # 1) ?= Q2Qc 0)%Qc = Gt.
Proof.
  intros H. apply Qcgt_alt. to_Q. apply Qlt_shift_div_l; lra.
Qed.

Lemma truediv_by_fifty (x : pyfloat) :
  truediv x (of_Z 50) = Ok (x / of_Z 50)%F.
Proof. reflexivity. Qed.

Lemma truediv_by_positive (x : pyfloat) (q : Qc) :
  (q ?= Q2Qc 0)%Qc = Gt -> truediv x (Fin q) = Ok (x / Fin q)%F.
Proof. intros G. unfold truediv. now rewrite G. Qed.

Lemma fiftieth_Fin (q : Qc) :
  (Fin q / of_Z 50)%F = Fin (q / Q2Qc (50 # 1))%Qc.
Proof. reflexivity. Qed.

(** With a positive price the two divisions of the value score never
    divide by zero. *)
Lemma value_score_defined (a : candidate) :
  (zero <? Reference.price a)%F = true ->
  truediv (Reference.stars a * of_Z 2) (Reference.price a / of_Z 50)
  = Ok (Reference.value a).
Proof.
  unfold Reference.value. intros H.
  destruct (Reference.price a) as [q | | |] eqn:E; try discriminate.
  - apply ltb_Fin in H. rewrite fiftieth_Fin.
    apply truediv_by_positive. now apply fiftieth_positive.
  - reflexivity.
Qed.

Lemma activities_with_value_cons (a : candidate) (rest : list candidate) :
  activities_with_value (a :: rest)
  = if Reference.scorable a
    then reference <- truediv (Reference.price a) (of_Z 50) ;;
         value_score <- truediv (Reference.stars a * of_Z 2) reference ;;
         others <- activities_with_value rest ;;
         Ok ((value_score, a) :: others)
    else activities_with_value rest.
Proof. reflexivity. Qed.

Lemma activities_with_value_total (activities : list candidate) :
  activities_with_value activities
  = Ok (map with_value (filter Reference.scorable activities)).
Proof.
  induction activities as [| a rest IH]; [reflexivity |].
  rewrite activities_with_value_cons. cbn [filter].
  destruct (Reference.scorable a) eqn:Es; [| exact IH].
  unfold Reference.scorable in Es. apply andb_true_iff in Es.
  destruct Es as [Ep _].
  rewrite truediv_by_fifty. unfold bind at 1.
  rewrite (value_score_defined a Ep). unfold bind at 1.
  rewrite IH. reflexivity.
Qed.

(** [select_activities] never raises. *)
Lemma select_activities_total (activities : list candidate)
    (K : Z) (H : pyfloat) :
  select_activities activities K H
  = Ok (greedy_pass
          (sort_reverse (map with_value (filter Reference.scorable activities)))
          K H [] zero).
Proof.
  destruct activities as [| a rest]; [reflexivity |].
  unfold select_activities. now rewrite activities_with_value_total.
Qed.

(** The pass with its two accumulators is the pass of the specification. *)
Lemma greedy_pass_is_accept (l : list candidate) (K : Z) (H : pyfloat) :
  forall selected total_hours,
    greedy_pass (map with_value l) K H selected total_hours
    = selected
      ++ Reference.accept l K H (Z.of_nat (List.length selected)) total_hours.
Proof.
  induction l as [| a l IH]; intros selected total_hours; simpl.
  - now rewrite app_nil_r.
  - change (get duration_hours a zero) with (Reference.duration a).
    replace (Z.of_nat (List.length selected) + 1 <=? K)%Z
      with (Z.of_nat (List.length selected) <? K)%Z
      by (destruct (Z.ltb_spec (Z.of_nat (List.length selected)) K),
            (Z.leb_spec (Z.of_nat (List.length selected) + 1) K);
          auto; lia).
    destruct (_ && _).
    + rewrite IH, <- app_assoc, length_app. simpl.
      now rewrite Nat2Z.inj_add.
    + apply IH.
Qed.

Lemma select_activities_is_reference (activities : list candidate)
    (K : Z) (H : pyfloat) :
  comparable_values activities ->
  select_activities activities K H
  = Ok (Reference.select_activities activities K H).
Proof.
  intros Hc. rewrite select_activities_total.
  rewrite sort_reverse_is_sort_desc by exact Hc.
  now rewrite greedy_pass_is_accept.
Qed.

(** Finite ratings give comparable values. *)
Lemma finite_ratings_comparable (activities : list candidate) :
  Forall (fun a => is_finite (Reference.stars a) = true) activities ->
  comparable_values activities.
Proof.
  unfold comparable_values. intros H. apply Forall_forall.
  intros a Ha. apply filter_In in Ha. destruct Ha as [Ha Hs].
  rewrite Forall_forall in H. specialize (H a Ha).
  unfold Reference.scorable in Hs. apply andb_true_iff in Hs.
  destruct Hs as [Hp _]. unfold Reference.value.
  destruct (Reference.stars a) as [r | | |]; try discriminate.
  destruct (Reference.price a) as [q | | |]; try discriminate.
  - apply ltb_Fin in Hp. rewrite fiftieth_Fin.
    pose proof (fiftieth_positive q Hp) as G.
    unfold of_Z, lit. simpl. rewrite G. reflexivity.
  - reflexivity.
Qed.

Lemma greedy_pass_three_hour_day (todo : list (pyfloat * candidate)) :
  Forall (fun p => Reference.duration (snd p) = of_Z 3) todo ->
  forall selected total_hours,
    three_hour_day selected total_hours ->
    (List.length (greedy_pass todo 3 (of_Z 8) selected total_hours) <= 2)%nat.
Proof.
  induction 1 as [| [v a] todo Ha Htodo IH]; intros selected total_hours St.
  - simpl. destruct St as [[-> _] | [[-> _] | [-> _]]]; lia.
  - simpl in Ha. simpl greedy_pass.
    change (get duration_hours a zero) with (Reference.duration a).
    rewrite Ha.
    destruct St as [[El ->] | [[El ->] | [El ->]]]; rewrite El.
    + replace ((Z.of_nat 0 <? 3)%Z && (zero + of_Z 3 <=? of_Z 8)%F)
        with true by reflexivity.
      apply IH. right. left. rewrite length_app, El. split; [reflexivity |].
      apply Fin_eq. reflexivity.
    + replace ((Z.of_nat 1 <? 3)%Z && (of_Z 3 + of_Z 3 <=? of_Z 8)%F)
        with true by reflexivity.
      apply IH. right. right. rewrite length_app, El. split; [reflexivity |].
      apply Fin_eq. reflexivity.
    + replace ((Z.of_nat 2 <? 3)%Z && (of_Z 6 + of_Z 3 <=? of_Z 8)%F)
        with false by reflexivity.
      apply IH. right. right. auto.
Qed.

Lemma select_activities_three_hour_day (activities : list candidate) :
  Forall (fun a => duration_hours a = Some (of_Z 3)) activities ->
  exists selected,
    select_activities activities 3 (of_Z 8) = Ok selected
    /\ (List.length selected <= 2)%nat.
Proof.
  intros H. rewrite select_activities_total. eexists. split; [reflexivity |].
  apply greedy_pass_three_hour_day.
  - apply Forall_forall. intros [v a] Hin.
    rewrite sort_reverse_In in Hin. apply in_map_iff in Hin.
    destruct Hin as (b & [= <- <-] & Hb). apply filter_In in Hb.
    rewrite Forall_forall in H. simpl.
    unfold Reference.duration, get. now rewrite (H b (proj1 Hb)).
  - left. auto.
Qed.



(** ** Sums *)

Lemma add_zero_l (x : pyfloat) : (zero + x)%F = x.
Proof.
  destruct x; try reflexivity.
  unfold zero, of_Z, lit. simpl. f_equal. apply Qcplus_0_l.
Qed.

Lemma add_zero_r (x : pyfloat) : (x + zero)%F = x.
Proof.
  destruct x; try reflexivity.
  unfold zero, of_Z, lit. simpl. f_equal. apply Qcplus_0_r.
Qed.

Lemma add_assoc (x y z : pyfloat) : (x + (y + z))%F = (x + y + z)%F.
Proof.
  destruct x, y, z; try reflexivity.
  simpl. f_equal. apply Qcplus_assoc.
Qed.

Lemma fold_add_shift (l : list pyfloat) :
  forall a b, fold_left add l (a + b)%F = (a + fold_left add l b)%F.
Proof.
  induction l as [| x l IH]; intros a b; simpl; [reflexivity |].
  now rewrite <- add_assoc, IH.
Qed.

Lemma fold_add_from (l : list pyfloat) (a : pyfloat) :
  fold_left add l a = (a + py_sum l)%F.
Proof.
  unfold py_sum. now rewrite <- fold_add_shift, add_zero_r.
Qed.

Lemma py_sum_cons (x : pyfloat) (l : list pyfloat) :
  py_sum (x :: l) = (x + py_sum l)%F.
Proof.
  unfold py_sum at 1. cbn [fold_left].
  now rewrite fold_add_from, add_zero_l.
Qed.

(** ** The loop over the days *)

Lemma while_loop_step (activities : list candidate) (return_dt : Z)
    (st : State.t) :
  while_loop activities return_dt st
  = if (State.current_date st <? return_dt)%Z
    then match loop_body activities st with
         | Ok st' => while_loop activities return_dt st'
         | Raise e => Raise e
         end
    else Ok st.
Proof.
  funelim (while_loop activities return_dt st).
  - now rewrite e.
  - now rewrite guard, body.
  - now rewrite guard, e1.
Qed.

(** ** Dates stay in range *)

Module DatetimeFacts.

Import Datetime.
Local Open Scope Z_scope.

Lemma days_before_next_year (year : Z) :
  1 <= year ->
  days_before_year (year + 1)
  = days_before_year year + 365 + (if is_leap year then 1 else 0).
Proof.
  intros H. unfold days_before_year, is_leap. cbv zeta.
  replace (year + 1 - 1) with year by lia.
  destruct (year mod 4 =? 0) eqn:E4; destruct (year mod 100 =? 0) eqn:E100;
    destruct (year mod 400 =? 0) eqn:E400; simpl;
    rewrite ?Z.eqb_eq, ?Z.eqb_neq in *;
    Z.to_euclidean_division_equations; lia.
Qed.

Lemma days_before_year_mono (n : nat) (year : Z) :
  1 <= year -> days_before_year year <= days_before_year (year + Z.of_nat n).
Proof.
  intros H. induction n as [| n IH].
  - rewrite Z.add_0_r. lia.
  - replace (year + Z.of_nat (S n)) with (year + Z.of_nat n + 1) by lia.
    rewrite days_before_next_year by lia.
    destruct (is_leap _); lia.
Qed.

Lemma year_in_range (year : Z) :
  MINYEAR <= year <= MAXYEAR ->
  0 <= days_before_year year
  /\ days_before_year year + 365 + (if is_leap year then 1 else 0)
     <= MAXORDINAL.
Proof.
  unfold MINYEAR, MAXYEAR. intros H. split.
  - pose proof (days_before_year_mono (Z.to_nat (year - 1)) 1) as M.
    replace (1 + Z.of_nat (Z.to_nat (year - 1))) with year in M by lia.
    change (days_before_year 1) with 0 in M. lia.
  - rewrite <- days_before_next_year by lia.
    pose proof (days_before_year_mono (Z.to_nat (9999 - year)) (year + 1)) as M.
    replace (year + 1 + Z.of_nat (Z.to_nat (9999 - year))) with 10000 in M
      by lia.
    change (days_before_year 10000) with MAXORDINAL in M. lia.
Qed.

Lemma month_in_range (year month : Z) :
  1 <= month <= 12 ->
  0 <= days_before_month year month
  /\ days_before_month year month + days_in_month year month
     <= 365 + (if is_leap year then 1 else 0).
Proof.
  intros H.
  assert (month = 1 \/ month = 2 \/ month = 3 \/ month = 4 \/ month = 5
          \/ month = 6 \/ month = 7 \/ month = 8 \/ month = 9
          \/ month = 10 \/ month = 11 \/ month = 12) as C by lia.
  unfold days_before_month, days_in_month.
  repeat (destruct C as [-> | C]); try subst month;
    destruct (is_leap year); split; apply Z.leb_le; reflexivity.
Qed.

Lemma make_in_range (year month day ordinal : Z) :
  make year month day = Ok ordinal -> 1 <= ordinal <= MAXORDINAL.
Proof.
  unfold make. destruct (_ && _) eqn:E; [| discriminate].
  intros [= <-].
  repeat rewrite andb_true_iff in E. repeat rewrite Z.leb_le in E.
  destruct E as [[[[[Y1 Y2] M1] M2] D1] D2].
  pose proof (year_in_range year (conj Y1 Y2)).
  pose proof (month_in_range year month (conj M1 M2)).
  unfold ymd2ord. lia.
Qed.

Lemma strptime_in_range (s : string) (ordinal : Z) :
  strptime s = Ok ordinal -> 1 <= ordinal <= MAXORDINAL.
Proof.
  unfold strptime.
  destruct (match_year s) as [[year s1] |]; [| discriminate].
  destruct (match_dash s1) as [s2 |]; [| discriminate].
  destruct (match_month s2) as [[month s3] |]; [| discriminate].
  destruct (match_dash s3) as [s4 |]; [| discriminate].
  destruct (match_day s4) as [[day [| c s5]] |]; try discriminate.
  apply make_in_range.
Qed.

Lemma add_days_in_range (d : Z) :
  0 <= d < MAXORDINAL -> add_days d 1 = Ok (d + 1).
Proof.
  intros H. unfold add_days.
  destruct (Z.leb_spec 1 (d + 1)), (Z.leb_spec (d + 1) MAXORDINAL);
    simpl; auto; lia.
Qed.

(** *** From an ordinal back to the date

    The days before a year, written in cycles of 400, 100, 4 and 1
    years, as [_ord2ymd] counts them. *)
Lemma days_before_year_cycles (a b c e : Z) :
  0 <= a -> 0 <= b <= 3 -> 0 <= c <= 24 -> 0 <= e <= 3 ->
  days_before_year (a * 400 + 1 + b * 100 + c * 4 + e)
  = a * 146097 + b * 36524 + c * 1461 + e * 365.
Proof.
  intros. unfold days_before_year. cbv zeta.
  Z.to_euclidean_division_equations. lia.
Qed.

Lemma is_leap_cycles (a b c e : Z) :
  0 <= a -> 0 <= b <= 3 -> 0 <= c <= 24 -> 0 <= e <= 3 ->
  is_leap (a * 400 + 1 + b * 100 + c * 4 + e)
  = (e =? 3) && (negb (c =? 24) || (b =? 3)).
Proof.
  intros. unfold is_leap.
  destruct (e =? 3) eqn:E3; destruct (c =? 24) eqn:E24; destruct (b =? 3) eqn:Eb; simpl;
  rewrite ?Z.eqb_eq, ?Z.eqb_neq in *.
  all: destruct (_ mod 4 =? 0) eqn:M4; destruct (_ mod 100 =? 0) eqn:M100; destruct (_ mod 400 =? 0) eqn:M400; simpl; try reflexivity;
  rewrite ?Z.eqb_eq, ?Z.eqb_neq in *; exfalso; Z.to_euclidean_division_equations; lia.
Qed.

(** 9999-12-31. *)
Lemma max_ordinal : MAXORDINAL = 3652059.
Proof. reflexivity. Qed.

(** Evaluates the month tables at the months that occur. *)
Ltac month_tables :=
  repeat match goal with
  | |- context [DAYS_BEFORE_MONTH ?k] =>
      let v := eval vm_compute in (DAYS_BEFORE_MONTH k) in
      change (DAYS_BEFORE_MONTH k) with v
  | |- context [DAYS_IN_MONTH ?k] =>
      let v := eval vm_compute in (DAYS_IN_MONTH k) in
      change (DAYS_IN_MONTH k) with v
  | |- context [if ?b then 1 else 0] =>
      let v := eval vm_compute in (if b then 1 else 0) in
      change (if b then 1 else 0) with v
  | |- context [if ?b then 29 else ?x] =>
      let v := eval vm_compute in (if b then 29 else x) in
      change (if b then 29 else x) with v
  end.

(** The month and day of the [r]-th day (from 0) of a year. *)
Lemma month_and_day (r : Z) (leapyear : bool) :
  0 <= r < 365 ->
  forall month day,
    (let month := Z.shiftr (r + 50) 5 in
     let preceding :=
       DAYS_BEFORE_MONTH month + (if (month >? 2) && leapyear then 1 else 0) in
     if preceding >? r then
       let month := month - 1 in
       let preceding :=
         preceding
         - (DAYS_IN_MONTH month + (if (month =? 2) && leapyear then 1 else 0)) in
       (month, r - preceding + 1)
     else (month, r - preceding + 1)) = (month, day) ->
    1 <= month <= 12
    /\ 1 <= day
    /\ day <= DAYS_IN_MONTH month + (if (month =? 2) && leapyear then 1 else 0)
    /\ DAYS_BEFORE_MONTH month + (if (month >? 2) && leapyear then 1 else 0)
       + day = r + 1.
Proof.
  intros Hr month day. cbv zeta.
  rewrite Z.shiftr_div_pow2 by lia. change (2 ^ 5) with 32.
  set (mo := (r + 50) / 32).
  assert (32 * mo <= r + 50 < 32 * mo + 32) as Hmo
    by (unfold mo; Z.to_euclidean_division_equations; lia).
  clearbody mo.
  assert (mo = 1 \/ mo = 2 \/ mo = 3 \/ mo = 4 \/ mo = 5 \/ mo = 6
          \/ mo = 7 \/ mo = 8 \/ mo = 9 \/ mo = 10 \/ mo = 11 \/ mo = 12)
    as C by lia.
  repeat (destruct C as [-> | C]); try subst mo;
    destruct leapyear; month_tables;
    match goal with |- context [(?p >? r)] => destruct (Z.gtb_spec p r) end;
    intros [= <- <-]; month_tables; lia.
Qed.

(** [_ord2ymd] gives a date of the calendar, and [_ymd2ord] maps it back. *)
Lemma ord2ymd_spec (d : Z) :
  1 <= d <= MAXORDINAL ->
  forall year month day,
    ord2ymd d = (year, month, day) ->
    MINYEAR <= year <= MAXYEAR
    /\ 1 <= month <= 12
    /\ 1 <= day <= days_in_month year month
    /\ ymd2ord year month day = d.
Proof.
  rewrite max_ordinal. unfold MINYEAR, MAXYEAR. intros Hd year month day.
  unfold ord2ymd. cbv zeta.
  change DI400Y with 146097. change DI100Y with 36524.
  change DI4Y with 1461.
  set (n := d - 1).
  set (a := n / 146097). set (r1 := n mod 146097).
  set (b := r1 / 36524). set (r2 := r1 mod 36524).
  set (c := r2 / 1461). set (r3 := r2 mod 1461).
  set (e := r3 / 365). set (r := r3 mod 365).
  assert (n = 146097 * a + r1 /\ 0 <= r1 < 146097) as [En R1]
    by (unfold a, r1; Z.to_euclidean_division_equations; lia).
  assert (r1 = 36524 * b + r2 /\ 0 <= r2 < 36524) as [E1 R2]
    by (unfold b, r2; Z.to_euclidean_division_equations; lia).
  assert (r2 = 1461 * c + r3 /\ 0 <= r3 < 1461) as [E2 R3]
    by (unfold c, r3; Z.to_euclidean_division_equations; lia).
  assert (r3 = 365 * e + r /\ 0 <= r < 365) as [E3 R4]
    by (unfold e, r; Z.to_euclidean_division_equations; lia).
  assert (d = n + 1) as Ed by (unfold n; lia).
  clearbody n a r1 b r2 c r3 e r.
  assert (0 <= a <= 24 /\ 0 <= b <= 4 /\ 0 <= c <= 24 /\ 0 <= e <= 4)
    as (Ra & Rb & Rc & Re) by lia.
  destruct ((e =? 4) || (b =? 4)) eqn:Last.
  - intros [= <- <- <-].
    apply orb_true_iff in Last. rewrite !Z.eqb_eq in Last.
    assert (exists b' c', 0 <= b' <= 3 /\ 0 <= c' <= 24
              /\ a * 400 + 1 + b * 100 + c * 4 + e - 1
                 = a * 400 + 1 + b' * 100 + c' * 4 + 3
              /\ n + 1 = a * 146097 + b' * 36524 + c' * 1461 + 3 * 365 + 366
              /\ (c' <> 24 \/ b' = 3)) as (b' & c' & Rb' & Rc' & Ey & En' & Hl).
    { destruct Last as [-> | ->].
      - exists b, c. repeat split; lia.
      - exists 3, 24. repeat split; lia. }
    rewrite Ey. unfold days_in_month, ymd2ord, days_before_month.
    rewrite is_leap_cycles, days_before_year_cycles by lia.
    replace ((3 =? 3) && (negb (c' =? 24) || (b' =? 3))) with true.
    + month_tables. lia.
    + symmetry. apply andb_true_iff. split; [reflexivity |].
      apply orb_true_iff. rewrite negb_true_iff, Z.eqb_neq, Z.eqb_eq. tauto.
  - apply orb_false_iff in Last. rewrite !Z.eqb_neq in Last.
    rewrite <- (is_leap_cycles a b c e) by lia.
    set (y := a * 400 + 1 + b * 100 + c * 4 + e).
    assert (days_before_year y = n - r) as Ey
      by (unfold y; rewrite days_before_year_cycles by lia; lia).
    assert (1 <= y <= 9999) as Ry by (unfold y; lia).
    pose proof (month_and_day r (is_leap y) R4) as M. cbv zeta in M.
    clearbody y.
    destruct (_ >? r) eqn:G; intros [= Eyear Em Eday]; subst year;
      (destruct (M month day) as (M1 & M2 & M3 & M4); [congruence |]);
      unfold days_in_month, ymd2ord, days_before_month; rewrite Ey;
      (split; [lia |]); (split; [lia |]); (split; [| lia]);
      (destruct ((month =? 2) && is_leap y) eqn:B;
       [apply andb_true_iff in B; destruct B as [B _];
        apply Z.eqb_eq in B; rewrite B in *;
        change (DAYS_IN_MONTH 2) with 28 in M3; lia
       | lia]).
Qed.

(** *** Formatting then parsing *)

Lemma digit_of_digit_char (v : Z) : digit (digit_char v) = Some (v mod 10).
Proof.
  unfold digit_char. set (k := v mod 10).
  assert (0 <= k < 10) as Hk by (unfold k; apply Z.mod_pos_bound; lia).
  clearbody k.
  assert (k = 0 \/ k = 1 \/ k = 2 \/ k = 3 \/ k = 4 \/ k = 5 \/ k = 6
          \/ k = 7 \/ k = 8 \/ k = 9) as C by lia.
  repeat (destruct C as [-> | C]); try subst k; reflexivity.
Qed.

Lemma match_year_pad4 (year : Z) (tail : string) :
  0 <= year <= 9999 -> match_year (pad4 year tail) = Some (year, tail).
Proof.
  intros H. unfold pad4, pad2, match_year.
  rewrite !digit_of_digit_char. f_equal. f_equal.
  Z.to_euclidean_division_equations. lia.
Qed.

Lemma match_dash_dash (tail : string) :
  match_dash (String dash tail) = Some tail.
Proof. reflexivity. Qed.

Lemma match_month_pad2 (month : Z) (tail : string) :
  1 <= month <= 12 -> match_month (pad2 month tail) = Some (month, tail).
Proof.
  intros H.
  assert (month = 1 \/ month = 2 \/ month = 3 \/ month = 4 \/ month = 5
          \/ month = 6 \/ month = 7 \/ month = 8 \/ month = 9
          \/ month = 10 \/ month = 11 \/ month = 12) as C by lia.
  repeat (destruct C as [-> | C]); try subst month; reflexivity.
Qed.

Lemma match_day_pad2 (day : Z) :
  1 <= day <= 31 -> match_day (pad2 day EmptyString) = Some (day, EmptyString).
Proof.
  intros H.
  assert (exists k, day = Z.of_nat k /\ (1 <= k <= 31)%nat) as (k & -> & Hk)
    by (exists (Z.to_nat day); lia).
  do 32 (destruct k as [| k]; [try lia; reflexivity |]). lia.
Qed.

Lemma days_in_month_le_31 (year month : Z) :
  1 <= month <= 12 -> days_in_month year month <= 31.
Proof.
  intros H. unfold days_in_month.
  assert (month = 1 \/ month = 2 \/ month = 3 \/ month = 4 \/ month = 5
          \/ month = 6 \/ month = 7 \/ month = 8 \/ month = 9
          \/ month = 10 \/ month = 11 \/ month = 12) as C by lia.
  repeat (destruct C as [-> | C]); try subst month;
    destruct (is_leap year); month_tables; lia.
Qed.

(** The text [strftime] writes for a day is parsed back to that day. *)
Lemma strptime_strftime (d : Z) :
  1 <= d <= MAXORDINAL -> strptime (strftime d) = Ok d.
Proof.
  intros Hd. unfold strftime.
  destruct (ord2ymd d) as [[year month] day] eqn:E.
  destruct (ord2ymd_spec d Hd _ _ _ E) as (Hy & Hm & Hday & Ho).
  unfold MINYEAR, MAXYEAR in Hy.
  pose proof (days_in_month_le_31 year month Hm).
  unfold strptime.
  rewrite match_year_pad4 by lia. rewrite match_dash_dash.
  rewrite match_month_pad2 by lia. rewrite match_dash_dash.
  rewrite match_day_pad2 by lia.
  unfold make, MINYEAR, MAXYEAR.
  replace (_ && _) with true; [now rewrite Ho |].
  symmetry. repeat (apply andb_true_iff; split); apply Z.leb_le; lia.
Qed.

End DatetimeFacts.

(** ** The days of the trip *)

Lemma days_from_S (first : Z) (n : nat) :
  days_from first (S n) = first :: days_from (first + 1) n.
Proof.
  unfold days_from. simpl. f_equal; [lia |].
  rewrite <- seq_shift, map_map. apply map_ext. intros k. lia.
Qed.

Lemma days_from_In (first : Z) (n : nat) (d : Z) :
  In d (days_from first n) <-> (first <= d < first + Z.of_nat n)%Z.
Proof.
  unfold days_from. rewrite in_map_iff. split.
  - intros (k & <- & Hk). apply in_seq in Hk. lia.
  - intros H. exists (Z.to_nat (d - first)). split; [lia |].
    apply in_seq. lia.
Qed.

Lemma days_from_increasing (n : nat) :
  forall first, StronglySorted Z.lt (days_from first n).
Proof.
  induction n as [| n IH]; intros first.
  - constructor.
  - rewrite days_from_S. constructor; [apply IH |].
    apply Forall_forall. intros d Hd. apply days_from_In in Hd. lia.
Qed.

Lemma full_days_In (departure return_dt d : Z) :
  In d (full_days departure return_dt) <-> (departure < d < return_dt)%Z.
Proof. unfold full_days. rewrite days_from_In. lia. Qed.

(** The body of the loop, run on a day from which the next exists. *)
Lemma loop_body_total (activities : list candidate) (st : State.t) :
  (0 <= State.current_date st < Datetime.MAXORDINAL)%Z ->
  exists plan,
    plan_of_day activities plan (State.current_date st)
    /\ loop_body activities st
       = Ok (State.mk (State.current_date st + 1)
               (State.total_cost st + DayPlan.total_cost plan)
               (State.total_time st + DayPlan.total_time_hours plan)
               (State.itinerary_days st ++ [plan])).
Proof.
  intros H. unfold loop_body.
  rewrite select_activities_total. unfold bind.
  rewrite DatetimeFacts.add_days_in_range by exact H.
  match goal with
  | |- context [DayPlan.mk ?d ?sel ?c ?t] => exists (DayPlan.mk d sel c t)
  end.
  split; [| reflexivity].
  unfold plan_of_day. cbn [DayPlan.date DayPlan.activities
                           DayPlan.total_cost DayPlan.total_time_hours].
  rewrite select_activities_total. auto.
Qed.

(** The loop returns, having appended one plan per day left. *)
Lemma while_loop_total (activities : list candidate) (return_dt : Z) :
  (return_dt <= Datetime.MAXORDINAL)%Z ->
  forall n st,
    (0 <= State.current_date st)%Z ->
    Z.to_nat (return_dt - State.current_date st) = n ->
    exists final plans,
      while_loop activities return_dt st = Ok final
      /\ State.itinerary_days final = State.itinerary_days st ++ plans
      /\ Forall2 (plan_of_day activities) plans
                 (days_from (State.current_date st) n)
      /\ State.total_cost final
         = (State.total_cost st + py_sum (map DayPlan.total_cost plans))%F
      /\ State.total_time final
         = (State.total_time st
            + py_sum (map DayPlan.total_time_hours plans))%F.
Proof.
  intros Hret. induction n as [| n IH]; intros st Hpos Hn.
  - exists st, []. rewrite while_loop_step.
    destruct (Z.ltb_spec (State.current_date st) return_dt); [lia |].
    rewrite app_nil_r. simpl. change (py_sum []) with zero.
    rewrite !add_zero_r. repeat split; auto; constructor.
  - destruct (loop_body_total activities st) as (plan & Hplan & Ebody);
      [lia |].
    set (st' := State.mk _ _ _ _) in Ebody.
    destruct (IH st') as (final & plans & Ew & Edays & Hplans & Ec & Et).
    { simpl. lia. }
    { simpl. lia. }
    exists final, (plan :: plans). rewrite while_loop_step.
    destruct (Z.ltb_spec (State.current_date st) return_dt); [| lia].
    rewrite Ebody. split; [exact Ew |].
    rewrite days_from_S. simpl map. rewrite !py_sum_cons.
    simpl in Edays, Ec, Et, Hplans.
    repeat split.
    + now rewrite Edays, <- app_assoc.
    + constructor; assumption.
    + now rewrite Ec, add_assoc.
    + now rewrite Et, add_assoc.
Qed.

(** ** The whole method *)

Lemma create_itinerary_phases (self : ItineraryOptimizer)
    (flights hotels activities : list candidate)
    (departure_date return_date : string) :
  create_itinerary self flights hotels activities departure_date return_date
  = (fr <- before_loop self flights hotels departure_date return_date ;;
     final <- while_loop activities (return_dt fr) (entry fr) ;;
     Ok (after_loop fr final departure_date return_date)).
Proof.
  unfold create_itinerary, before_loop, bind.
  destruct (select_best_flight self flights) as [bf |]; [| reflexivity].
  destruct (select_best_hotel self hotels) as [bh |]; [| reflexivity].
  destruct (Datetime.strptime departure_date); [| reflexivity].
  destruct (Datetime.strptime return_date); [| reflexivity].
  destruct (Datetime.add_days _ _); [| reflexivity].
  destruct bf as [f |]; [destruct (truthy f) |]; reflexivity.
Qed.

(** The empty dict has no field. *)
Lemma falsy_fields (c : candidate) :
  truthy c = false ->
  get total_price c zero = zero /\ get duration_hours c zero = zero.
Proof.
  unfold truthy, get.
  destruct (name c), (total_price c), (duration_hours c), (rating c),
    (price_per_person c), (date c); try discriminate; auto.
Qed.

Lemma before_loop_total (self : ItineraryOptimizer)
    (flights hotels : list candidate)
    (departure_date return_date : string) (dep ret : Z) :
  Datetime.strptime departure_date = Ok dep ->
  Datetime.strptime return_date = Ok ret ->
  (dep < Datetime.MAXORDINAL)%Z ->
  exists bf bh,
    select_best_flight self flights = Ok bf
    /\ select_best_hotel self hotels = Ok bh
    /\ before_loop self flights hotels departure_date return_date
       = Ok (mkFrame bf bh dep ret
               (State.mk (dep + 1)
                  (price_or_zero bf + price_or_zero bh)
                  (hours_or_zero bf) [])).
Proof.
  intros Ed Er Hmax.
  destruct (select_best_flight_total self flights) as (bf & Ef & _).
  destruct (select_best_hotel_total self hotels) as (bh & Eh & _).
  pose proof (DatetimeFacts.strptime_in_range _ _ Ed) as Rd.
  exists bf, bh. split; [exact Ef |]. split; [exact Eh |].
  unfold before_loop, bind. rewrite Ef, Eh, Ed, Er.
  rewrite DatetimeFacts.add_days_in_range by lia.
  assert (forall tc (o : option candidate),
             match o with
             | Some h => if truthy h then (tc + get total_price h zero)%F
                         else tc
             | None => tc
             end = (tc + price_or_zero o)%F) as Hadd.
  { intros tc [h |]; cbv beta iota delta [price_or_zero];
      [| now rewrite add_zero_r].
    destruct (truthy h) eqn:T; [reflexivity |].
    destruct (falsy_fields h T) as [-> _]. now rewrite add_zero_r. }
  destruct bf as [f |]; cbv beta iota zeta delta [price_or_zero hours_or_zero].
  - destruct (truthy f) eqn:T; cbv beta iota zeta.
    + rewrite Hadd, !add_zero_l. reflexivity.
    + destruct (falsy_fields f T) as [-> ->]. rewrite Hadd. reflexivity.
  - rewrite Hadd. reflexivity.
Qed.

(** With dates that parse and a departure before the last day of the
    calendar, [create_itinerary] returns; this is the itinerary. *)
Lemma create_itinerary_total (self : ItineraryOptimizer)
    (flights hotels activities : list candidate)
    (departure_date return_date : string) (dep ret : Z) :
  Datetime.strptime departure_date = Ok dep ->
  Datetime.strptime return_date = Ok ret ->
  (dep < Datetime.MAXORDINAL)%Z ->
  exists bf bh plans,
    select_best_flight self flights = Ok bf
    /\ select_best_hotel self hotels = Ok bh
    /\ Forall2 (plan_of_day activities) plans (full_days dep ret)
    /\ create_itinerary self flights hotels activities
         departure_date return_date
       = Ok (mkItinerary bf bh plans
               (Summary.mk
                  (price_or_zero bf + price_or_zero bh
                   + py_sum (map DayPlan.total_cost plans))
                  (hours_or_zero bf
                   + py_sum (map DayPlan.total_time_hours plans))
                  (ret - dep) departure_date return_date)).
Proof.
  intros Ed Er Hmax.
  destruct (before_loop_total self flights hotels _ _ dep ret Ed Er Hmax)
    as (bf & bh & Ef & Eh & Eb).
  pose proof (DatetimeFacts.strptime_in_range _ _ Ed) as Rd.
  pose proof (DatetimeFacts.strptime_in_range _ _ Er) as Rr.
  set (st := State.mk (dep + 1) _ _ _) in Eb.
  destruct (while_loop_total activities ret (proj2 Rr)
              (Z.to_nat (ret - dep - 1)) st)
    as (final & plans & Ew & Edays & Hplans & Ec & Et).
  { simpl. lia. }
  { simpl. f_equal. lia. }
  exists bf, bh, plans. repeat split; auto.
  rewrite create_itinerary_phases, Eb. unfold bind. simpl return_dt.
  simpl entry. rewrite Ew. unfold after_loop. simpl.
  simpl in Edays, Ec, Et. now rewrite Edays, Ec, Et.
Qed.

(** It returns only with such dates. *)
Lemma create_itinerary_returns_only_with_dates (self : ItineraryOptimizer)
    (flights hotels activities : list candidate)
    (departure_date return_date : string) (it : itinerary) :
  create_itinerary self flights hotels activities departure_date return_date
  = Ok it ->
  exists dep ret,
    Datetime.strptime departure_date = Ok dep
    /\ Datetime.strptime return_date = Ok ret
    /\ (dep < Datetime.MAXORDINAL)%Z.
Proof.
  unfold create_itinerary, bind.
  destruct (select_best_flight self flights); [| discriminate].
  destruct (select_best_hotel self hotels); [| discriminate].
  destruct (Datetime.strptime departure_date) as [dep |]; [| discriminate].
  destruct (Datetime.strptime return_date) as [ret |]; [| discriminate].
  unfold Datetime.add_days.
  destruct (_ && _) eqn:E; [| discriminate].
  intros _. exists dep, ret. repeat split; auto.
  apply andb_true_iff in E. destruct E as [_ E]. apply Z.leb_le in E. lia.
Qed.

Lemma greedy_pass_In (todo : list (pyfloat * candidate))
    (K : Z) (H : pyfloat) (a : candidate) :
  forall selected total_hours,
    In a (greedy_pass todo K H selected total_hours) ->
    In a selected \/ exists v, In (v, a) todo.
Proof.
  induction todo as [| [v b] todo IH]; intros selected total_hours Hin;
    simpl in Hin.
  - auto.
  - destruct (_ && _); apply IH in Hin.
    + destruct Hin as [Hin | (w & Hw)].
      * apply in_app_iff in Hin. destruct Hin as [Hin | [<- | []]]; auto.
        right. exists v. now left.
      * right. exists w. now right.
    + destruct Hin as [Hin | (w & Hw)]; auto.
      right. exists w. now right.
Qed.

(** What is selected was offered. *)
Lemma select_activities_subset (activities selected : list candidate)
    (K : Z) (H : pyfloat) (a : candidate) :
  select_activities activities K H = Ok selected ->
  In a selected -> In a activities.
Proof.
  rewrite select_activities_total. intros [= <-] Hin.
  apply greedy_pass_In in Hin. destruct Hin as [[] | (v & Hv)].
  rewrite sort_reverse_In in Hv. apply in_map_iff in Hv.
  destruct Hv as (b & [= _ <-] & Hb). apply filter_In in Hb. tauto.
Qed.

Lemma plan_of_day_activities (activities : list candidate)
    (plan : DayPlan.t) (day : Z) (a : candidate) :
  plan_of_day activities plan day ->
  In a (DayPlan.activities plan) ->
  In a activities /\ date a = Some (DayPlan.date plan).
Proof.
  intros (Ed & Es & _) Hin.
  apply (select_activities_subset _ _ _ _ a Es) in Hin.
  apply filter_In in Hin. destruct Hin as [Hin Hd]. split; [exact Hin |].
  unfold dated in Hd. destruct (date a) as [s |]; [| discriminate].
  apply String.eqb_eq in Hd. congruence.
Qed.

Lemma Forall2_In_left {A B : Type} (R : A -> B -> Prop)
    (l : list A) (l' : list B) (a : A) :
  Forall2 R l l' -> In a l -> exists b, In b l' /\ R a b.
Proof.
  induction 1 as [| x y l l' Hxy Hl IH]; intros Hin; [contradiction |].
  destruct Hin as [<- | Hin].
  - exists y. split; [now left | assumption].
  - destruct (IH Hin) as (b & Hb & Hr). exists b. split; [now right | assumption].
Qed.

Lemma Forall2_weaken_right {A B : Type} (R S : A -> B -> Prop)
    (l : list A) (l' : list B) :
  Forall2 R l l' ->
  (forall a b, In b l' -> R a b -> S a b) ->
  Forall2 S l l'.
Proof.
  induction 1 as [| x y l l' Hxy Hl IH]; intros Himp; constructor.
  - apply Himp; [now left | assumption].
  - apply IH. intros a b Hb. apply Himp. now right.
Qed.




(** ** The summary *)



(** ** Empty candidate lists *)

Lemma plan_of_day_without_activities (plan : DayPlan.t) (day : Z) :
  plan_of_day [] plan day -> plan = empty_plan day.
Proof.
  destruct plan as [d acts c t]. unfold plan_of_day, empty_plan. simpl.
  intros (-> & [= <-] & -> & ->). reflexivity.
Qed.

Lemma plans_without_activities (plans : list DayPlan.t) (ds : list Z) :
  Forall2 (plan_of_day []) plans ds -> plans = map empty_plan ds.
Proof.
  induction 1 as [| plan day plans ds Hp Hl IH]; [reflexivity |].
  simpl. f_equal; [now apply plan_of_day_without_activities | exact IH].
Qed.

Lemma py_sum_zeros (l : list pyfloat) :
  Forall (fun x => x = zero) l -> py_sum l = zero.
Proof.
  induction 1 as [| x l -> Hl IH]; [reflexivity |].
  now rewrite py_sum_cons, IH, add_zero_l.
Qed.

Lemma empty_plans_cost (ds : list Z) :
  py_sum (map DayPlan.total_cost (map empty_plan ds)) = zero
  /\ py_sum (map DayPlan.total_time_hours (map empty_plan ds)) = zero.
Proof.
  split; apply py_sum_zeros; rewrite map_map; apply Forall_forall;
    intros x Hx; apply in_map_iff in Hx; destruct Hx as (d & <- & _);
    reflexivity.
Qed.

Lemma create_itinerary_of_nothing (self : ItineraryOptimizer)
    (departure_date return_date : string) (dep ret : Z) :
  Datetime.strptime departure_date = Ok dep ->
  Datetime.strptime return_date = Ok ret ->
  (dep < Datetime.MAXORDINAL)%Z ->
  create_itinerary self [] [] [] departure_date return_date
  = Ok (mkItinerary None None (map empty_plan (full_days dep ret))
          (Summary.mk zero zero (ret - dep) departure_date return_date)).
Proof.
  intros Ed Er Hmax.
  destruct (create_itinerary_total self [] [] [] _ _ dep ret Ed Er Hmax)
    as (bf & bh & plans & Ef & Eh & Hplans & E).
  injection Ef as <-. injection Eh as <-.
  apply plans_without_activities in Hplans. subst plans.
  rewrite E. destruct (empty_plans_cost (full_days dep ret)) as [-> ->].
  simpl price_or_zero. simpl hours_or_zero. now rewrite !add_zero_l.
Qed.



(** ** Determinism *)

(** The loop function computes a run of the loop. *)
Lemma while_loop_runs (activities : list candidate) (return_dt : Z)
    (st : State.t) :
  loop_run activities return_dt st (while_loop activities return_dt st).
Proof.
  funelim (while_loop activities return_dt st).
  - apply run_exit. now apply Z.ltb_ge.
  - pose proof (proj1 (Z.ltb_lt _ _) guard) as Hlt.
    eapply run_step; [| eassumption]. now constructor.
  - pose proof (proj1 (Z.ltb_lt _ _) guard) as Hlt. now apply run_raise.
Qed.

(** From a state the loop has one outcome. *)
Lemma loop_run_deterministic (activities : list candidate) (return_dt : Z)
    (st : State.t) (outcome1 outcome2 : result State.t) :
  loop_run activities return_dt st outcome1 ->
  loop_run activities return_dt st outcome2 ->
  outcome1 = outcome2.
Proof.
  intros R1. revert outcome2.
  induction R1 as [st Hexit | st e Hlt Hbody | st st' outcome Hstep R1 IH];
    intros outcome2 R2.
  - inversion R2 as [| ? ? Hlt | ? ? ? Hstep]; subst; try reflexivity.
    + lia.
    + inversion Hstep. lia.
  - inversion R2 as [? Hexit | ? ? _ Hbody' | ? ? ? Hstep]; subst.
    + lia.
    + congruence.
    + inversion Hstep. congruence.
  - inversion Hstep as [? ? Hlt Hbody]; subst.
    inversion R2 as [? Hexit | ? ? _ Hbody' | ? st'' ? Hstep']; subst.
    + lia.
    + congruence.
    + inversion Hstep' as [? ? _ Hbody'']; subst.
      assert (st' = st'') as -> by congruence. now apply IH.
Qed.

Lemma create_itinerary_executes (self : ItineraryOptimizer)
    (flights hotels activities : list candidate)
    (departure_date return_date : string) :
  execution self flights hotels activities departure_date return_date
    (create_itinerary self flights hotels activities
       departure_date return_date).
Proof.
  rewrite create_itinerary_phases. unfold bind.
  destruct (before_loop self flights hotels departure_date return_date)
    as [fr | e] eqn:Eb.
  - pose proof (while_loop_runs activities (return_dt fr) (entry fr)) as R.
    destruct (while_loop activities (return_dt fr) (entry fr))
      as [final | e].
    + eapply exec_return; eassumption.
    + eapply exec_raise_in_loop; eassumption.
  - now apply exec_raise_before.
Qed.

Lemma execution_deterministic (self : ItineraryOptimizer)
    (flights hotels activities : list candidate)
    (departure_date return_date : string)
    (outcome1 outcome2 : result itinerary) :
  execution self flights hotels activities departure_date return_date
    outcome1 ->
  execution self flights hotels activities departure_date return_date
    outcome2 ->
  outcome1 = outcome2.
Proof.
  intros X1 X2.
  destruct X1 as [e1 B1 | fr1 e1 B1 R1 | fr1 final1 B1 R1];
    destruct X2 as [e2 B2 | fr2 e2 B2 R2 | fr2 final2 B2 R2];
    rewrite B1 in B2; try discriminate;
    injection B2 as <-; try reflexivity;
    pose proof (loop_run_deterministic _ _ _ _ _ R1 R2) as E;
    try discriminate; injection E as <-; reflexivity.
Qed.



(** * Beyond the specification

    Properties of the optimizer that its code shows, of the callers that
    prepare its inputs and of the mock scrapers that feed them. *)

(** ** Selection never fails *)

Lemma select_best_flight_some (self : ItineraryOptimizer)
    (flights : list candidate) :
  flights <> [] ->
  exists i f,
    select_best_flight self flights = Ok (Some f)
    /\ nth_error flights i = Some f.
Proof.
  intros NE. rewrite (select_best_flight_nonempty self flights NE).
  destruct (flight_scores_total self flights) as (scores & Es & L).
  assert (NEs : scores <> []).
  { apply nonempty_length. rewrite L. now apply nonempty_length. }
  destruct (np_argmax_in_range scores NEs) as (i & Ei & Hi).
  rewrite L in Hi.
  destruct (getitem_in_range flights i Hi) as (f & G & N).
  exists i, f. unfold bind. rewrite Es, Ei, G. now split.
Qed.

Lemma select_best_hotel_some (self : ItineraryOptimizer)
    (hotels : list candidate) :
  hotels <> [] ->
  exists i h,
    select_best_hotel self hotels = Ok (Some h)
    /\ nth_error hotels i = Some h.
Proof.
  intros NE. rewrite (select_best_hotel_nonempty self hotels NE).
  assert (NEs : hotel_scores self hotels <> []).
  { apply nonempty_length. rewrite hotel_scores_length.
    now apply nonempty_length. }
  destruct (np_argmax_in_range _ NEs) as (i & Ei & Hi).
  rewrite hotel_scores_length in Hi.
  destruct (getitem_in_range hotels i Hi) as (h & G & N).
  exists i, h. unfold bind. rewrite Ei, G. now split.
Qed.

(** X1.  [select_best_flight] never raises, whatever the flights hold
    (absent keys, infinities, NaN): it returns [None] exactly when the
    list is empty and otherwise a flight of the list, so a single flight
    is returned as it is. *)
Theorem select_best_flight_returns_a_flight (self : ItineraryOptimizer)
    (flights : list candidate) :
  exists best,
    select_best_flight self flights = Ok best
    /\ (best = None <-> flights = [])
    /\ (forall f, best = Some f -> In f flights)
    /\ (forall f, flights = [f] -> best = Some f).
Proof.
  destruct (list_eq_dec_nil flights) as [-> | NE].
  - exists None. repeat split; try discriminate.
  - destruct (select_best_flight_some self flights NE) as (i & f & E & N).
    exists (Some f). split; [exact E |]. split; [| split].
    + split; [discriminate | contradiction].
    + intros f' [= <-]. eapply nth_error_In; eauto.
    + intros f' ->. apply nth_error_In in N. destruct N as [-> | []].
      reflexivity.
Qed.

(** X2.  [select_best_hotel] never raises, whatever the hotels hold: it
    returns [None] exactly when the list is empty and otherwise a hotel of
    the list, so a single hotel is returned as it is. *)
Theorem select_best_hotel_returns_a_hotel (self : ItineraryOptimizer)
    (hotels : list candidate) :
  exists best,
    select_best_hotel self hotels = Ok best
    /\ (best = None <-> hotels = [])
    /\ (forall h, best = Some h -> In h hotels)
    /\ (forall h, hotels = [h] -> best = Some h).
Proof.
  destruct (list_eq_dec_nil hotels) as [-> | NE].
  - exists None. repeat split; try discriminate.
  - destruct (select_best_hotel_some self hotels NE) as (i & f & E & N).
    exists (Some f). split; [exact E |]. split; [| split].
    + split; [discriminate | contradiction].
    + intros f' [= <-]. eapply nth_error_In; eauto.
    + intros f' ->. apply nth_error_In in N. destruct N as [-> | []].
      reflexivity.
Qed.

(** ** [list.index] *)

Lemma index_from_spec (x : pyfloat) (l : list pyfloat) :
  forall k,
    (exists j, index_from x l k = Ok (k + j)%nat /\ nth_error l j = Some x)
    \/ (index_from x l k = Raise ValueError /\ ~ In x l).
Proof.
  induction l as [| y l IH]; intros k; simpl.
  - right. split; [reflexivity | tauto].
  - destruct (same y x) eqn:Sm.
    + apply same_eq in Sm. subst y. left. exists 0%nat.
      split; [f_equal; lia | reflexivity].
    + destruct (IH (S k)) as [(j & E & N) | (E & N)].
      * left. exists (S j). split; [rewrite E; f_equal; lia | exact N].
      * right. split; [exact E |]. intros [-> | I]; [| tauto].
        assert (same x x = true) by now apply same_eq. congruence.
Qed.

Lemma index_spec (l : list pyfloat) (x : pyfloat) :
  (exists j, index l x = Ok j /\ nth_error l j = Some x)
  \/ (index l x = Raise ValueError /\ ~ In x l).
Proof. exact (index_from_spec x l 0). Qed.

Lemma calculate_score_outcome (self : ItineraryOptimizer)
    (cost time : pyfloat) (all_costs all_times : list pyfloat) :
  (In cost all_costs /\ In time all_times
   /\ exists score,
        calculate_score self cost time all_costs all_times = Ok score)
  \/ (~ (In cost all_costs /\ In time all_times)
      /\ calculate_score self cost time all_costs all_times
         = Raise ValueError).
Proof.
  unfold calculate_score.
  destruct (index_spec all_costs cost) as [(i & -> & Ni) | (-> & Ni)];
    [| right; split; [tauto | reflexivity]].
  cbn [bind].
  destruct (index_spec all_times time) as [(j & -> & Nj) | (-> & Nj)];
    [| right; split; [tauto | reflexivity]].
  cbn [bind]. left.
  split; [eapply nth_error_In; eauto |].
  split; [eapply nth_error_In; eauto |].
  assert (Hi : (i < List.length (normalize_cost all_costs))%nat).
  { rewrite normalize_cost_length. apply nth_error_Some. congruence. }
  assert (Hj : (j < List.length (normalize_time all_times))%nat).
  { rewrite normalize_time_is_normalize_cost, normalize_cost_length.
    apply nth_error_Some. congruence. }
  destruct (getitem_in_range _ i Hi) as (cn & -> & _).
  destruct (getitem_in_range _ j Hj) as (tn & -> & _).
  cbn [bind]. eauto.
Qed.


(** ** The order of the normalised values *)

Lemma ratio_monotone (lo hi a b : Qc) :
  (lo < hi)%Qc ->
  ((a <= b)%Qc -> ((a - lo) / (hi - lo) <= (b - lo) / (hi - lo))%Qc)
  /\ ((a < b)%Qc -> ((a - lo) / (hi - lo) < (b - lo) / (hi - lo))%Qc).
Proof.
  intros H.
  assert (Z : (0 < / ((hi : Q) - lo))%Q) by (apply Qinv_lt_0_compat; to_Q; lra).
  split; intros L; to_Q; unfold Qdiv.
  - apply Qmult_le_compat_r; lra.
  - apply Qmult_lt_compat_r; lra.
Qed.

(** The cost score of a finite list as a function of the cost. *)
Lemma normalize_cost_antitone (l : list pyfloat) :
  finite l ->
  exists g : Qc -> Qc,
    (forall i q, nth_error l i = Some (Fin q) ->
       nth_error (normalize_cost l) i = Some (Fin (g q)))
    /\ antitone_on l g
    /\ (forall a, In (Fin a) l -> (0 <= g a)%Qc /\ (g a <= 1)%Qc).
Proof.
  intros F. destruct (list_eq_dec_nil l) as [-> | NE].
  - exists (fun _ => 1%Qc). split; [intros [| i] q; discriminate |].
    split; [intros a b [] | intros a []].
  - destruct (normalize_cost_cases l F NE)
      as (lo & hi & Ilo & Ihi & Hb & [[E N] | [Hlt N]]).
    + exists (fun _ => 1%Qc). split; [| split].
      * intros i q Hi. rewrite N. exact (nth_error_ones_like l i _ Hi).
      * intros a b Ia Ib. destruct (Hb a Ia), (Hb b Ib). subst hi.
        split; intros; to_Q; lra.
      * intros a _. split; to_Q; lra.
    + exists (fun q => (1 - (q - lo) / (hi - lo))%Qc). split; [| split].
      * intros i q Hi. rewrite N, nth_error_map, Hi. cbv [option_map].
        f_equal. now apply scale_minimize_Fin.
      * intros a b Ia Ib.
        destruct (ratio_monotone lo hi a b Hlt) as [M1 M2].
        split; intros L; [specialize (M1 L) | specialize (M2 L)];
          to_Q; lra.
      * intros a Ia. destruct (Hb a Ia) as [B1 B2].
        destruct (ratio_bounds _ _ _ Hlt B1 B2). split; to_Q; lra.
Qed.

Lemma rating_scores_monotone (l : list pyfloat) :
  finite l ->
  exists g : Qc -> Qc,
    (forall i q, nth_error l i = Some (Fin q) ->
       nth_error (rating_scores l) i = Some (Fin (g q)))
    /\ monotone_on l g
    /\ (forall a, In (Fin a) l -> (0 <= g a)%Qc /\ (g a <= 1)%Qc).
Proof.
  intros F. destruct (list_eq_dec_nil l) as [-> | NE].
  - exists (fun _ => 1%Qc). split; [intros [| i] q; discriminate |].
    split; [intros a b [] | intros a []].
  - destruct (rating_scores_cases l F NE)
      as (lo & hi & Ilo & Ihi & Hb & [[E N] | [Hlt N]]).
    + exists (fun _ => 1%Qc). split; [| split].
      * intros i q Hi. rewrite N. exact (nth_error_ones_like l i _ Hi).
      * intros a b Ia Ib. destruct (Hb a Ia), (Hb b Ib). subst hi.
        split; intros; to_Q; lra.
      * intros a _. split; to_Q; lra.
    + exists (fun q => ((q - lo) / (hi - lo))%Qc). split; [| split].
      * intros i q Hi. rewrite N, nth_error_map, Hi. cbv [option_map].
        f_equal. now apply scale_maximize_Fin.
      * intros a b Ia Ib.
        destruct (ratio_monotone lo hi a b Hlt) as [M1 M2].
        split; intros L; [specialize (M1 L) | specialize (M2 L)];
          to_Q; lra.
      * intros a Ia. destruct (Hb a Ia) as [B1 B2].
        now apply ratio_bounds.
Qed.

Lemma nth_error_weighted (self : ItineraryOptimizer)
    (s1 s2 : list pyfloat) k x y :
  nth_error s1 k = Some x -> nth_error s2 k = Some y ->
  nth_error (weighted self s1 s2) k
  = Some (cost_weight self * x + time_weight self * y)%F.
Proof.
  intros H1 H2. unfold weighted.
  rewrite nth_error_map, nth_error_combine, H1, H2. reflexivity.
Qed.

Lemma finite_key (key : candidate -> pyfloat) (l : list candidate)
    (c : candidate) :
  finite (map key l) -> In c l -> exists q, key c = Fin q.
Proof.
  intros F I. apply (finite_In _ (key c) F). now apply in_map.
Qed.

(** The scores of finite flights: each one is
    [cw * g price + tw * h hours] for two decreasing functions. *)
Lemma flight_scores_form (self : ItineraryOptimizer)
    (flights : list candidate) (cw tw : Qc) :
  cost_weight self = Fin cw -> time_weight self = Fin tw ->
  finite (map cost_of flights) -> finite (map time_of flights) ->
  exists (g h : Qc -> Qc) (scores : list pyfloat),
    flight_scores self flights = Ok scores
    /\ no_nan scores
    /\ antitone_on (map cost_of flights) g
    /\ antitone_on (map time_of flights) h
    /\ (forall k f, nth_error flights k = Some f ->
          exists p d,
            cost_of f = Fin p /\ time_of f = Fin d
            /\ nth_error scores k = Some (Fin (cw * g p + tw * h d)%Qc)).
Proof.
  intros Ecw Etw Fc Ft.
  destruct (normalize_cost_antitone _ Fc) as (g & Ng & Ag & _).
  destruct (normalize_cost_antitone _ Ft) as (h & Nh & Ah & _).
  exists g, h. eexists. split; [apply flight_scores_weighted |].
  split; [| split; [exact Ag | split; [exact Ah |]]].
  - eapply finite_flights_no_nan; try eassumption.
    + now rewrite Ecw.
    + now rewrite Etw.
    + apply flight_scores_weighted.
  - intros k f Hk.
    destruct (finite_key cost_of flights f Fc (nth_error_In _ _ Hk)) as (p & Ep).
    destruct (finite_key time_of flights f Ft (nth_error_In _ _ Hk)) as (d & Ed).
    exists p, d. split; [exact Ep | split; [exact Ed |]].
    rewrite (nth_error_weighted self _ _ k (Fin (g p)) (Fin (h d))).
    + rewrite Ecw, Etw. reflexivity.
    + apply Ng. rewrite nth_error_map, Hk. cbv [option_map]. now rewrite <- Ep.
    + apply Nh. rewrite nth_error_map, Hk. cbv [option_map]. now rewrite <- Ed.
Qed.

Lemma hotel_scores_form (self : ItineraryOptimizer)
    (hotels : list candidate) (cw tw : Qc) :
  cost_weight self = Fin cw -> time_weight self = Fin tw ->
  finite (map cost_of hotels) -> finite (map rating_of hotels) ->
  exists (g h : Qc -> Qc),
    no_nan (hotel_scores self hotels)
    /\ antitone_on (map cost_of hotels) g
    /\ monotone_on (map rating_of hotels) h
    /\ (forall k f, nth_error hotels k = Some f ->
          exists p r,
            cost_of f = Fin p /\ rating_of f = Fin r
            /\ nth_error (hotel_scores self hotels) k
               = Some (Fin (cw * g p + tw * h r)%Qc)).
Proof.
  intros Ecw Etw Fc Fr.
  destruct (normalize_cost_antitone _ Fc) as (g & Ng & Ag & _).
  destruct (rating_scores_monotone _ Fr) as (h & Nh & Ah & _).
  exists g, h.
  split; [| split; [exact Ag | split; [exact Ah |]]].
  - apply finite_hotels_no_nan; try assumption.
    + now rewrite Ecw.
    + now rewrite Etw.
  - intros k f Hk.
    destruct (finite_key cost_of hotels f Fc (nth_error_In _ _ Hk)) as (p & Ep).
    destruct (finite_key rating_of hotels f Fr (nth_error_In _ _ Hk)) as (r & Er).
    exists p, r. split; [exact Ep | split; [exact Er |]].
    rewrite hotel_scores_weighted.
    rewrite (nth_error_weighted self _ _ k (Fin (g p)) (Fin (h r))).
    + rewrite Ecw, Etw. reflexivity.
    + apply Ng. rewrite nth_error_map, Hk. cbv [option_map]. now rewrite <- Ep.
    + apply Nh. rewrite nth_error_map, Hk. cbv [option_map]. now rewrite <- Er.
Qed.

(** What being the first greatest score says about a flight. *)
Lemma selected_flight (self : ItineraryOptimizer)
    (flights : list candidate) (cw tw : Qc) :
  cost_weight self = Fin cw -> time_weight self = Fin tw ->
  flights <> [] ->
  finite (map cost_of flights) -> finite (map time_of flights) ->
  exists (g h : Qc -> Qc) i best pb db,
    select_best_flight self flights = Ok (Some best)
    /\ nth_error flights i = Some best
    /\ cost_of best = Fin pb /\ time_of best = Fin db
    /\ antitone_on (map cost_of flights) g
    /\ antitone_on (map time_of flights) h
    /\ (forall k f, nth_error flights k = Some f ->
          exists p d,
            cost_of f = Fin p /\ time_of f = Fin d
            /\ (cw * g p + tw * h d <= cw * g pb + tw * h db)%Qc
            /\ ((k < i)%nat ->
                (cw * g p + tw * h d < cw * g pb + tw * h db)%Qc)).
Proof.
  intros Ecw Etw NE Fc Ft.
  destruct (flight_scores_form self flights cw tw Ecw Etw Fc Ft)
    as (g & h & scores & Es & NN & Ag & Ah & Sk).
  destruct (select_best_flight_first_argmax self flights NE)
    as (scores' & Es' & _ & _ & Sel).
  assert (scores' = scores) as -> by congruence.
  destruct (Sel NN) as (i & best & E & Ni & v & Nv & Max & First).
  destruct (Sk i best Ni) as (pb & db & Epb & Edb & Sb).
  assert (v = Fin (cw * g pb + tw * h db)%Qc) as -> by congruence.
  exists g, h, i, best, pb, db. repeat (split; [assumption |]).
  intros k f Hk. destruct (Sk k f Hk) as (p & d & Ep & Ed & Sf).
  exists p, d. split; [exact Ep | split; [exact Ed |]]. split.
  - apply leb_Fin. eapply Max; eauto.
  - intros L. apply ltb_Fin. eapply First; eauto.
Qed.

Lemma selected_hotel (self : ItineraryOptimizer)
    (hotels : list candidate) (cw tw : Qc) :
  cost_weight self = Fin cw -> time_weight self = Fin tw ->
  hotels <> [] ->
  finite (map cost_of hotels) -> finite (map rating_of hotels) ->
  exists (g h : Qc -> Qc) i best pb rb,
    select_best_hotel self hotels = Ok (Some best)
    /\ nth_error hotels i = Some best
    /\ cost_of best = Fin pb /\ rating_of best = Fin rb
    /\ antitone_on (map cost_of hotels) g
    /\ monotone_on (map rating_of hotels) h
    /\ (forall k f, nth_error hotels k = Some f ->
          exists p r,
            cost_of f = Fin p /\ rating_of f = Fin r
            /\ (cw * g p + tw * h r <= cw * g pb + tw * h rb)%Qc
            /\ ((k < i)%nat ->
                (cw * g p + tw * h r < cw * g pb + tw * h rb)%Qc)).
Proof.
  intros Ecw Etw NE Fc Fr.
  destruct (hotel_scores_form self hotels cw tw Ecw Etw Fc Fr)
    as (g & h & NN & Ag & Ah & Sk).
  destruct (select_best_hotel_first_argmax self hotels NE) as (_ & _ & Sel).
  destruct (Sel NN) as (i & best & E & Ni & v & Nv & Max & First).
  destruct (Sk i best Ni) as (pb & rb & Epb & Erb & Sb).
  assert (v = Fin (cw * g pb + tw * h rb)%Qc) as -> by congruence.
  exists g, h, i, best, pb, rb. repeat (split; [assumption |]).
  intros k f Hk. destruct (Sk k f Hk) as (p & r & Ep & Er & Sf).
  exists p, r. split; [exact Ep | split; [exact Er |]]. split.
  - apply leb_Fin. eapply Max; eauto.
  - intros L. apply ltb_Fin. eapply First; eauto.
Qed.

(** ** Arithmetic of two weighted terms *)

Lemma weighted_le (cw tw a b c d : Qc) :
  (0 <= cw)%Qc -> (0 <= tw)%Qc -> (a <= b)%Qc -> (c <= d)%Qc ->
  (cw * a + tw * c <= cw * b + tw * d)%Qc.
Proof. intros. to_Q. nra. Qed.

Lemma weighted_lt_first (cw tw a b c d : Qc) :
  (0 < cw)%Qc -> (0 <= tw)%Qc -> (a < b)%Qc -> (c <= d)%Qc ->
  (cw * a + tw * c < cw * b + tw * d)%Qc.
Proof. intros. to_Q. nra. Qed.

Lemma weighted_lt_second (cw tw a b c d : Qc) :
  (0 <= cw)%Qc -> (0 < tw)%Qc -> (a <= b)%Qc -> (c < d)%Qc ->
  (cw * a + tw * c < cw * b + tw * d)%Qc.
Proof. intros. to_Q. nra. Qed.

Lemma first_weight_only (cw a b c d : Qc) :
  (0 < cw)%Qc ->
  ((a <= b)%Qc -> (cw * a + 0 * c <= cw * b + 0 * d)%Qc)
  /\ ((a < b)%Qc -> (cw * a + 0 * c < cw * b + 0 * d)%Qc).
Proof. intros. split; intros; to_Q; nra. Qed.

Lemma second_weight_only (tw a b c d : Qc) :
  (0 < tw)%Qc ->
  ((c <= d)%Qc -> (0 * a + tw * c <= 0 * b + tw * d)%Qc)
  /\ ((c < d)%Qc -> (0 * a + tw * c < 0 * b + tw * d)%Qc).
Proof. intros. split; intros; to_Q; nra. Qed.

Lemma Qc_lt_not_le (a b : Qc) : (a < b)%Qc -> (b <= a)%Qc -> False.
Proof. intros. to_Q. lra. Qed.











(** ** Rescaled values *)

Lemma rescaled_ratio (k b lo hi q : Qc) :
  (0 < k)%Qc -> (lo < hi)%Qc ->
  ((k * q + b - (k * lo + b)) / (k * hi + b - (k * lo + b)))%Qc
  = ((q - lo) / (hi - lo))%Qc.
Proof.
  intros K L. field. split.
  - now apply Qc_minus_nonzero.
  - intros E. apply (f_equal this) in E.
    assert ((k * hi + b - (k * lo + b))%Qc == 0)%Q as E' by (rewrite E; reflexivity).
    to_Q. nra.
Qed.

Lemma rescale_Fin (k b q : Qc) :
  (Fin k * Fin q + Fin b)%F = Fin (k * q + b)%Qc.
Proof. reflexivity. Qed.

Lemma rescaled_finite (l : list pyfloat) (k b : Qc) :
  finite l -> finite (map (fun c => Fin k * c + Fin b)%F l).
Proof.
  intros F. unfold finite in *. rewrite Forall_forall in *.
  intros y Hy. apply in_map_iff in Hy. destruct Hy as (x & <- & Hx).
  specialize (F x Hx). destruct x; try discriminate. reflexivity.
Qed.

Lemma rescaled_extremes (l : list pyfloat) (k b lo hi lo' hi' : Qc) :
  finite l -> (0 < k)%Qc ->
  In (Fin lo) l -> In (Fin hi) l ->
  (forall q, In (Fin q) l -> (lo <= q)%Qc /\ (q <= hi)%Qc) ->
  let l' := map (fun c => Fin k * c + Fin b)%F l in
  In (Fin lo') l' -> In (Fin hi') l' ->
  (forall q, In (Fin q) l' -> (lo' <= q)%Qc /\ (q <= hi')%Qc) ->
  lo' = (k * lo + b)%Qc /\ hi' = (k * hi + b)%Qc.
Proof.
  intros F K Ilo Ihi B l' Ilo' Ihi' B'.
  assert (M : forall q, In (Fin q) l -> In (Fin (k * q + b)%Qc) l').
  { intros q Iq. rewrite <- rescale_Fin.
    exact (in_map (fun c => Fin k * c + Fin b)%F l _ Iq). }
  assert (P : forall q', In (Fin q') l' ->
                exists q, In (Fin q) l /\ q' = (k * q + b)%Qc).
  { intros q' Iq'. apply in_map_iff in Iq'. destruct Iq' as (x & Ex & Ix).
    destruct (finite_In l x F Ix) as (q & ->).
    exists q. split; [exact Ix |]. rewrite rescale_Fin in Ex. congruence. }
  destruct (P lo' Ilo') as (q1 & I1 & ->).
  destruct (P hi' Ihi') as (q2 & I2 & ->).
  destruct (B q1 I1) as [L1 _]. destruct (B q2 I2) as [_ L2].
  destruct (B' _ (M lo Ilo)) as [L3 _]. destruct (B' _ (M hi Ihi)) as [_ L4].
  split; apply Qcle_antisym; auto; to_Q; nra.
Qed.



(** ** The greedy pass *)

Lemma py_sum_snoc (l : list pyfloat) (x : pyfloat) :
  py_sum (l ++ [x]) = (py_sum l + x)%F.
Proof. unfold py_sum. now rewrite fold_left_app. Qed.

Lemma greedy_pass_extends (todo : list (pyfloat * candidate))
    (K : Z) (H : pyfloat) :
  forall selected total_hours,
    exists more,
      greedy_pass todo K H selected total_hours = selected ++ more.
Proof.
  induction todo as [| [v a] rest IH]; intros selected total_hours.
  - exists []. simpl. now rewrite app_nil_r.
  - cbn [greedy_pass]. destruct (_ && _).
    + destruct (IH (selected ++ [a])
                   (total_hours + get duration_hours a zero)%F)
        as (more & ->).
      exists (a :: more). now rewrite <- app_assoc.
    + apply IH.
Qed.

Lemma greedy_pass_count (todo : list (pyfloat * candidate))
    (K : Z) (H : pyfloat) :
  forall selected total_hours,
    ((Z.of_nat (List.length selected) <= K)%Z ->
     (Z.of_nat (List.length (greedy_pass todo K H selected total_hours))
      <= K)%Z)
    /\ ((K <= Z.of_nat (List.length selected))%Z ->
        greedy_pass todo K H selected total_hours = selected).
Proof.
  induction todo as [| [v a] rest IH]; intros selected total_hours.
  - simpl. auto.
  - cbn [greedy_pass].
    destruct (Z.of_nat (List.length selected) <? K)%Z eqn:C; cbn [andb].
    + apply Z.ltb_lt in C.
      destruct (_ <=? _)%F.
      * split; [intros _ | lia].
        apply IH. rewrite length_app. simpl. lia.
      * split; [apply IH | lia].
    + apply Z.ltb_ge in C. split; apply IH.
Qed.

Lemma greedy_pass_hours (todo : list (pyfloat * candidate))
    (K : Z) (H : pyfloat) :
  forall selected,
    let result :=
      greedy_pass todo K H selected
        (py_sum (map Reference.duration selected)) in
    result = selected
    \/ (py_sum (map Reference.duration result) <=? H)%F = true.
Proof.
  induction todo as [| [v a] rest IH]; intros selected; cbn zeta.
  - now left.
  - cbn [greedy_pass].
    destruct (Z.of_nat (List.length selected) <? K)%Z; cbn [andb];
      [| apply IH].
    destruct (_ <=? _)%F eqn:C; [| apply IH].
    right.
    specialize (IH (selected ++ [a])). cbn zeta in IH.
    rewrite map_app in IH. cbn [map] in IH. rewrite py_sum_snoc in IH.
    change (Reference.duration a) with (get duration_hours a zero) in IH.
    destruct IH as [-> | IH]; [| exact IH].
    rewrite map_app. cbn [map]. rewrite py_sum_snoc. exact C.
Qed.

Lemma greedy_pass_split (todo : list (pyfloat * candidate))
    (K : Z) (H : pyfloat) :
  forall selected total_hours,
    exists rejected,
      Permutation (greedy_pass todo K H selected total_hours ++ rejected)
                  (selected ++ map snd todo).
Proof.
  induction todo as [| [v a] rest IH]; intros selected total_hours.
  - exists []. simpl. reflexivity.
  - cbn [greedy_pass map snd]. destruct (_ && _).
    + destruct (IH (selected ++ [a])
                   (total_hours + get duration_hours a zero)%F)
        as (rejected & P).
      exists rejected. now rewrite <- app_assoc in P.
    + destruct (IH selected total_hours) as (rejected & P).
      exists (a :: rejected).
      rewrite <- !Permutation_middle. now constructor.
Qed.

Lemma insort_Permutation {A : Type} (x : pyfloat * A)
    (placed : list (pyfloat * A)) :
  Permutation (insort x placed) (x :: placed).
Proof.
  induction placed as [| y rest IH]; simpl; [reflexivity |].
  destruct (_ <? _)%F; [reflexivity |].
  rewrite IH. apply perm_swap.
Qed.

Lemma stable_sort_Permutation {A : Type} (l : list (pyfloat * A)) :
  Permutation (stable_sort l) l.
Proof.
  induction l as [| x l IH] using rev_ind; [reflexivity |].
  rewrite stable_sort_snoc, insort_Permutation, IH.
  apply Permutation_cons_append.
Qed.

Lemma sort_reverse_Permutation {A : Type} (l : list (pyfloat * A)) :
  Permutation (sort_reverse l) l.
Proof.
  unfold sort_reverse.
  rewrite <- Permutation_rev, stable_sort_Permutation, <- Permutation_rev.
  reflexivity.
Qed.

Lemma filter_split_Permutation {A : Type} (f : A -> bool) (l : list A) :
  Permutation (filter f l ++ filter (fun a => negb (f a)) l) l.
Proof.
  induction l as [| a l IH]; simpl; [reflexivity |].
  destruct (f a); simpl.
  - now constructor.
  - rewrite <- Permutation_middle. now constructor.
Qed.

Lemma map_snd_with_value (l : list candidate) :
  map snd (map with_value l) = l.
Proof. rewrite map_map. simpl. apply map_id. Qed.

(** What [select_activities] returns, with the list it sorted. *)
Lemma select_activities_sorted (activities : list candidate)
    (K : Z) (H : pyfloat) :
  exists sorted,
    Permutation sorted (map with_value (filter Reference.scorable activities))
    /\ select_activities activities K H
       = Ok (greedy_pass sorted K H [] zero).
Proof.
  eexists. split; [apply sort_reverse_Permutation |].
  apply select_activities_total.
Qed.

Lemma scorable_iff (a : candidate) :
  Reference.scorable a = true
  <-> (zero <? Reference.price a)%F = true
      /\ (zero <? Reference.duration a)%F = true.
Proof. unfold Reference.scorable. apply andb_true_iff. Qed.

Lemma sorted_members (activities : list candidate)
    (sorted : list (pyfloat * candidate)) (v : pyfloat) (a : candidate) :
  Permutation sorted (map with_value (filter Reference.scorable activities)) ->
  In (v, a) sorted ->
  In a activities /\ Reference.scorable a = true.
Proof.
  intros P I. apply (Permutation_in _ P) in I.
  apply in_map_iff in I. destruct I as (b & [= _ ->] & I).
  now apply filter_In in I.
Qed.

(** The count, the hours and the members of a selection. *)
Lemma select_activities_count (activities selected : list candidate)
    (K : Z) (H : pyfloat) :
  select_activities activities K H = Ok selected ->
  (Z.of_nat (List.length selected) <= Z.max 0 K)%Z.
Proof.
  rewrite select_activities_total. intros [= <-].
  match goal with
  | |- context [greedy_pass ?sorted K H [] zero] =>
      destruct (greedy_pass_count sorted K H [] zero) as [C1 C2]
  end.
  destruct (Z_le_gt_dec 0 K) as [L | G].
  - specialize (C1 L). lia.
  - rewrite C2 by (cbn [List.length]; lia). cbn [List.length]. lia.
Qed.

Lemma select_activities_hours (activities selected : list candidate)
    (K : Z) (H : pyfloat) :
  select_activities activities K H = Ok selected ->
  selected <> [] ->
  (py_sum (map Reference.duration selected) <=? H)%F = true.
Proof.
  rewrite select_activities_total. intros [= <-] NE.
  match goal with
  | |- context [greedy_pass ?sorted K H [] zero] =>
      destruct (greedy_pass_hours sorted K H []) as [R | R]
  end; [contradiction | exact R].
Qed.

Lemma select_activities_members (activities selected : list candidate)
    (K : Z) (H : pyfloat) (a : candidate) :
  select_activities activities K H = Ok selected ->
  In a selected ->
  In a activities
  /\ (zero <? Reference.price a)%F = true
  /\ (zero <? Reference.duration a)%F = true.
Proof.
  destruct (select_activities_sorted activities K H) as (sorted & P & E).
  rewrite E. intros [= <-] I.
  destruct (greedy_pass_In sorted K H a [] zero I) as [[] | (v & Iv)].
  destruct (sorted_members activities sorted v a P Iv) as [Ia Sa].
  split; [exact Ia |]. now apply scorable_iff.
Qed.



Lemma greedy_pass_from_empty (todo : list (pyfloat * candidate))
    (K : Z) (H : pyfloat) :
  greedy_pass todo K H [] zero <> []
  <-> (0 < K)%Z
      /\ exists p, In p todo /\ (Reference.duration (snd p) <=? H)%F = true.
Proof.
  induction todo as [| [v a] rest IH].
  - simpl. split; [congruence | intros (_ & p & [] & _)].
  - cbn [greedy_pass List.length Z.of_nat]. rewrite add_zero_l.
    destruct (0 <? K)%Z eqn:C; cbn [andb].
    + apply Z.ltb_lt in C.
      destruct (get duration_hours a zero <=? H)%F eqn:D.
      * split.
        -- intros _. split; [exact C |]. exists (v, a). split; [now left |].
           exact D.
        -- intros _.
           destruct (greedy_pass_extends rest K H ([] ++ [a])
                       (get duration_hours a zero)) as (more & ->).
           discriminate.
      * rewrite IH. split; intros (C' & p & I & F); (split; [exact C' |]).
        -- exists p. split; [now right | exact F].
        -- exists p. split; [| exact F].
           destruct I as [<- | I]; [| exact I].
           cbn [snd] in F. unfold Reference.duration in F. congruence.
    + apply Z.ltb_ge in C. rewrite IH. split; intros (C' & _); lia.
Qed.


(** An activity that fits alone makes the selection non-empty. *)
Lemma select_activities_nonempty (activities selected : list candidate)
    (K : Z) (H : pyfloat) (a : candidate) :
  (0 < K)%Z -> In a activities ->
  Reference.scorable a = true ->
  (Reference.duration a <=? H)%F = true ->
  select_activities activities K H = Ok selected ->
  selected <> [].
Proof.
  intros C Ia Sa F.
  destruct (select_activities_sorted activities K H) as (sorted & P & E).
  rewrite E. intros [= <-]. apply greedy_pass_from_empty.
  split; [exact C |]. exists (with_value a). split; [| exact F].
  apply (Permutation_in _ (Permutation_sym P)).
  apply in_map, filter_In. now split.
Qed.

(** ** The pass over a list sorted by value *)

Lemma accept_In (l : list candidate) (K : Z) (H : pyfloat) (a : candidate) :
  forall count hours, In a (Reference.accept l K H count hours) -> In a l.
Proof.
  induction l as [| x rest IH]; intros count hours; cbn [Reference.accept];
    [tauto |].
  destruct (_ && _).
  - intros [-> | I]; [now left | right; eauto].
  - intros I. right. eauto.
Qed.

Lemma accept_descending (l : list candidate) (K : Z) (H : pyfloat) :
  descending l ->
  forall count hours, descending (Reference.accept l K H count hours).
Proof.
  unfold descending. induction 1 as [| x rest S IH F]; intros count hours;
    cbn [Reference.accept]; [constructor |].
  destruct (_ && _); [| apply IH].
  constructor; [apply IH |].
  rewrite Forall_forall in *. intros b I. apply F.
  eapply accept_In; eauto.
Qed.

Lemma accept_none (l : list candidate) (K : Z) (H : pyfloat) :
  forall count hours,
    (K <= count)%Z -> Reference.accept l K H count hours = [].
Proof.
  induction l as [| x rest IH]; intros count hours L;
    cbn [Reference.accept]; [reflexivity |].
  assert ((count + 1 <=? K)%Z = false) as -> by (apply Z.leb_gt; lia).
  cbn [andb]. now apply IH.
Qed.

Lemma accept_head_is_best (l : list candidate) (K : Z) (H : pyfloat) :
  descending l ->
  forall first more,
    Reference.accept l K H 0 zero = first :: more ->
    forall b, In b l -> (Reference.duration b <=? H)%F = true ->
      (Reference.value first <? Reference.value b)%F = false.
Proof.
  unfold descending. induction 1 as [| x rest S IH F]; intros first more E b I D.
  - destruct I.
  - cbn [Reference.accept] in E. rewrite add_zero_l in E.
    destruct (0 + 1 <=? K)%Z eqn:C; cbn [andb] in E.
    + destruct (Reference.duration x <=? H)%F eqn:Dx.
      * injection E as -> _. destruct I as [-> | I].
        -- apply ltb_irrefl.
        -- rewrite Forall_forall in F. now apply F.
      * destruct I as [-> | I]; [congruence |]. eapply IH; eauto.
    + apply Z.leb_gt in C. rewrite accept_none in E by lia. discriminate.
Qed.



(** ** Sums of durations *)

Lemma add_comm (x y : pyfloat) : (x + y)%F = (y + x)%F.
Proof.
  destruct x, y; try reflexivity. simpl. f_equal. apply Qcplus_comm.
Qed.

Lemma py_sum_Permutation (l l' : list pyfloat) :
  Permutation l l' -> py_sum l = py_sum l'.
Proof.
  induction 1 as [| x l l' P IH | x y l | l l' l'' P IH P' IH'].
  - reflexivity.
  - rewrite !py_sum_cons. now rewrite IH.
  - rewrite !py_sum_cons, !add_assoc. f_equal. apply add_comm.
  - congruence.
Qed.

Lemma py_sum_nonnegative (l : list pyfloat) :
  Forall (fun x => is_finite x = true /\ (zero <? x)%F = true) l ->
  exists s, py_sum l = Fin s /\ (0 <= s)%Qc.
Proof.
  induction 1 as [| x l [Fx Px] _ (s & Es & Ps)].
  - exists 0%Qc. split; [reflexivity | to_Q; lra].
  - rewrite py_sum_cons, Es. destruct x as [q | | |]; try discriminate.
    apply ltb_Fin in Px. exists (q + s)%Qc. split; [reflexivity |].
    to_Q. lra.
Qed.

Lemma greedy_pass_takes_all (K : Z) (H : pyfloat) :
  forall (todo : list (pyfloat * candidate)) selected (t : Qc),
    Forall (fun x => is_finite x = true /\ (zero <? x)%F = true)
           (map (fun p => Reference.duration (snd p)) todo) ->
    (Z.of_nat (List.length selected + List.length todo) <= K)%Z ->
    (Fin t + py_sum (map (fun p => Reference.duration (snd p)) todo) <=? H)%F
    = true ->
    greedy_pass todo K H selected (Fin t) = selected ++ map snd todo.
Proof.
  induction todo as [| [v a] rest IH]; intros selected t F L B.
  - simpl. now rewrite app_nil_r.
  - cbn [map snd] in *. inversion F as [| x l [Fa Pa] Fr]; subst.
    cbn [greedy_pass]. cbn [List.length] in L.
    change (get duration_hours a zero) with (Reference.duration a).
    destruct (Reference.duration a) as [q | | |] eqn:Ea; try discriminate.
    apply ltb_Fin in Pa.
    destruct (py_sum_nonnegative _ Fr) as (s & Es & Ps).
    rewrite py_sum_cons, add_assoc in B.
    assert ((Z.of_nat (List.length selected) <? K)%Z = true) as ->
      by (apply Z.ltb_lt; lia).
    assert ((Fin t + Fin q <=? H)%F = true) as ->.
    { apply leb_trans with (2 := B). rewrite Es. apply leb_Fin.
      to_Q. lra. }
    cbn [andb]. change (Fin t + Fin q)%F with (Fin (t + q)%Qc).
    rewrite IH; [now rewrite <- app_assoc | exact Fr | | exact B].
    rewrite length_app. cbn [List.length]. lia.
Qed.



(** ** How [create_itinerary] ends *)

Lemma strptime_raises (s : string) (e : exn) :
  Datetime.strptime s = Raise e -> e = ValueError.
Proof.
  unfold Datetime.strptime, Datetime.make.
  repeat match goal with
  | |- context [match ?x with _ => _ end] => destruct x
  end; congruence.
Qed.

Lemma create_itinerary_outcome (self : ItineraryOptimizer)
    (flights hotels activities : list candidate)
    (departure_date return_date : string) :
  match Datetime.strptime departure_date, Datetime.strptime return_date with
  | Ok dep, Ok ret =>
      if (dep <? Datetime.MAXORDINAL)%Z
      then exists it,
             create_itinerary self flights hotels activities
               departure_date return_date = Ok it
      else dep = Datetime.MAXORDINAL
           /\ create_itinerary self flights hotels activities
                departure_date return_date = Raise OverflowError
  | _, _ =>
      create_itinerary self flights hotels activities
        departure_date return_date = Raise ValueError
  end.
Proof.
  destruct (select_best_flight_total self flights) as (bf & Ef & _).
  destruct (select_best_hotel_total self hotels) as (bh & Eh & _).
  destruct (Datetime.strptime departure_date) as [dep | e] eqn:Ed.
  - destruct (Datetime.strptime return_date) as [ret | e] eqn:Er.
    + destruct (Z.ltb_spec dep Datetime.MAXORDINAL) as [L | G].
      * destruct (create_itinerary_total self flights hotels activities
                    _ _ dep ret Ed Er L) as (? & ? & ? & _ & _ & _ & E).
        eauto.
      * pose proof (DatetimeFacts.strptime_in_range _ _ Ed) as R.
        split; [lia |].
        unfold create_itinerary, bind. rewrite Ef, Eh, Ed, Er.
        unfold Datetime.add_days.
        assert ((dep + 1 <=? Datetime.MAXORDINAL)%Z = false) as ->
          by (apply Z.leb_gt; lia).
        now rewrite andb_false_r.
    + pose proof (strptime_raises _ _ Er) as ->.
      unfold create_itinerary, bind. now rewrite Ef, Eh, Ed, Er.
  - pose proof (strptime_raises _ _ Ed) as ->.
    unfold create_itinerary, bind. now rewrite Ef, Eh, Ed.
Qed.


(** ** The plans of the days *)

Lemma create_itinerary_plans (self : ItineraryOptimizer)
    (flights hotels activities : list candidate)
    (departure_date return_date : string) (it : itinerary) :
  create_itinerary self flights hotels activities departure_date return_date
  = Ok it ->
  exists dep ret,
    Datetime.strptime departure_date = Ok dep
    /\ Datetime.strptime return_date = Ok ret
    /\ (1 <= dep < Datetime.MAXORDINAL)%Z
    /\ (1 <= ret <= Datetime.MAXORDINAL)%Z
    /\ Summary.duration_days (summary it) = (ret - dep)%Z
    /\ Forall2 (plan_of_day activities) (days it) (full_days dep ret).
Proof.
  intros E.
  destruct (create_itinerary_returns_only_with_dates _ _ _ _ _ _ _ E)
    as (dep & ret & Ed & Er & L).
  destruct (create_itinerary_total self flights hotels activities
              _ _ dep ret Ed Er L) as (bf & bh & plans & _ & _ & P & E').
  rewrite E' in E. injection E as <-.
  pose proof (DatetimeFacts.strptime_in_range _ _ Ed).
  pose proof (DatetimeFacts.strptime_in_range _ _ Er).
  exists dep, ret. cbn [summary days Summary.duration_days].
  repeat split; auto; lia.
Qed.

Lemma plan_of_day_budget (activities : list candidate) (plan : DayPlan.t)
    (day : Z) :
  plan_of_day activities plan day ->
  (List.length (DayPlan.activities plan) <= 3)%nat
  /\ (DayPlan.total_time_hours plan <=? of_Z 8)%F = true
  /\ Forall (fun a => (zero <? Reference.price a)%F = true
                      /\ (zero <? Reference.duration a)%F = true)
            (DayPlan.activities plan).
Proof.
  intros (_ & Es & _ & Et).
  split; [| split].
  - pose proof (select_activities_count _ _ _ _ Es) as Hk.
    unfold default_max_activities_per_day in Hk. lia.
  - rewrite Et.
    destruct (list_eq_dec_nil (DayPlan.activities plan)) as [-> | NE];
      [reflexivity |].
    exact (select_activities_hours _ _ _ _ Es NE).
  - apply Forall_forall. intros a Ia.
    now destruct (select_activities_members _ _ _ _ a Es Ia).
Qed.

(** X16.  In every itinerary that [create_itinerary] returns, the number
    of day plans is [duration_days - 1] (0 when that is negative), and
    every plan keeps the defaults of [select_activities]: at most 3
    activities, a [total_time_hours] of at most 8, each activity with a
    positive price and a positive duration. *)
Theorem day_plans_keep_the_budgets (self : ItineraryOptimizer)
    (flights hotels activities : list candidate)
    (departure_date return_date : string) (it : itinerary) :
  create_itinerary self flights hotels activities departure_date return_date
  = Ok it ->
  Z.of_nat (List.length (days it))
  = Z.max 0 (Summary.duration_days (summary it) - 1)
  /\ Forall (fun plan =>
               (List.length (DayPlan.activities plan) <= 3)%nat
               /\ (DayPlan.total_time_hours plan <=? of_Z 8)%F = true
               /\ Forall (fun a =>
                            (zero <? Reference.price a)%F = true
                            /\ (zero <? Reference.duration a)%F = true)
                         (DayPlan.activities plan))
            (days it).
Proof.
  intros E.
  destruct (create_itinerary_plans _ _ _ _ _ _ _ E)
    as (dep & ret & _ & _ & _ & _ & -> & P).
  split.
  - rewrite (Forall2_length P). unfold full_days, days_from.
    rewrite length_map, length_seq. lia.
  - apply Forall_forall. intros plan Ip.
    destruct (Forall2_In_left _ _ _ _ P Ip) as (day & _ & Pd).
    now apply plan_of_day_budget with (day := day) (activities := activities).
Qed.

Lemma day_plans_keep_the_budgets_witness :
  exists it,
    create_itinerary Example.weights Example.three_flights []
      Example.five_activities "2025-06-01" "2025-06-04" = Ok it
    /\ Z.of_nat (List.length (days it)) = 2%Z
    /\ Forall (fun plan =>
                 (List.length (DayPlan.activities plan) <= 3)%nat
                 /\ (DayPlan.total_time_hours plan <=? of_Z 8)%F = true
                 /\ Forall (fun a =>
                              (zero <? Reference.price a)%F = true
                              /\ (zero <? Reference.duration a)%F = true)
                           (DayPlan.activities plan))
              (days it).
Proof.
  eassert (create_itinerary Example.weights Example.three_flights []
             Example.five_activities "2025-06-01" "2025-06-04" = Ok _) as E
    by (vm_compute; reflexivity).
  eexists. split; [exact E |].
  exact (day_plans_keep_the_budgets _ _ _ _ _ _ _ E).
Defined.

Lemma Forall2_nth_error {A B : Type} (R : A -> B -> Prop)
    (l : list A) (l' : list B) :
  Forall2 R l l' ->
  forall i a, nth_error l i = Some a ->
    exists b, nth_error l' i = Some b /\ R a b.
Proof.
  induction 1 as [| x y l l' Rxy _ IH]; intros [| i] a E;
    try discriminate; cbn in *.
  - injection E as <-. eauto.
  - eauto.
Qed.

Lemma nth_error_days_from (first : Z) (n i : nat) (d : Z) :
  nth_error (days_from first n) i = Some d -> d = (first + Z.of_nat i)%Z.
Proof.
  unfold days_from. rewrite nth_error_map.
  destruct (nth_error (seq 0 n) i) as [k |] eqn:E; [| discriminate].
  intros [= <-].
  assert (L : (i < n)%nat).
  { rewrite <- (length_seq n 0). apply nth_error_Some. congruence. }
  apply nth_error_nth with (d := 0%nat) in E.
  rewrite seq_nth in E by exact L. subst k. reflexivity.
Qed.

Lemma strftime_injective (d d' : Z) :
  (1 <= d <= Datetime.MAXORDINAL)%Z -> (1 <= d' <= Datetime.MAXORDINAL)%Z ->
  Datetime.strftime d = Datetime.strftime d' -> d = d'.
Proof.
  intros R R' E.
  pose proof (DatetimeFacts.strptime_strftime d R) as P.
  rewrite E, (DatetimeFacts.strptime_strftime d' R') in P. congruence.
Qed.

(** X17.  In an itinerary that [create_itinerary] returns, two different
    days carry different dates, and no activity is planned on both. *)
Theorem no_activity_on_two_days (self : ItineraryOptimizer)
    (flights hotels activities : list candidate)
    (departure_date return_date : string) (it : itinerary) :
  create_itinerary self flights hotels activities departure_date return_date
  = Ok it ->
  forall i j p q,
    nth_error (days it) i = Some p -> nth_error (days it) j = Some q ->
    i <> j ->
    DayPlan.date p <> DayPlan.date q
    /\ forall a, In a (DayPlan.activities p) ->
                 ~ In a (DayPlan.activities q).
Proof.
  intros E i j p q Hi Hj Nij.
  destruct (create_itinerary_plans _ _ _ _ _ _ _ E)
    as (dep & ret & _ & _ & Rd & Rr & _ & P).
  destruct (Forall2_nth_error _ _ _ P i p Hi) as (di & Di & Pi).
  destruct (Forall2_nth_error _ _ _ P j q Hj) as (dj & Dj & Pj).
  assert (Ii : (dep < di < ret)%Z).
  { apply full_days_In. eapply nth_error_In; eauto. }
  assert (Ij : (dep < dj < ret)%Z).
  { apply full_days_In. eapply nth_error_In; eauto. }
  apply nth_error_days_from in Di, Dj.
  assert (Nd : DayPlan.date p <> DayPlan.date q).
  { destruct Pi as (-> & _), Pj as (-> & _). intros S.
    apply strftime_injective in S; lia. }
  split; [exact Nd |].
  intros a Ip Iq.
  destruct (plan_of_day_activities _ _ _ a Pi Ip) as [_ Dp].
  destruct (plan_of_day_activities _ _ _ a Pj Iq) as [_ Dq].
  congruence.
Qed.

Lemma no_activity_on_two_days_witness :
  exists it p q,
    create_itinerary Example.weights Example.three_flights []
      Example.five_activities "2025-06-01" "2025-06-04" = Ok it
    /\ nth_error (days it) 0 = Some p
    /\ nth_error (days it) 1 = Some q
    /\ DayPlan.date p <> DayPlan.date q
    /\ forall a, In a (DayPlan.activities p) ->
                 ~ In a (DayPlan.activities q).
Proof.
  eassert (create_itinerary Example.weights Example.three_flights []
             Example.five_activities "2025-06-01" "2025-06-04" = Ok _) as E
    by (vm_compute; reflexivity).
  eexists. eexists. eexists. split; [exact E |].
  split; [reflexivity |]. split; [reflexivity |].
  apply (no_activity_on_two_days _ _ _ _ _ _ _ E 0%nat 1%nat);
    [reflexivity | reflexivity | discriminate].
Defined.

(** ** Activities of other dates *)

Lemma loop_body_next (activities : list candidate) (st st' : State.t) :
  loop_body activities st = Ok st' ->
  State.current_date st' = (State.current_date st + 1)%Z.
Proof.
  unfold loop_body, bind, Datetime.add_days.
  destruct (select_activities _ _ _); [| discriminate].
  destruct (_ && _); [| discriminate].
  now intros [= <-].
Qed.

Lemma loop_body_same_day (activities activities' : list candidate)
    (st : State.t) :
  filter (dated (Datetime.strftime (State.current_date st))) activities
  = filter (dated (Datetime.strftime (State.current_date st))) activities' ->
  loop_body activities st = loop_body activities' st.
Proof. intros E. unfold loop_body. now rewrite E. Qed.

Lemma while_loop_same_days (activities activities' : list candidate)
    (return_dt : Z) :
  forall n st,
    Z.to_nat (return_dt - State.current_date st) = n ->
    (forall day, (State.current_date st <= day < return_dt)%Z ->
       filter (dated (Datetime.strftime day)) activities
       = filter (dated (Datetime.strftime day)) activities') ->
    while_loop activities return_dt st = while_loop activities' return_dt st.
Proof.
  induction n as [| n IH]; intros st Hn Same;
    rewrite (while_loop_step activities), (while_loop_step activities');
    destruct (Z.ltb_spec (State.current_date st) return_dt) as [L | G];
    try reflexivity; try lia.
  rewrite <- (loop_body_same_day activities activities') by (apply Same; lia).
  destruct (loop_body activities st) as [st' |] eqn:B; [| reflexivity].
  apply loop_body_next in B.
  apply IH; [lia |]. intros day R. apply Same. lia.
Qed.

Lemma filter_filter_absorb {A : Type} (f keep : A -> bool) (l : list A) :
  (forall a, In a l -> f a = true -> keep a = true) ->
  filter f (filter keep l) = filter f l.
Proof.
  induction l as [| a l IH]; intros K; [reflexivity |]. cbn [filter].
  assert (IH' : filter f (filter keep l) = filter f l).
  { apply IH. intros b Ib. apply K. now right. }
  destruct (keep a) eqn:Ka; cbn [filter].
  - now rewrite IH'.
  - destruct (f a) eqn:Fa; [| exact IH'].
    rewrite (K a (or_introl eq_refl) Fa) in Ka. discriminate.
Qed.



(** ** The collecting loop *)

Section CallerFacts.

Variable now : Z.
Variable scrape_all_flights :
  string -> string -> string -> string -> Z -> list candidate.
Variable scrape_all_hotels : string -> string -> string -> Z -> list candidate.
Variable scrape_all_activities : string -> string -> list candidate.

Lemma gather_loop_step (destination : string) (return_dt : Z)
    (st : Gather.t) :
  gather_loop scrape_all_activities destination return_dt st
  = if (Gather.current_date st <? return_dt)%Z
    then match gather_body scrape_all_activities destination st with
         | Ok st' => gather_loop scrape_all_activities destination return_dt st'
         | Raise e => Raise e
         end
    else Ok st.
Proof.
  funelim (gather_loop scrape_all_activities destination return_dt st).
  - now rewrite e.
  - now rewrite guard, body.
  - now rewrite guard, e1.
Qed.

Lemma gather_loop_total (destination : string) (return_dt : Z) :
  (return_dt <= Datetime.MAXORDINAL)%Z ->
  forall n st,
    (0 <= Gather.current_date st)%Z ->
    Z.to_nat (return_dt - Gather.current_date st) = n ->
    exists final,
      gather_loop scrape_all_activities destination return_dt st = Ok final
      /\ Gather.all_activities final
         = Gather.all_activities st
           ++ scraped scrape_all_activities destination (days_from (Gather.current_date st) n).
Proof.
  intros Hret. induction n as [| n IH]; intros st Hpos Hn;
    rewrite gather_loop_step;
    destruct (Z.ltb_spec (Gather.current_date st) return_dt) as [L | G];
    try lia.
  - exists st. split; [reflexivity |]. cbn. now rewrite app_nil_r.
  - unfold gather_body, bind.
    rewrite DatetimeFacts.add_days_in_range by lia.
    destruct (IH (Gather.mk (Gather.current_date st + 1)
                    (Gather.all_activities st
                     ++ scrape_all_activities destination
                          (Datetime.strftime (Gather.current_date st)))))
      as (final & E & A); cbn [Gather.current_date]; try lia.
    exists final. split; [exact E |].
    rewrite A. cbn [Gather.all_activities Gather.current_date].
    rewrite days_from_S. unfold scraped. cbn [flat_map].
    now rewrite <- app_assoc.
Qed.

Lemma gather_activities_total (destination departure_date return_date : string)
    (dep ret : Z) :
  Datetime.strptime departure_date = Ok dep ->
  Datetime.strptime return_date = Ok ret ->
  (dep < Datetime.MAXORDINAL)%Z ->
  gather_activities scrape_all_activities destination
    departure_date return_date
  = Ok (scraped scrape_all_activities destination (full_days dep ret)).
Proof.
  intros Ed Er L.
  pose proof (DatetimeFacts.strptime_in_range _ _ Ed) as Rd.
  pose proof (DatetimeFacts.strptime_in_range _ _ Er) as Rr.
  unfold gather_activities, bind. rewrite Ed, Er.
  rewrite DatetimeFacts.add_days_in_range by lia.
  destruct (gather_loop_total destination ret (proj2 Rr)
              (Z.to_nat (ret - dep - 1)) (Gather.mk (dep + 1) []))
    as (final & -> & A); cbn [Gather.current_date]; try lia.
  now rewrite A.
Qed.

End CallerFacts.

(** ** Default dates *)

Lemma default_return_date_total (departure_date : string) (dep : Z) :
  Datetime.strptime departure_date = Ok dep ->
  (dep + 7 <= Datetime.MAXORDINAL)%Z ->
  default_return_date departure_date = Ok (Datetime.strftime (dep + 7))
  /\ Datetime.strptime (Datetime.strftime (dep + 7)) = Ok (dep + 7)%Z.
Proof.
  intros Ed L. pose proof (DatetimeFacts.strptime_in_range _ _ Ed) as R.
  split.
  - unfold default_return_date, bind, Datetime.add_days. rewrite Ed.
    assert ((1 <=? dep + 7)%Z && (dep + 7 <=? Datetime.MAXORDINAL)%Z = true)
      as ->; [| reflexivity].
    apply andb_true_iff. split; apply Z.leb_le; lia.
  - apply DatetimeFacts.strptime_strftime. lia.
Qed.



(** ** What the collecting loop asks the scraper *)

Section CallerTheorems.

Variable now : Z.
Variable scrape_all_flights :
  string -> string -> string -> string -> Z -> list candidate.
Variable scrape_all_hotels : string -> string -> string -> Z -> list candidate.
Variable scrape_all_activities : string -> string -> list candidate.

Lemma gather_activities_outcome
    (destination departure_date return_date : string) :
  match Datetime.strptime departure_date, Datetime.strptime return_date with
  | Ok dep, Ok ret =>
      if (dep <? Datetime.MAXORDINAL)%Z
      then gather_activities scrape_all_activities destination
             departure_date return_date
           = Ok (scraped scrape_all_activities destination (full_days dep ret))
      else gather_activities scrape_all_activities destination
             departure_date return_date = Raise OverflowError
  | Ok dep, Raise _ =>
      if (dep <? Datetime.MAXORDINAL)%Z
      then gather_activities scrape_all_activities destination
             departure_date return_date = Raise ValueError
      else gather_activities scrape_all_activities destination
             departure_date return_date = Raise OverflowError
  | Raise _, _ =>
      gather_activities scrape_all_activities destination
        departure_date return_date = Raise ValueError
  end.
Proof.
  destruct (Datetime.strptime departure_date) as [dep | e] eqn:Ed.
  - pose proof (DatetimeFacts.strptime_in_range _ _ Ed) as R.
    destruct (Z.ltb_spec dep Datetime.MAXORDINAL) as [L | G].
    + destruct (Datetime.strptime return_date) as [ret | e] eqn:Er.
      * now apply gather_activities_total.
      * pose proof (strptime_raises _ _ Er) as ->.
        unfold gather_activities, bind. rewrite Ed, Er.
        now rewrite DatetimeFacts.add_days_in_range by lia.
    + assert (O : gather_activities scrape_all_activities destination
                    departure_date return_date = Raise OverflowError).
      { unfold gather_activities, bind, Datetime.add_days. rewrite Ed.
        assert ((dep + 1 <=? Datetime.MAXORDINAL)%Z = false) as ->
          by (apply Z.leb_gt; lia).
        now rewrite andb_false_r. }
      now destruct (Datetime.strptime return_date).
  - pose proof (strptime_raises _ _ Ed) as ->.
    unfold gather_activities, bind. now rewrite Ed.
Qed.


(** ** The itinerary a caller gets *)

Lemma plan_dates (activities : list candidate) (plans : list DayPlan.t)
    (ds : list Z) :
  Forall2 (plan_of_day activities) plans ds ->
  map DayPlan.date plans = map Datetime.strftime ds.
Proof.
  induction 1 as [| p d plans ds (E & _) _ IH]; [reflexivity |].
  cbn [map]. now rewrite E, IH.
Qed.

Lemma or_default_given (s : string) (default : result string) :
  s <> EmptyString -> or_default (Some s) default = Ok s.
Proof.
  intros N. unfold or_default.
  destruct (String.eqb_spec s EmptyString); [contradiction | reflexivity].
Qed.

Lemma parsed_is_not_empty (s : string) (d : Z) :
  Datetime.strptime s = Ok d -> s <> EmptyString.
Proof. intros E ->. discriminate. Qed.

(** The statements of [optimize] once both dates are known. *)
Lemma optimize_with_dates (origin destination : string)
    (departure_date return_date : string) (given : option string)
    (travelers : Z) (cw tw : pyfloat) :
  departure_date <> EmptyString ->
  or_default given (default_return_date departure_date) = Ok return_date ->
  optimize now scrape_all_flights scrape_all_hotels scrape_all_activities
    origin destination (Some departure_date) given travelers cw tw
  = (all_activities <-
       gather_activities scrape_all_activities destination
         departure_date return_date ;;
     optimizer <- init cw tw ;;
     create_itinerary optimizer
       (scrape_all_flights origin destination departure_date return_date
          travelers)
       (scrape_all_hotels destination departure_date return_date travelers)
       all_activities departure_date return_date).
Proof.
  intros N E. unfold optimize.
  rewrite (or_default_given _ _ N). cbn [bind]. rewrite E. reflexivity.
Qed.

Lemma init_accepts (cw tw : pyfloat) :
  (abs (cw + tw - one) >? lit 1 100)%F = false ->
  init cw tw = Ok (mkOptimizer cw tw).
Proof. intros W. unfold init. now rewrite W. Qed.

Lemma init_outcome (cw tw : pyfloat) :
  init cw tw
  = if (abs (cw + tw - one) >? lit 1 100)%F then Raise ValueError
    else Ok (mkOptimizer cw tw).
Proof. reflexivity. Qed.

Lemma six_days (dep : Z) :
  full_days dep (dep + 7)
  = [dep + 1; dep + 2; dep + 3; dep + 4; dep + 5; dep + 6]%Z.
Proof.
  unfold full_days. replace (dep + 7 - dep - 1)%Z with 6%Z by lia.
  change (Z.to_nat 6) with 6%nat.
  rewrite !days_from_S. unfold days_from. cbn [seq map].
  repeat (f_equal; try lia).
Qed.

(** What [optimize] returns for a departure date that is given, once the
    return date is settled. *)
Lemma optimize_returns (origin destination : string)
    (departure_date return_date : string) (given : option string)
    (dep ret : Z) (travelers : Z) (cw tw : pyfloat) :
  or_default given (default_return_date departure_date) = Ok return_date ->
  Datetime.strptime departure_date = Ok dep ->
  Datetime.strptime return_date = Ok ret ->
  (dep < Datetime.MAXORDINAL)%Z ->
  (abs (cw + tw - one) >? lit 1 100)%F = false ->
  exists bf bh plans,
    select_best_flight (mkOptimizer cw tw)
      (scrape_all_flights origin destination departure_date return_date
         travelers) = Ok bf
    /\ Forall2
         (plan_of_day
            (scraped scrape_all_activities destination (full_days dep ret)))
         plans (full_days dep ret)
    /\ optimize now scrape_all_flights scrape_all_hotels
         scrape_all_activities origin destination (Some departure_date)
         given travelers cw tw
       = Ok (mkItinerary bf bh plans
               (Summary.mk
                  (price_or_zero bf + price_or_zero bh
                   + py_sum (map DayPlan.total_cost plans))
                  (hours_or_zero bf
                   + py_sum (map DayPlan.total_time_hours plans))
                  (ret - dep) departure_date return_date)).
Proof.
  intros Eg Ed Er L W.
  rewrite (optimize_with_dates origin destination departure_date
             return_date given travelers cw tw
             (parsed_is_not_empty _ _ Ed) Eg).
  rewrite (gather_activities_total scrape_all_activities destination
             _ _ dep ret Ed Er L).
  cbn [bind]. rewrite (init_accepts _ _ W). cbn [bind].
  match goal with
  | |- context [create_itinerary ?o ?f ?h ?a ?d ?r] =>
      destruct (create_itinerary_total o f h a d r dep ret Ed Er L)
        as (bf & bh & plans & F & _ & P & ->)
  end.
  exists bf, bh, plans. now repeat split.
Qed.


(** ** Every day is planned from what was scraped for it *)

Lemma filter_all {A : Type} (f : A -> bool) (l : list A) :
  (forall a, In a l -> f a = true) -> filter f l = l.
Proof.
  induction l as [| a l IH]; intros F; [reflexivity |]. cbn [filter].
  rewrite (F a (or_introl eq_refl)), IH; [reflexivity |].
  intros b Ib. apply F. now right.
Qed.

Lemma filter_none {A : Type} (f : A -> bool) (l : list A) :
  (forall a, In a l -> f a = false) -> filter f l = [].
Proof.
  induction l as [| a l IH]; intros F; [reflexivity |]. cbn [filter].
  rewrite (F a (or_introl eq_refl)). apply IH.
  intros b Ib. apply F. now right.
Qed.

Lemma dated_iff (date_str : string) (a : candidate) :
  dated date_str a = true <-> date a = Some date_str.
Proof.
  unfold dated. destruct (date a) as [s |].
  - rewrite String.eqb_eq. split; congruence.
  - split; discriminate.
Qed.

Section Labelled.

Variable destination : string.

(** The scraper labels every activity with the date it was asked for. *)
Hypothesis labelled :
  forall date_str a,
    In a (scrape_all_activities destination date_str) ->
    date a = Some date_str.

Lemma scraped_of_other_days (day : Z) (ds : list Z) :
  (1 <= day <= Datetime.MAXORDINAL)%Z ->
  Forall (fun d => (1 <= d <= Datetime.MAXORDINAL)%Z /\ d <> day) ds ->
  filter (dated (Datetime.strftime day))
         (scraped scrape_all_activities destination ds) = [].
Proof.
  intros R F. apply filter_none. intros a Ia.
  unfold scraped in Ia. apply in_flat_map in Ia. destruct Ia as (d & Id & Ia).
  rewrite Forall_forall in F. destruct (F d Id) as [Rd Nd].
  apply labelled in Ia.
  destruct (dated (Datetime.strftime day) a) eqn:D; [| reflexivity].
  apply dated_iff in D. rewrite D in Ia. injection Ia as S.
  apply strftime_injective in S; [congruence | exact R | exact Rd].
Qed.

Lemma scraped_of_the_day (day : Z) (ds : list Z) :
  Forall (fun d => (1 <= d <= Datetime.MAXORDINAL)%Z) ds ->
  NoDup ds -> In day ds ->
  filter (dated (Datetime.strftime day))
         (scraped scrape_all_activities destination ds)
  = scrape_all_activities destination (Datetime.strftime day).
Proof.
  induction ds as [| d ds IH]; intros F ND I; [destruct I |].
  inversion F as [| ? ? Rd Fds]; subst. inversion ND as [| ? ? Nd NDds]; subst.
  unfold scraped. cbn [flat_map]. rewrite filter_app.
  fold (scraped scrape_all_activities destination ds).
  destruct (Z.eq_dec d day) as [-> | Ne].
  - rewrite filter_all by (intros a Ia; apply dated_iff; now apply labelled).
    rewrite scraped_of_other_days; [now rewrite app_nil_r | exact Rd |].
    rewrite Forall_forall in *. intros x Ix. split; [now apply Fds |].
    intros ->. contradiction.
  - destruct I as [E | I]; [contradiction |].
    rewrite filter_none; [now apply IH |].
    intros a Ia. apply labelled in Ia.
    destruct (dated (Datetime.strftime day) a) eqn:D; [| reflexivity].
    apply dated_iff in D. rewrite D in Ia. injection Ia as S.
    rewrite Forall_forall in Fds. apply strftime_injective in S;
      [congruence | now apply Fds | exact Rd].
Qed.

End Labelled.

Lemma days_from_NoDup (n : nat) : forall first, NoDup (days_from first n).
Proof.
  induction n as [| n IH]; intros first; [constructor |].
  rewrite days_from_S. constructor; [| apply IH].
  rewrite days_from_In. lia.
Qed.

Lemma full_days_in_range (dep ret : Z) :
  (1 <= dep)%Z -> (ret <= Datetime.MAXORDINAL)%Z ->
  Forall (fun d => (1 <= d <= Datetime.MAXORDINAL)%Z) (full_days dep ret).
Proof.
  intros L U. apply Forall_forall. intros d I. apply full_days_In in I. lia.
Qed.

(** The plans of an itinerary that [optimize] returns are made from
    what was scraped for the full days of the trip. *)
Lemma optimize_plans (origin destination : string)
    (departure_date return_date : option string) (travelers : Z)
    (cw tw : pyfloat) (it : itinerary) :
  optimize now scrape_all_flights scrape_all_hotels scrape_all_activities
    origin destination departure_date return_date travelers cw tw
  = Ok it ->
  exists dep ret,
    (1 <= dep)%Z /\ (ret <= Datetime.MAXORDINAL)%Z
    /\ Forall2
         (plan_of_day
            (scraped scrape_all_activities destination (full_days dep ret)))
         (days it) (full_days dep ret).
Proof.
  unfold optimize, bind.
  destruct (or_default departure_date _) as [dd |]; [| discriminate].
  destruct (or_default return_date _) as [rd |]; [| discriminate].
  destruct (gather_activities _ _ _ _) as [all |] eqn:G; [| discriminate].
  destruct (init cw tw) as [optimizer |]; [| discriminate].
  intros E.
  destruct (create_itinerary_plans _ _ _ _ _ _ _ E)
    as (dep & ret & Ed & Er & Rd & Rr & _ & P).
  rewrite (gather_activities_total scrape_all_activities destination
             _ _ dep ret Ed Er) in G by lia.
  injection G as <-.
  exists dep, ret. repeat split; [lia | lia | exact P].
Qed.

(** X22.  When the scraper labels every activity with the date it was
    asked for (as [MockTravelScraper.scrape_activities] does), every day
    plan of an itinerary that [optimize] returns holds exactly what
    [select_activities] selects from the scraper's answer for the date of
    that plan: the activities collected for the other days of the trip
    play no part in it. *)
Theorem optimize_plans_each_day_from_what_was_scraped
    (origin destination : string) (departure_date return_date : option string)
    (travelers : Z) (cw tw : pyfloat) (it : itinerary) :
  (forall date_str a,
     In a (scrape_all_activities destination date_str) ->
     date a = Some date_str) ->
  optimize now scrape_all_flights scrape_all_hotels scrape_all_activities
    origin destination departure_date return_date travelers cw tw
  = Ok it ->
  Forall (fun plan =>
            select_activities
              (scrape_all_activities destination (DayPlan.date plan))
              default_max_activities_per_day default_max_total_hours
            = Ok (DayPlan.activities plan))
         (days it).
Proof.
  intros Labelled E.
  destruct (optimize_plans _ _ _ _ _ _ _ _ E) as (dep & ret & Rd & Rr & P).
  apply Forall_forall. intros plan Ip.
  destruct (Forall2_In_left _ _ _ _ P Ip) as (day & Iday & Ep & Es & _).
  rewrite Ep. rewrite <- Es. f_equal. symmetry.
  apply scraped_of_the_day.
  - exact Labelled.
  - now apply full_days_in_range.
  - apply days_from_NoDup.
  - exact Iday.
Qed.


End CallerTheorems.



Lemma optimize_plans_each_day_from_what_was_scraped_witness :
  exists it,
    optimize Sample.today Sample.flights_of Sample.hotels_of
      Sample.activities_on "New York" "Paris"
      (Some "2025-06-01"%string) (Some "2025-06-04"%string)
      2 (lit 6 10) (lit 4 10)
    = Ok it
    /\ Forall (fun plan =>
                 select_activities
                   (Sample.activities_on "Paris" (DayPlan.date plan))
                   default_max_activities_per_day default_max_total_hours
                 = Ok (DayPlan.activities plan))
              (days it).
Proof.
  eassert (optimize Sample.today Sample.flights_of Sample.hotels_of
             Sample.activities_on "New York" "Paris"
             (Some "2025-06-01"%string) (Some "2025-06-04"%string)
             2 (lit 6 10) (lit 4 10) = Ok _) as E
    by (vm_compute; reflexivity).
  eexists. split; [exact E |].
  refine (optimize_plans_each_day_from_what_was_scraped
            _ _ _ _ _ _ _ _ _ _ _ _ _ E).
  intros date_str a [<- | [<- | []]]; reflexivity.
Defined.


(** ** A first candidate that is best on both keys *)

Lemma first_flight_dominates (self : ItineraryOptimizer)
    (first : candidate) (others : list candidate) (cw tw : Qc) :
  cost_weight self = Fin cw -> time_weight self = Fin tw ->
  (0 <= cw)%Qc -> (0 <= tw)%Qc ->
  finite (map cost_of (first :: others)) ->
  finite (map time_of (first :: others)) ->
  (forall f, In f others ->
     (cost_of first <=? cost_of f)%F = true
     /\ (time_of first <=? time_of f)%F = true) ->
  select_best_flight self (first :: others) = Ok (Some first).
Proof.
  intros Ecw Etw Wc Wt Fc Ft Dom.
  destruct (selected_flight self (first :: others) cw tw Ecw Etw
              ltac:(discriminate) Fc Ft)
    as (g & h & i & best & pb & db & E & Ni & Epb & Edb & Ag & Ah & Sk).
  destruct i as [| i]; [cbn in Ni; congruence |]. exfalso.
  destruct (Sk 0%nat first eq_refl) as (p & d & Ep & Ed & _ & Lt).
  specialize (Lt (Nat.lt_0_succ i)).
  assert (Ib : In best others) by (eapply nth_error_In; exact Ni).
  destruct (Dom best Ib) as [Dc Dt].
  rewrite Ep, Epb in Dc. rewrite Ed, Edb in Dt.
  apply leb_Fin in Dc. apply leb_Fin in Dt.
  assert (Ip : In (Fin p) (map cost_of (first :: others)))
    by (rewrite <- Ep; apply in_map; now left).
  assert (Id : In (Fin d) (map time_of (first :: others)))
    by (rewrite <- Ed; apply in_map; now left).
  assert (Ipb : In (Fin pb) (map cost_of (first :: others)))
    by (rewrite <- Epb; apply in_map; now right).
  assert (Idb : In (Fin db) (map time_of (first :: others)))
    by (rewrite <- Edb; apply in_map; now right).
  destruct (Ag p pb Ip Ipb) as [A1 _]. destruct (Ah d db Id Idb) as [B1 _].
  exact (Qc_lt_not_le _ _ Lt (weighted_le cw tw _ _ _ _ Wc Wt (A1 Dc) (B1 Dt))).
Qed.

(** ** The mock scrapers *)

Lemma fold_left_extend {A B : Type} (f : B -> list A) (l : list B) :
  forall acc, fold_left (fun acc x => acc ++ f x) l acc = acc ++ flat_map f l.
Proof.
  induction l as [| x l IH]; intros acc; cbn [fold_left flat_map].
  - now rewrite app_nil_r.
  - now rewrite IH, app_assoc.
Qed.

Lemma scrapers_nonempty (websites : list string) :
  websites <> [] ->
  exists site others, MultiSiteScraper.scrapers websites = site :: others.
Proof.
  destruct websites as [| site rest]; [congruence |]. intros _.
  unfold MultiSiteScraper.scrapers. cbn. eauto.
Qed.

Lemma leb_of_Z (x y : Z) : (of_Z x <=? of_Z y)%F = true <-> (x <= y)%Z.
Proof.
  unfold of_Z, lit. rewrite leb_Fin. unfold Qcle. rewrite !Qc_Q2Qc.
  unfold Qle. cbn. lia.
Qed.

Lemma ltb_of_Z (x y : Z) : (of_Z x <? of_Z y)%F = true <-> (x < y)%Z.
Proof.
  unfold of_Z, lit. rewrite ltb_Fin. unfold Qclt. rewrite !Qc_Q2Qc.
  unfold Qlt. cbn. lia.
Qed.

Section MockFacts.

Variable hash : string -> Z.
Variable websites : list string.

Lemma scrape_all_flights_concat
    (origin destination departure_date return_date : string) (travelers : Z) :
  MultiSiteScraper.scrape_all_flights hash websites origin destination
    departure_date return_date travelers
  = flat_map
      (fun _ : string =>
         MockTravelScraper.scrape_flights hash origin destination
           departure_date return_date travelers)
      (MultiSiteScraper.scrapers websites).
Proof.
  unfold MultiSiteScraper.scrape_all_flights. now rewrite fold_left_extend.
Qed.

Lemma scrape_all_activities_concat (destination date : string) :
  MultiSiteScraper.scrape_all_activities hash websites destination date
  = flat_map
      (fun _ : string =>
         MockTravelScraper.scrape_activities hash destination date)
      (MultiSiteScraper.scrapers websites).
Proof.
  unfold MultiSiteScraper.scrape_all_activities. now rewrite fold_left_extend.
Qed.

Lemma mock_flight_keys
    (origin destination departure_date return_date : string)
    (travelers : Z) (f : candidate) :
  In f (MockTravelScraper.scrape_flights hash origin destination
          departure_date return_date travelers) ->
  exists i airline q,
    f = MockTravelScraper.flight hash origin destination travelers i airline
    /\ cost_of f
       = of_Z ((800 + (Z.of_nat i * 50
                       + hash (origin ++ destination) mod 200))
               * travelers)
    /\ time_of f = Fin q
    /\ (time_of (MockTravelScraper.flight hash origin destination travelers
                   0 "Delta") <=? time_of f)%F = true.
Proof.
  intros I. cbn in I.
  repeat (destruct I as [<- | I];
          [eexists; eexists; eexists;
           split; [reflexivity |]; split; [reflexivity |];
           split; [reflexivity | vm_compute; reflexivity] |]).
  destruct I.
Qed.

(** The first airline of the first website is best on both keys. *)
Lemma mock_flights_dominated
    (origin destination departure_date return_date : string)
    (travelers : Z) :
  websites <> [] -> (0 <= travelers)%Z ->
  let delta :=
    MockTravelScraper.flight hash origin destination travelers 0 "Delta" in
  exists others,
    MultiSiteScraper.scrape_all_flights hash websites origin destination
      departure_date return_date travelers = delta :: others
    /\ finite (map cost_of (delta :: others))
    /\ finite (map time_of (delta :: others))
    /\ (forall f, In f others ->
          (cost_of delta <=? cost_of f)%F = true
          /\ (time_of delta <=? time_of f)%F = true).
Proof.
  intros NE T delta.
  rewrite scrape_all_flights_concat.
  destruct (scrapers_nonempty websites NE) as (site & others & ->).
  set (all := flat_map _ _).
  assert (K : forall f, In f all ->
                exists q q',
                  cost_of f = Fin q /\ time_of f = Fin q'
                  /\ (cost_of delta <=? cost_of f)%F = true
                  /\ (time_of delta <=? time_of f)%F = true).
  { intros f If. subst all. apply in_flat_map in If.
    destruct If as (_ & _ & If).
    destruct (mock_flight_keys _ _ _ _ _ _ If)
      as (i & airline & q' & _ & Ec & Et & Lt).
    eexists. exists q'. rewrite Ec.
    split; [reflexivity |]. split; [exact Et |]. split; [| exact Lt].
    apply leb_of_Z. nia. }
  assert (Eall : exists others', all = delta :: others').
  { subst all. cbn [flat_map]. eexists. reflexivity. }
  destruct Eall as (others' & Eall). rewrite Eall in *.
  exists others'. split; [reflexivity |]. split; [| split].
  - apply Forall_forall. intros x Ix. apply in_map_iff in Ix.
    destruct Ix as (f & <- & If).
    destruct (K f If) as (q & _ & -> & _). reflexivity.
  - apply Forall_forall. intros x Ix. apply in_map_iff in Ix.
    destruct Ix as (f & <- & If).
    destruct (K f If) as (_ & q' & _ & -> & _). reflexivity.
  - intros f If. destruct (K f (or_intror If)) as (_ & _ & _ & _ & L1 & L2).
    now split.
Qed.

(** X24.  On the flights of the mock scraper the weights decide
    nothing.  Whatever the origin, the destination, the dates, the
    websites (at least one), the number of travellers (not negative), the
    value of [hash] and the two weights (finite, not negative),
    [select_best_flight] returns the first airline of the first website,
    Delta, which is the cheapest and the fastest offer at once. *)
Theorem mock_flights_always_give_the_first_airline
    (origin destination departure_date return_date : string)
    (travelers : Z) (self : ItineraryOptimizer) (cw tw : Qc) :
  cost_weight self = Fin cw -> time_weight self = Fin tw ->
  (0 <= cw)%Qc -> (0 <= tw)%Qc ->
  websites <> [] -> (0 <= travelers)%Z ->
  select_best_flight self
    (MultiSiteScraper.scrape_all_flights hash websites origin destination
       departure_date return_date travelers)
  = Ok (Some (MockTravelScraper.flight hash origin destination travelers
                0 "Delta")).
Proof.
  intros Ecw Etw Wc Wt NE T.
  destruct (mock_flights_dominated origin destination departure_date
              return_date travelers NE T) as (others & -> & Fc & Ft & Dom).
  exact (first_flight_dominates self _ _ cw tw Ecw Etw Wc Wt Fc Ft Dom).
Qed.

Lemma mock_activity_keys (destination date_str : string) (a : candidate) :
  In a (MockTravelScraper.scrape_activities hash destination date_str) ->
  date a = Some date_str
  /\ exists i name,
       a = MockTravelScraper.activity hash destination date_str i name.
Proof.
  intros I. cbn in I.
  repeat (destruct I as [<- | I];
          [split; [reflexivity | eexists; eexists; reflexivity] |]).
  destruct I.
Qed.

Lemma mock_activities_labelled (destination date_str : string)
    (a : candidate) :
  In a (MultiSiteScraper.scrape_all_activities hash websites
          destination date_str) ->
  date a = Some date_str
  /\ exists i name,
       a = MockTravelScraper.activity hash destination date_str i name.
Proof.
  rewrite scrape_all_activities_concat. intros I.
  apply in_flat_map in I. destruct I as (_ & _ & I).
  now apply mock_activity_keys.
Qed.

(** The first activity of the first website fits a day on its own. *)
Lemma mock_city_tour (destination date_str : string) :
  websites <> [] ->
  let a := MockTravelScraper.activity hash destination date_str
             0 "City Tour" in
  In a (MultiSiteScraper.scrape_all_activities hash websites
          destination date_str)
  /\ (zero <? Reference.price a)%F = true
  /\ (zero <? Reference.duration a)%F = true
  /\ (Reference.duration a <=? default_max_total_hours)%F = true.
Proof.
  intros NE a. split; [| split; [| split]].
  - rewrite scrape_all_activities_concat.
    destruct (scrapers_nonempty websites NE) as (site & others & ->).
    cbn [flat_map]. apply in_or_app. left. now left.
  - apply ltb_of_Z.
    pose proof (Z.mod_pos_bound (hash (destination ++ "City Tour")) 50
                  eq_refl).
    lia.
  - reflexivity.
  - reflexivity.
Qed.

(** A plan made from the mock activities of some days, for one of these
    days, holds one to three of them. *)
Lemma mock_plan_filled (destination : string) (ds : list Z)
    (plan : DayPlan.t) (day : Z) :
  websites <> [] -> In day ds ->
  plan_of_day
    (scraped (MultiSiteScraper.scrape_all_activities hash websites)
       destination ds)
    plan day ->
  (1 <= List.length (DayPlan.activities plan) <= 3)%nat
  /\ Forall (fun a =>
               exists i name,
                 a = MockTravelScraper.activity hash destination
                       (DayPlan.date plan) i name)
            (DayPlan.activities plan).
Proof.
  intros NE Iday (Ep & Es & _).
  destruct (mock_city_tour destination (Datetime.strftime day) NE)
    as (I & Pp & Pd & Pf).
  split; [split |].
  - assert (N : DayPlan.activities plan <> []).
    { refine (select_activities_nonempty _ _ _ _ _ _ _ _ Pf Es).
      - reflexivity.
      - apply filter_In. split; [| apply dated_iff; reflexivity].
        unfold scraped. apply in_flat_map. exists day. now split.
      - apply scorable_iff. now split. }
    destruct (DayPlan.activities plan); [congruence | cbn; lia].
  - pose proof (select_activities_count _ _ _ _ Es) as Hk.
    unfold default_max_activities_per_day in Hk. lia.
  - apply Forall_forall. intros a Ia.
    destruct (select_activities_members _ _ _ _ a Es Ia) as (Ia' & _).
    apply filter_In in Ia'. destruct Ia' as [Ia' Da].
    apply dated_iff in Da.
    unfold scraped in Ia'. apply in_flat_map in Ia'.
    destruct Ia' as (d & _ & Ia').
    apply mock_activities_labelled in Ia'.
    destruct Ia' as (Dd & i & name & Ea).
    exists i, name. rewrite Ep.
    assert (Datetime.strftime d = Datetime.strftime day) as <- by congruence.
    exact Ea.
Qed.

(** X25.  With the mock scrapers behind [optimize] and at least one
    website, every day plan of the itinerary returned has at least one and
    at most three activities, each of them an activity that
    [MockTravelScraper.scrape_activities] generates for the date of that
    plan. *)
Theorem mock_activities_fill_every_day (now : Z)
    (origin destination : string) (departure_date return_date : option string)
    (travelers : Z) (cw tw : pyfloat) (it : itinerary) :
  websites <> [] ->
  optimize now
    (MultiSiteScraper.scrape_all_flights hash websites)
    (MultiSiteScraper.scrape_all_hotels hash websites)
    (MultiSiteScraper.scrape_all_activities hash websites)
    origin destination departure_date return_date travelers cw tw
  = Ok it ->
  Forall (fun plan =>
            (1 <= List.length (DayPlan.activities plan) <= 3)%nat
            /\ Forall (fun a =>
                         exists i name,
                           a = MockTravelScraper.activity hash destination
                                 (DayPlan.date plan) i name)
                      (DayPlan.activities plan))
         (days it).
Proof.
  intros NE E.
  destruct (optimize_plans _ _ _ _ _ _ _ _ _ _ _ _ E)
    as (dep & ret & _ & _ & P).
  apply Forall_forall. intros plan Ip.
  destruct (Forall2_In_left _ _ _ _ P Ip) as (day & Iday & Pd).
  exact (mock_plan_filled destination _ plan day NE Iday Pd).
Qed.

Lemma mock_hotel_keys (destination : string) (nights : Z) (h : candidate) :
  In h (map (fun p => MockTravelScraper.hotel hash destination nights
                        (fst p) (snd p))
            (enumerate MockTravelScraper.hotel_names)) ->
  exists nightly,
    (120 <= nightly)%Z
    /\ total_price h = Some (of_Z (nightly * nights))
    /\ (lit 35 10 <=? rating_of h)%F = true
    /\ (rating_of h <=? lit 50 10)%F = true.
Proof.
  intros I. cbn in I.
  pose proof (Z.mod_pos_bound (hash destination) 100 eq_refl).
  repeat (destruct I as [<- | I];
          [eexists; split; [| split; [reflexivity |];
                                split; vm_compute; reflexivity]; lia |]).
  destruct I.
Qed.

Lemma fold_left_skip {A B : Type} (l : list B) (acc : list A) :
  fold_left (fun (acc : list A) (_ : B) => acc) l acc = acc.
Proof. induction l as [| x l IH]; [reflexivity | exact IH]. Qed.

Lemma flat_map_constant_length {A B : Type} (l : list B) (block : list A) :
  List.length (flat_map (fun _ : B => block) l)
  = (List.length block * List.length l)%nat.
Proof.
  induction l as [| x l IH]; cbn [flat_map List.length]; [lia |].
  rewrite length_app, IH. lia.
Qed.

(** X26.  [MultiSiteScraper.scrape_all_hotels] never raises.  When a date
    does not parse, the error of every website's scraper is caught and the
    list is empty.  When both dates parse, there are ten hotels for each
    website, each rated between 3.5 and 5.0, and the [total_price] of each
    is a nightly price of at least 120 times the number of nights
    (check-out minus check-in): zero for a stay that ends the day it
    begins, negative when the check-out is before the check-in. *)
Theorem mock_hotels_follow_the_nights
    (destination check_in check_out : string) (travelers : Z) :
  let hotels :=
    MultiSiteScraper.scrape_all_hotels hash websites destination
      check_in check_out travelers in
  (forall e,
     Datetime.strptime check_in = Raise e
     \/ Datetime.strptime check_out = Raise e ->
     hotels = [])
  /\ (forall a b,
        Datetime.strptime check_in = Ok a ->
        Datetime.strptime check_out = Ok b ->
        List.length hotels
        = (10 * List.length (MultiSiteScraper.scrapers websites))%nat
        /\ Forall (fun h =>
                     exists nightly,
                       (120 <= nightly)%Z
                       /\ total_price h = Some (of_Z (nightly * (b - a)))
                       /\ (lit 35 10 <=? rating_of h)%F = true
                       /\ (rating_of h <=? lit 50 10)%F = true)
                  hotels).
Proof.
  intros hotels. subst hotels.
  unfold MultiSiteScraper.scrape_all_hotels, MockTravelScraper.scrape_hotels.
  split.
  - intros e [E | E].
    + rewrite E. cbn [bind]. apply fold_left_skip.
    + rewrite E. destruct (Datetime.strptime check_in); cbn [bind];
        apply fold_left_skip.
  - intros a b Ea Eb. rewrite Ea, Eb. cbn [bind].
    rewrite fold_left_extend. cbn [app]. split.
    + rewrite flat_map_constant_length. reflexivity.
    + apply Forall_forall. intros h Ih. apply in_flat_map in Ih.
      destruct Ih as (_ & _ & Ih).
      exact (mock_hotel_keys destination (b - a) h Ih).
Qed.

End MockFacts.

Lemma mock_flights_always_give_the_first_airline_witness :
  select_best_flight Example.weights
    (MultiSiteScraper.scrape_all_flights Sample.length_hash
       Config.TRAVEL_WEBSITES "New York" "Paris" "2025-06-01" "2025-06-08" 2)
  = Ok (Some (MockTravelScraper.flight Sample.length_hash
                "New York" "Paris" 2 0 "Delta")).
Proof.
  apply (mock_flights_always_give_the_first_airline
           Sample.length_hash Config.TRAVEL_WEBSITES
           "New York" "Paris" "2025-06-01" "2025-06-08" 2 Example.weights
           (Q2Qc (6 # 10)) (Q2Qc (4 # 10)) eq_refl eq_refl).
  - vm_compute. discriminate.
  - vm_compute. discriminate.
  - discriminate.
  - lia.
Defined.

Lemma mock_activities_fill_every_day_witness :
  exists it,
    optimize Sample.today
      (MultiSiteScraper.scrape_all_flights Sample.length_hash
         Config.TRAVEL_WEBSITES)
      (MultiSiteScraper.scrape_all_hotels Sample.length_hash
         Config.TRAVEL_WEBSITES)
      (MultiSiteScraper.scrape_all_activities Sample.length_hash
         Config.TRAVEL_WEBSITES)
      "New York" "Paris" (Some "2025-06-01"%string) (Some "2025-06-04"%string)
      Config.DEFAULT_TRAVELERS Config.COST_WEIGHT Config.TIME_WEIGHT
    = Ok it
    /\ Forall (fun plan =>
                 (1 <= List.length (DayPlan.activities plan) <= 3)%nat
                 /\ Forall (fun a =>
                              exists i name,
                                a = MockTravelScraper.activity
                                      Sample.length_hash "Paris"
                                      (DayPlan.date plan) i name)
                           (DayPlan.activities plan))
              (days it).
Proof.
  eassert (optimize Sample.today
             (MultiSiteScraper.scrape_all_flights Sample.length_hash
                Config.TRAVEL_WEBSITES)
             (MultiSiteScraper.scrape_all_hotels Sample.length_hash
                Config.TRAVEL_WEBSITES)
             (MultiSiteScraper.scrape_all_activities Sample.length_hash
                Config.TRAVEL_WEBSITES)
             "New York" "Paris"
             (Some "2025-06-01"%string) (Some "2025-06-04"%string)
             Config.DEFAULT_TRAVELERS Config.COST_WEIGHT Config.TIME_WEIGHT
           = Ok _) as E
    by (vm_compute; reflexivity).
  eexists. split; [exact E |].
  refine (mock_activities_fill_every_day _ _ _ _ _ _ _ _ _ _ _ _ E).
  discriminate.
Defined.

Lemma mock_hotels_follow_the_nights_witness :
  let hotels :=
    MultiSiteScraper.scrape_all_hotels Sample.length_hash
      Config.TRAVEL_WEBSITES "Paris" "2025-06-08" "2025-06-01" 2 in
  List.length hotels = 100%nat
  /\ Forall (fun h =>
               exists nightly,
                 (120 <= nightly)%Z
                 /\ total_price h = Some (of_Z (nightly * (739403 - 739410)))
                 /\ (lit 35 10 <=? rating_of h)%F = true
                 /\ (rating_of h <=? lit 50 10)%F = true)
            hotels.
Proof.
  exact (proj2 (mock_hotels_follow_the_nights Sample.length_hash
                  Config.TRAVEL_WEBSITES "Paris" "2025-06-08" "2025-06-01" 2)
           739410%Z 739403%Z eq_refl eq_refl).
Defined.

(** ** The example run *)

Section Pipeline.

Variable now : Z.
Variable scrape_all_flights :
  string -> string -> string -> string -> Z -> list candidate.
Variable scrape_all_hotels : string -> string -> string -> Z -> list candidate.
Variable scrape_all_activities : string -> string -> list candidate.

Lemma optimize_default_departure (origin destination : string)
    (return_date : option string) (travelers : Z) (cw tw : pyfloat) :
  (1 <= now)%Z -> (now + 30 <= Datetime.MAXORDINAL)%Z ->
  optimize now scrape_all_flights scrape_all_hotels scrape_all_activities
    origin destination None return_date travelers cw tw
  = optimize now scrape_all_flights scrape_all_hotels scrape_all_activities
      origin destination (Some (Datetime.strftime (now + 30))) return_date
      travelers cw tw.
Proof.
  intros L U. unfold optimize.
  assert (P : Datetime.strptime (Datetime.strftime (now + 30))
              = Ok (now + 30)%Z)
    by (apply DatetimeFacts.strptime_strftime; lia).
  rewrite (or_default_given _ _ (parsed_is_not_empty _ _ P)).
  cbn [or_default]. unfold default_departure_date, bind, Datetime.add_days.
  assert ((1 <=? now + 30)%Z && (now + 30 <=? Datetime.MAXORDINAL)%Z = true)
    as ->; [| reflexivity].
  apply andb_true_iff. split; apply Z.leb_le; lia.
Qed.

End Pipeline.

(** X27.  The example run ([example_basic_usage], which is what [main]
    does without arguments): whatever the value of [hash] and the day the
    clock shows (any day up to 37 days before the end of year 9999), it
    gets an itinerary that departs 30 days from now and returns 37 days
    from now, with [duration_days] 7, the Delta flight of the first
    website, and six day plans of one to three activities each. *)
Theorem example_basic_usage_plans_a_week (now : Z) (hash : string -> Z) :
  (1 <= now)%Z -> (now + 37 <= Datetime.MAXORDINAL)%Z ->
  exists it,
    example_basic_usage now hash = Ok it
    /\ Datetime.strptime (Summary.departure_date (summary it))
       = Ok (now + 30)%Z
    /\ Datetime.strptime (Summary.return_date (summary it))
       = Ok (now + 37)%Z
    /\ Summary.duration_days (summary it) = 7%Z
    /\ flight it
       = Some (MockTravelScraper.flight hash "New York" "Paris" 2 0 "Delta")
    /\ List.length (days it) = 6%nat
    /\ Forall (fun plan =>
                 (1 <= List.length (DayPlan.activities plan) <= 3)%nat)
              (days it).
Proof.
  intros L U. unfold example_basic_usage.
  assert (P : Datetime.strptime (Datetime.strftime (now + 30))
              = Ok (now + 30)%Z)
    by (apply DatetimeFacts.strptime_strftime; lia).
  destruct (default_return_date_total _ _ P) as [Er Pr]; [lia |].
  rewrite optimize_default_departure by lia.
  match goal with
  | |- context [optimize ?n ?sf ?sh ?sa ?o ?d (Some ?dd) None ?t ?cw ?tw] =>
      destruct (optimize_returns n sf sh sa o d dd
                  (Datetime.strftime (now + 30 + 7)) None
                  (now + 30)%Z (now + 30 + 7)%Z t cw tw Er P Pr)
        as (bf & bh & plans & F & Pl & ->); [lia | reflexivity |]
  end.
  eexists. split; [reflexivity |].
  cbn [summary days flight Summary.departure_date Summary.return_date
       Summary.duration_days].
  split; [exact P |].
  split; [rewrite Pr; f_equal; lia |].
  split; [lia |].
  split; [| split].
  - destruct (mock_flights_dominated hash Config.TRAVEL_WEBSITES
                "New York" "Paris" (Datetime.strftime (now + 30))
                (Datetime.strftime (now + 30 + 7)) 2)
      as (others & Ef & Fc & Ft & Dom); [discriminate | lia |].
    rewrite Ef in F.
    rewrite (first_flight_dominates
               (mkOptimizer Config.COST_WEIGHT Config.TIME_WEIGHT) _ _
               (Q2Qc (6 # 10)) (Q2Qc (4 # 10)) eq_refl eq_refl) in F;
      try assumption; try (vm_compute; discriminate).
    now injection F.
  - rewrite (Forall2_length Pl). unfold full_days, days_from.
    rewrite length_map, length_seq. f_equal. lia.
  - apply Forall_forall. intros plan Ip.
    destruct (Forall2_In_left _ _ _ _ Pl Ip) as (day & Iday & Pd).
    now destruct (mock_plan_filled hash Config.TRAVEL_WEBSITES "Paris" _
                    plan day ltac:(discriminate) Iday Pd).
Qed.

Lemma example_basic_usage_plans_a_week_witness :
  exists it,
    example_basic_usage Sample.today Sample.length_hash = Ok it
    /\ Datetime.strptime (Summary.departure_date (summary it))
       = Ok (Sample.today + 30)%Z
    /\ Datetime.strptime (Summary.return_date (summary it))
       = Ok (Sample.today + 37)%Z
    /\ Summary.duration_days (summary it) = 7%Z
    /\ flight it
       = Some (MockTravelScraper.flight Sample.length_hash
                 "New York" "Paris" 2 0 "Delta")
    /\ List.length (days it) = 6%nat
    /\ Forall (fun plan =>
                 (1 <= List.length (DayPlan.activities plan) <= 3)%nat)
              (days it).
Proof.
  apply (example_basic_usage_plans_a_week Sample.today
           Sample.length_hash).
  - vm_compute. discriminate.
  - vm_compute. discriminate.
Defined.
